(** * The Elastic job registry of openeo_driver, [openeo_driver/jobregistry.py]

    A shallow embedding of the job registry client (credential resolver,
    authenticated request pipeline, registry operations) and the properties
    of its request payloads, queries and error classification.

    Layout: Part I holds the definitions (Python values, exceptions, the
    effect monad, the collaborators, the registry itself, then the command
    line tool); Part II holds the lemmas and theorems on the registry;
    Part III holds further properties of the registry, of the credentials
    and of the command line tool. *)

From Stdlib Require Import ZArith String Ascii List Lia.
From stdpp Require Import base gmap strings list pretty.

Local Open Scope string_scope.
Local Open Scope Z_scope.

Set Warnings "-register-all".

(* ===================================================================== *)
(** * Part I. Definitions                                                  *)
(* ===================================================================== *)

(** ** Python strings *)

Module PyStr.

(** [all P s]: every character of [s] satisfies [P]. *)
Fixpoint all (P : ascii -> bool) (s : string) : bool :=
  match s with
  | EmptyString => true
  | String c r => P c && all P r
  end.

(** [c * n] for a one-character string [c]. *)
Fixpoint replicate (n : nat) (c : ascii) : string :=
  match n with
  | O => EmptyString
  | S k => String c (replicate k c)
  end.

(** [s[:n]] and [s[n:]] for [0 <= n]. *)
Fixpoint take (n : nat) (s : string) : string :=
  match n, s with
  | S k, String c r => String c (take k r)
  | _, _ => EmptyString
  end.

Fixpoint drop (n : nat) (s : string) : string :=
  match n, s with
  | S k, String _ r => drop k r
  | _, _ => s
  end.

(** [sep.join(l)]. *)
Fixpoint join (sep : string) (l : list string) : string :=
  match l with
  | [] => ""
  | [x] => x
  | x :: r => x +:+ sep +:+ join sep r
  end.

(** [p in s] as a proposition: [p] occurs in [s]. *)
Definition occurs_in (p s : string) : Prop :=
  exists a b, s = a +:+ p +:+ b.

(** Truth value of an [Optional[str]]: [None] and [""] are falsy. *)
Definition truthy (o : option string) : bool :=
  match o with
  | Some s => negb (String.eqb s "")
  | None => false
  end.

(** ASCII white space as [str.strip] sees it (tab .. carriage return,
    the four separators 0x1c .. 0x1f, and the blank). *)
Definition is_space (c : ascii) : bool :=
  let n := nat_of_ascii c in
  ((9 <=? n) && (n <=? 13) || (28 <=? n) && (n <=? 32))%nat.

Fixpoint lstrip (s : string) : string :=
  match s with
  | String c r => if is_space c then lstrip r else s
  | EmptyString => EmptyString
  end.

Fixpoint rstrip (s : string) : string :=
  match s with
  | EmptyString => EmptyString
  | String c r =>
      match rstrip r with
      | EmptyString => if is_space c then EmptyString else String c EmptyString
      | r' => String c r'
      end
  end.

Definition strip (s : string) : string := rstrip (lstrip s).

(** [s.replace(c, "")] for a single character [c]. *)
Fixpoint remove_char (x : ascii) (s : string) : string :=
  match s with
  | EmptyString => EmptyString
  | String c r => if Ascii.eqb c x then remove_char x r else String c (remove_char x r)
  end.

(** ASCII lower-casing of one character (for case-insensitive matching). *)
Definition lower (c : ascii) : ascii :=
  let n := nat_of_ascii c in
  if ((65 <=? n) && (n <=? 90))%nat then ascii_of_nat (n + 32) else c.

Definition is_digit (c : ascii) : bool :=
  let n := nat_of_ascii c in ((48 <=? n) && (n <=? 57))%nat.

(** Longest prefix of decimal digits, and what follows it (the regular
    expression [\d*], which is greedy). *)
Fixpoint span_digits (s : string) : string * string :=
  match s with
  | String c r =>
      if is_digit c then let '(d, t) := span_digits r in (String c d, t)
      else (EmptyString, s)
  | EmptyString => (EmptyString, EmptyString)
  end.

(** [int(s)] for a string of decimal digits, most significant first. *)
Fixpoint int_of_digits_from (acc : N) (s : string) : N :=
  match s with
  | EmptyString => acc
  | String c r => int_of_digits_from (10 * acc + (N.of_nat (nat_of_ascii c) - 48))%N r
  end.

Definition int_of_digits (s : string) : N := int_of_digits_from 0%N s.

(** What does not start with a digit. *)
Definition stops_digits (s : string) : Prop :=
  match s with
  | EmptyString => True
  | String c _ => is_digit c = false
  end.

(** Neither white space nor underscore. *)
Definition clean (c : ascii) : bool :=
  negb (is_space c) && negb (Ascii.eqb c "_").

(** [str(n)] for an integer. *)
Definition str_int (z : Z) : string := pretty z.

End PyStr.

(** ** [decimal.Decimal]: the text form and its reading

    [set_dependency_usage] stores [str(dependency_usage)].  The value is a
    [decimal.Decimal] of the Python standard library: a sign, a coefficient
    (kept by the library as a digit string without leading zeros, here the
    number itself) and an exponent, or one of the special values.  [__str__]
    and [of_str] follow the library's [Decimal.__str__] (the
    to-scientific-string conversion, default context, so the exponent marker
    is the capital E) and [Decimal.__new__] on a string, as the library's
    Python implementation has them: the exponent is an integer of any size.
    (The C implementation of the library keeps the exponent within a range
    of some 10^18 either way and rejects a text outside it; every decimal
    it can hold is a decimal here, with the same text.) *)

Module PyDecimal.

Import PyStr.

Inductive Decimal : Type :=
| Finite (sign : bool) (coefficient : N) (exponent : Z)
| Infinity (sign : bool)
| NaN (sign : bool) (signaling : bool) (payload : N).

Definition sign_str (sign : bool) : string := if sign then "-" else "".

(** The digit string [_int] of a NaN: empty for payload zero. *)
Definition payload_str (p : N) : string :=
  if decide (p = 0%N) then "" else pretty p.

(** ["%+d" % z]. *)
Definition fmt_plus_d (z : Z) : string :=
  if z <? 0 then "-" +:+ pretty (Z.to_N (- z)) else "+" +:+ pretty (Z.to_N z).

Definition __str__ (d : Decimal) : string :=
  match d with
  | Infinity sg => sign_str sg +:+ "Infinity"
  | NaN sg signaling p =>
      sign_str sg +:+ (if signaling then "sNaN" else "NaN") +:+ payload_str p
  | Finite sg c e =>
      let _int := pretty c in
      let len := Z.of_nat (String.length _int) in
      (* number of digits of _int to the left of the decimal point *)
      let leftdigits := e + len in
      let dotplace :=
        if (e <=? 0) && (-6 <? leftdigits) then leftdigits else 1 in
      let '(intpart, fracpart) :=
        if dotplace <=? 0 then
          ("0", "." +:+ replicate (Z.to_nat (- dotplace)) "0" +:+ _int)
        else if len <=? dotplace then
          (_int +:+ replicate (Z.to_nat (dotplace - len)) "0", "")
        else
          (take (Z.to_nat dotplace) _int, "." +:+ drop (Z.to_nat dotplace) _int) in
      let exp :=
        if leftdigits =? dotplace then ""
        else "E" +:+ fmt_plus_d (leftdigits - dotplace) in
      sign_str sg +:+ intpart +:+ fracpart +:+ exp
  end.

(** The optional sign [[-+]?] of the numeric-string pattern. *)
Definition split_sign (s : string) : bool * string :=
  match s with
  | String "-" r => (true, r)
  | String "+" r => (false, r)
  | _ => (false, s)
  end.

(** The look-ahead [(?=\d|\.\d)]: a number has at least one digit. *)
Definition starts_number (s : string) : bool :=
  match s with
  | String c r =>
      is_digit c ||
      (Ascii.eqb c "." && match r with String c' _ => is_digit c' | _ => false end)
  | EmptyString => false
  end.

(** The optional exponent [(E[-+]?\d+)?] followed by the end of the string:
    [Some e] with [e = int(exp or '0')], [None] when the tail does not match. *)
Definition parse_exponent (s : string) : option Z :=
  match s with
  | EmptyString => Some 0
  | String c r =>
      if Ascii.eqb (lower c) "e" then
        let '(sg, r') := match r with
                         | String "-" t => (true, t)
                         | String "+" t => (false, t)
                         | _ => (false, r)
                         end in
        match span_digits r' with
        | (String d ds, EmptyString) =>
            let n := Z.of_N (int_of_digits (String d ds)) in
            Some (if sg then - n else n)
        | _ => None
        end
      else None
  end.

Definition lower_str (s : string) : string :=
  (fix go s := match s with
               | EmptyString => EmptyString
               | String c r => String (lower c) (go r)
               end) s.

(** The special values [Inf(inity)?] and [(s)?NaN\d*], up to case. *)
Definition parse_special (sg : bool) (s : string) : option Decimal :=
  let l := lower_str s in
  if String.eqb l "inf" || String.eqb l "infinity" then Some (Infinity sg)
  else
    let '(signaling, t) := match l with
                           | String "s" t => (true, t)
                           | _ => (false, l)
                           end in
    match t with
    | String "n" (String "a" (String "n" diag)) =>
        match span_digits diag with
        | (ds, EmptyString) => Some (NaN sg signaling (int_of_digits ds))
        | _ => None
        end
    | _ => None
    end.

(** [Decimal(text)]: [None] stands for [InvalidOperation]. *)
Definition of_str (text : string) : option Decimal :=
  let s := remove_char "_" (strip text) in
  let '(sg, body) := split_sign s in
  if starts_number body then
    let '(intpart, r1) := span_digits body in
    let '(fracpart, r2) :=
      match r1 with
      | String "." r => span_digits r
      | _ => (EmptyString, r1)
      end in
    match parse_exponent r2 with
    | Some exp =>
        Some (Finite sg (int_of_digits (intpart +:+ fracpart))
                        (exp - Z.of_nat (String.length fracpart)))
    | None => None
    end
  else parse_special sg body.

End PyDecimal.

(** ** JSON documents and the Python operations used on them *)

(** What [response.json()] yields and what goes into a request body.  A
    Python [dict] with string keys is an association list in insertion
    order; a number that is not an integer is kept as its literal. *)
Inductive Json : Type :=
| JNull
| JBool (b : bool)
| JInt (z : Z)
| JFloat (literal : string)
| JStr (s : string)
| JList (l : list Json)
| JDict (d : list (string * Json)).

(** [JobDict = Dict[str, Any]]. *)
Definition JobDict : Type := list (string * Json).

Module PyDict.

(** [d.get(k)] as an option: the first binding of [k]. *)
Fixpoint get (d : JobDict) (k : string) : option Json :=
  match d with
  | [] => None
  | (k', v) :: r => if String.eqb k' k then Some v else get r k
  end.

(** [d[k] = v]: overwrite in place, or append a new key. *)
Fixpoint set (d : JobDict) (k : string) (v : Json) : JobDict :=
  match d with
  | [] => [(k, v)]
  | (k', v') :: r => if String.eqb k' k then (k', v) :: r else (k', v') :: set r k v
  end.

(** [list(d.keys())]. *)
Definition keys (d : JobDict) : list string := map fst d.

(** [d.update(other)]. *)
Definition update (d other : JobDict) : JobDict :=
  fold_left (fun acc kv => set acc (fst kv) (snd kv)) other d.

End PyDict.

(** An [Optional[str]] and an [Optional[dict]] as JSON values. *)
Definition json_of_opt_str (o : option string) : Json :=
  match o with Some s => JStr s | None => JNull end.

Definition json_of_opt (o : option Json) : Json :=
  match o with Some v => v | None => JNull end.

(** ** HTTP messages (the [requests] library's objects) *)

(** The arguments of [Session.request] as the registry passes them. *)
Record HttpRequest : Type := mkHttpRequest {
  method : string;
  url : string;
  json : option Json;
  headers : list (string * string);
  timeout : Z
}.

(** [response.request]: its method and URL. *)
Record PreparedRequest : Type := mkPreparedRequest {
  request_method : string;
  request_url : string
}.

Record Response : Type := mkResponse {
  status_code : Z;
  reason : string;
  text : string;
  request : PreparedRequest
}.

(** ** Exceptions *)

Inductive exn : Type :=
| AssertionError (msg : string)
| KeyError (key : string)
| TypeError
| AttributeError
| EjrError (msg : string)
| EjrHttpError (msg : string) (status : option Z)
| JobNotFoundException (job_id : string)
| InternalException (message : string)
| HTTPError (response : Response)          (* requests.HTTPError *)
| ExternalError (what : string).           (* raised inside a collaborator *)

Inductive outcome (A : Type) : Type :=
| Return (a : A)
| Raise (e : exn).

Arguments Return {A} a.
Arguments Raise {A} e.

Definition obind {A B} (o : outcome A) (k : A -> outcome B) : outcome B :=
  match o with
  | Return a => k a
  | Raise e => Raise e
  end.

Notation "'let?' x ':=' c 'in' k" := (obind c (fun x => k))
  (at level 10, x name, c at level 100, k at level 200).

(** Length, indexing, [.get] and iteration as Python performs them on a
    decoded JSON value, whatever its shape. *)
Module Py.

Definition len (v : Json) : outcome nat :=
  match v with
  | JList l => Return (length l)
  | JDict d => Return (length d)
  | JStr s => Return (String.length s)
  | _ => Raise TypeError
  end.

(** [v[0]]. *)
Definition first (v : Json) : outcome Json :=
  match v with
  | JList (x :: _) => Return x
  | JList [] => Raise (ExternalError "IndexError")
  | JDict _ => Raise (KeyError "0")
  | JStr (String c _) => Return (JStr (String c EmptyString))
  | JStr EmptyString => Raise (ExternalError "IndexError")
  | _ => Raise TypeError
  end.

(** [v[k]] for a string [k]. *)
Definition getitem (v : Json) (k : string) : outcome Json :=
  match v with
  | JDict d => match PyDict.get d k with
               | Some x => Return x
               | None => Raise (KeyError k)
               end
  | _ => Raise TypeError
  end.

(** [v.get(k)]. *)
Definition get (v : Json) (k : string) : outcome Json :=
  match v with
  | JDict d => Return (default JNull (PyDict.get d k))
  | _ => Raise AttributeError
  end.

(** The elements [for j in v] runs over ([None] where it cannot). *)
Definition iter (v : Json) : outcome (list Json) :=
  match v with
  | JList l => Return l
  | JDict d => Return (map (fun kv => JStr (fst kv)) d)
  | JStr s => Return (map (fun c => JStr (String c EmptyString)) (list_ascii_of_string s))
  | _ => Raise TypeError
  end.

Fixpoint mapM {A B} (f : A -> outcome B) (l : list A) : outcome (list B) :=
  match l with
  | [] => Return []
  | x :: r => let? y := f x in let? ys := mapM f r in Return (y :: ys)
  end.

(** [v == s] for a string [s]: only an equal string is equal to it. *)
Definition eq_str (v : Json) (s : string) : bool :=
  match v with
  | JStr s' => String.eqb s' s
  | _ => false
  end.

(** Truth value of an [Optional[int]]. *)
Definition int_truthy (o : option Z) : bool :=
  match o with
  | Some z => negb (z =? 0)
  | None => false
  end.

(** A string of printable ASCII characters without quote or backslash:
    its [repr] is the string between single quotes. *)
Definition plain_char (c : ascii) : bool :=
  let n := nat_of_ascii c in
  ((32 <=? n) && (n <=? 126) && negb (n =? 39) && negb (n =? 92))%nat.

Definition plain (s : string) : bool := PyStr.all plain_char s.

End Py.

(** ** Status vocabulary *)

Module JOB_STATUS.
Definition CREATED : string := "created".
Definition QUEUED : string := "queued".
Definition RUNNING : string := "running".
Definition CANCELED : string := "canceled".
Definition FINISHED : string := "finished".
Definition ERROR : string := "error".
End JOB_STATUS.

Module DEPENDENCY_STATUS.
Definition AWAITING : string := "awaiting".
Definition AVAILABLE : string := "available".
Definition AWAITING_RETRY : string := "awaiting_retry".
Definition ERROR : string := "error".
End DEPENDENCY_STATUS.

(** ** Collaborators

    Library functions without effects ([repr], [url_join], the RFC 3339
    formatter, the JSON decoder) and those that read or change the world
    outside the registry (clocks, id generation, the OIDC client library,
    the HTTP session).  The HTTP session, [self._session], is one object
    of that world: the registry writes a header into it, makes its
    requests with it, and hands it to the objects of the OIDC client
    library, which make their requests with it. *)

Class PyRuntime : Type := {
  (** [openeo_driver._version.__version__] *)
  __version__ : string;
  (** [repr(v)] *)
  py_repr : Json -> string;
  py_repr_plain : forall s, Py.plain s = true -> py_repr (JStr s) = "'" +:+ s +:+ "'";
  (** [openeo.rest.connection.url_join] *)
  url_join : string -> string -> string;
  (** [openeo.util.rfc3339.datetime] on a string *)
  rfc3339_datetime : string -> outcome string;
  (** [response.json()], a function of the response text *)
  json_loads : string -> outcome Json
}.

(** [OidcClientCredentialsAuthenticator], by the client it is built for. *)
Record OidcClientCredentialsAuthenticator : Type := mkAuthenticator {
  auth_issuer : string;
  auth_client_id : string;
  auth_client_secret : string
}.

Class Externals (World : Type) : Type := {
  (** [rfc3339.utcnow()] *)
  utcnow : World -> string * World;
  (** [openeo_driver.utils.generate_unique_id(prefix)] *)
  generate_unique_id : string -> World -> string * World;
  (** the cache's clock, [time.time()], in seconds *)
  time_time : World -> Z * World;
  (** [session.headers[name] = value] *)
  session_set_header : string -> string -> World -> World;
  (** [OidcProviderInfo(issuer=issuer, requests_session=session)] *)
  oidc_provider_info : string -> World -> outcome unit * World;
  (** [authenticator.get_tokens().access_token], for an authenticator that
      was built with [requests_session=session] *)
  get_tokens : OidcClientCredentialsAuthenticator -> World -> outcome string * World;
  (** [session.request(...)] *)
  session_request : HttpRequest -> World -> outcome Response * World
}.

(** What is done with the HTTP session: a request the registry makes
    itself, or a call into the OIDC client library that works through the
    session it was given. *)
Inductive SessionUse : Type :=
| Request (r : HttpRequest)
    (* self._session.request(...) *)
| OidcDiscovery (issuer : string)
    (* OidcProviderInfo(issuer=..., requests_session=self._session) *)
| OidcTokens (authenticator : OidcClientCredentialsAuthenticator).
    (* authenticator.get_tokens() *)

(** The requests among the uses of the session. *)
Fixpoint requests (uses : list SessionUse) : list HttpRequest :=
  match uses with
  | [] => []
  | Request r :: rest => r :: requests rest
  | _ :: rest => requests rest
  end.

(** ** The effect monad: state passing with exceptions

    The state holds the outside world, the registry's token cache
    ([self._cache]) and, as a trace, what was done with the HTTP session
    so far, in order.  Log calls are left out: they touch none of these. *)

Record State (World : Type) : Type := mkState {
  world : World;
  cache : gmap string (string * Z);
  session : list SessionUse
}.

Arguments mkState {World} _ _ _.
Arguments world {World} _.
Arguments cache {World} _.
Arguments session {World} _.

(** The requests the registry itself has handed to the HTTP session. *)
Definition sent {World : Type} (st : State World) : list HttpRequest :=
  requests (session st).

Arguments sent : simpl never.

Definition M (World A : Type) : Type := State World -> outcome A * State World.

Definition ret {World A} (a : A) : M World A := fun st => (Return a, st).

Definition raise {World A} (e : exn) : M World A := fun st => (Raise e, st).

Definition bind {World A B} (m : M World A) (k : A -> M World B) : M World B :=
  fun st =>
    match m st with
    | (Return a, st') => k a st'
    | (Raise e, st') => (Raise e, st')
    end.

Notation "'let!' x ':=' c 'in' k" := (bind c (fun x => k))
  (at level 10, x name, c at level 100, k at level 200).

(** A pure computation that may raise. *)
Definition of_outcome {World A} (o : outcome A) : M World A := fun st => (o, st).

(** A collaborator that only touches the world. *)
Definition in_world {World A} (f : World -> A * World) : M World A :=
  fun st =>
    let '(a, w) := f (world st) in
    (Return a, mkState w (cache st) (session st)).

Definition in_world_try {World A} (f : World -> outcome A * World) : M World A :=
  fun st =>
    let '(o, w) := f (world st) in
    (o, mkState w (cache st) (session st)).

(** A collaborator at work with the HTTP session: the use is written down. *)
Definition use_session {World A} (u : SessionUse) (f : World -> outcome A * World)
  : M World A :=
  fun st =>
    let '(o, w) := f (world st) in
    (o, mkState w (cache st) (session st ++ [u])).

(** ** Token cache *)

Module TtlCache.
Section TtlCache.
Context {World : Type} {externals : Externals World}.

(** Modelled from the spec: [openeo_driver.util.caching.TtlCache.get_or_call],
    whose source is not among the files of this development.  The spec
    (4.2): it "returns a cached value if present and younger than [ttl];
    otherwise invokes [compute] synchronously, stores the result with a
    fresh expiry, and returns it".  An entry is kept with its expiry time;
    a callback that raises stores nothing. *)
Definition get_or_call (key : string) (callback : M World string) (ttl : Z)
  : M World string :=
  let! now := in_world time_time in
  fun st =>
    match cache st !! key with
    | Some (value, expiry) =>
        if now <? expiry then (Return value, st)
        else
          (let! value := callback in
           let! stamp := in_world time_time in
           fun st' =>
             (Return value,
              mkState (world st') (<[key := (value, stamp + ttl)]> (cache st')) (session st'))) st
    | None =>
        (let! value := callback in
         let! stamp := in_world time_time in
         fun st' =>
           (Return value,
            mkState (world st') (<[key := (value, stamp + ttl)]> (cache st')) (session st'))) st
    end.

End TtlCache.
End TtlCache.

(** ** Credential resolver *)

Record ElasticJobRegistryCredentials : Type := mkCredentials {
  oidc_issuer : string;
  client_id : string;
  client_secret : string
}.

Module Credentials.
Section Credentials.
Context {runtime : PyRuntime}.

(** [data[key]] on a mapping. *)
Definition getitem (data : gmap string string) (key : string) : outcome string :=
  match data !! key with
  | Some v => Return v
  | None => Raise (KeyError key)
  end.

(** [repr] of a set of strings, in the order the set is traversed. *)
Definition repr_set (s : gset string) : string :=
  match elements s with
  | [] => "set()"
  | l => "{" +:+ PyStr.join ", " (map (fun k => py_repr (JStr k)) l) +:+ "}"
  end.

Definition __name__ : string := "ElasticJobRegistryCredentials".

Definition args : gset string := {[ "oidc_issuer"; "client_id"; "client_secret" ]}.

(** [from_mapping(data, strict=...)]: [Return None] is the absent result. *)
Definition from_mapping (data : gmap string string) (strict : bool)
  : outcome (option ElasticJobRegistryCredentials) :=
  match (let? i := getitem data "oidc_issuer" in
         let? c := getitem data "client_id" in
         let? s := getitem data "client_secret" in
         Return (mkCredentials i c s)) with
  | Return creds => Return (Some creds)
  | Raise (KeyError _) =>
      if strict then
        let missing := args ∖ dom data in
        Raise (EjrError ("Failed building " +:+ __name__ +:+ " from mapping: missing "
                         +:+ repr_set missing))
      else Return None
  | Raise e => Raise e
  end.

Definition env_var_mapping : list (string * string) :=
  [ ("oidc_issuer", "OPENEO_EJR_OIDC_ISSUER");
    ("client_id", "OPENEO_EJR_OIDC_CLIENT_ID");
    ("client_secret", "OPENEO_EJR_OIDC_CLIENT_SECRET") ].

(** [env or os.environ]: an absent or empty mapping gives way to the
    process environment. *)
Definition effective_env (env : option (gmap string string))
  (os_environ : gmap string string) : gmap string string :=
  match env with
  | Some e => if decide (e = ∅) then os_environ else e
  | None => os_environ
  end.

(** [from_env(env, strict=...)], with the process environment made explicit. *)
Definition from_env (os_environ : gmap string string)
  (env : option (gmap string string)) (strict : bool)
  : outcome (option ElasticJobRegistryCredentials) :=
  let env := effective_env env os_environ in
  match (let? i := getitem env "OPENEO_EJR_OIDC_ISSUER" in
         let? c := getitem env "OPENEO_EJR_OIDC_CLIENT_ID" in
         let? s := getitem env "OPENEO_EJR_OIDC_CLIENT_SECRET" in
         Return (mkCredentials i c s)) with
  | Return creds => Return (Some creds)
  | Raise (KeyError _) =>
      if strict then
        let missing := list_to_set (map snd env_var_mapping) ∖ dom env in
        Raise (EjrError ("Failed building " +:+ __name__ +:+ " from env: missing "
                         +:+ repr_set missing))
      else Return None
  | Raise e => Raise e
  end.

End Credentials.
End Credentials.

(** ** The registry *)

(** The attributes of a registry that its methods read.  Its session,
    [self._session], is the HTTP session of the world (the one that
    [session_request] and [session_set_header] work on), and its token
    cache, [self._cache], is the cache of the state. *)
Record ElasticJobRegistry : Type := mkRegistry {
  _api_url : string;
  _backend_id : option string;
  _authenticator : option OidcClientCredentialsAuthenticator
}.

(** The keyword arguments of [create_job]. *)
Record CreateJobArgs : Type := mkCreateJobArgs {
  arg_process : Json;
  arg_user_id : string;
  arg_job_id : option string;
  arg_title : option string;
  arg_description : option string;
  arg_parent_id : option string;
  arg_api_version : option string;
  arg_job_options : option Json
}.

Module EjrHttpError.
Section EjrHttpError.
Context {runtime : PyRuntime}.

Definition from_response (response : Response) : exn :=
  let request := request response in
  EjrHttpError
    ("EJR API error: " +:+ PyStr.str_int (status_code response) +:+ " "
       +:+ py_repr (JStr (reason response))
       +:+ " on `" +:+ request_method request +:+ " "
       +:+ py_repr (JStr (request_url request)) +:+ "`: " +:+ text response)
    (Some (status_code response)).

End EjrHttpError.
End EjrHttpError.

(** [requests.Response.raise_for_status]: an [HTTPError] for a client
    error (4xx) or server error (5xx) status, nothing otherwise. *)
Definition raise_for_status (response : Response) : outcome unit :=
  if (400 <=? status_code response) && (status_code response <? 600)
  then Raise (HTTPError response)
  else Return tt.

Section Registry.
Context {runtime : PyRuntime} {World : Type} {externals : Externals World}.

Definition _REQUEST_TIMEOUT : Z := 20.

(** [JobRegistryInterface.generate_job_id]. *)
Definition generate_job_id : M World string :=
  in_world (generate_unique_id "j").

(** The [User-Agent] that [__init__] gives the session. *)
Definition user_agent (backend_id : option string) : string :=
  let user_agent := "openeo_driver-" +:+ __version__ +:+ "/" +:+ "ElasticJobRegistry" in
  match backend_id with
  | Some b => if String.eqb b "" then user_agent else user_agent +:+ "/" +:+ b
  | None => user_agent
  end.

(** [ElasticJobRegistry(api_url, backend_id)]: a registry without
    authenticator and with an empty token cache of its own, whose session
    (the one passed in, or a new one) gets the [User-Agent] header. *)
Definition __init__ (api_url : string) (backend_id : option string)
  : M World ElasticJobRegistry :=
  fun st =>
    (Return (mkRegistry api_url backend_id None),
     mkState (session_set_header "User-Agent" (user_agent backend_id) (world st))
       ∅ (session st)).

(** [setup_auth_oidc_client_credentials(credentials)]: the provider
    information is built with the registry's session, then the
    authenticator, which keeps that session for its token requests.  The
    registry with its authenticator set is the result. *)
Definition setup_auth_oidc_client_credentials (self : ElasticJobRegistry)
  (credentials : ElasticJobRegistryCredentials) : M World ElasticJobRegistry :=
  let! _ := use_session (OidcDiscovery (oidc_issuer credentials))
              (oidc_provider_info (oidc_issuer credentials)) in
  ret (mkRegistry (_api_url self) (_backend_id self)
         (Some (mkAuthenticator (oidc_issuer credentials) (client_id credentials)
                  (client_secret credentials)))).

(** The [backend_id] property: [assert self._backend_id]. *)
Definition backend_id (self : ElasticJobRegistry) : M World string :=
  match _backend_id self with
  | Some b => if String.eqb b "" then raise (AssertionError "") else ret b
  | None => raise (AssertionError "")
  end.

Definition _get_access_token (self : ElasticJobRegistry) : M World string :=
  match _authenticator self with
  | None => raise (EjrError "No authentication set up")
  | Some authenticator =>
      use_session (OidcTokens authenticator) (get_tokens authenticator)
  end.

(** [self._session.request(...)]; the request is added to the trace. *)
Definition request_session (r : HttpRequest) : M World Response :=
  use_session (Request r) (session_request r).

(** The [headers] of [_do_request]: empty, or with the bearer token, taken
    from the cache or fetched anew, when [use_auth] is set. *)
Definition request_headers (self : ElasticJobRegistry) (use_auth : bool)
  : M World (list (string * string)) :=
  if use_auth then
    let! access_token :=
      TtlCache.get_or_call "api_access_token" (_get_access_token self) (30 * 60) in
    ret [("Authorization", "Bearer " +:+ access_token)]
  else ret [].

(** [_do_request(method, path, json, use_auth, expected_status)].  The
    rendering of the request as a curl command ([_debug_show_curl]) only
    logs and is left out. *)
Definition _do_request (self : ElasticJobRegistry) (method path : string)
  (json : option Json) (use_auth : bool) (expected_status : option Z)
  : M World Json :=
  let! headers := request_headers self use_auth in
  let url := url_join (_api_url self) path in
  let! response :=
    request_session (mkHttpRequest method url json headers _REQUEST_TIMEOUT) in
  if Py.int_truthy expected_status
     && negb (bool_decide (Some (status_code response) = expected_status))
  then raise (EjrHttpError.from_response response)
  else
    let! _ := of_outcome (raise_for_status response) in
    of_outcome (json_loads (text response)).

Definition health_check (self : ElasticJobRegistry) (use_auth : bool) : M World Json :=
  _do_request self "GET" "/health" None use_auth (Some 200).

Definition create_job (self : ElasticJobRegistry) (a : CreateJobArgs) : M World Json :=
  let! job_id :=
    (match arg_job_id a with
     | Some j => if String.eqb j "" then generate_job_id else ret j
     | None => generate_job_id
     end) in
  let! created := in_world utcnow in
  let! backend := backend_id self in
  let job_data : JobDict :=
    [ ("backend_id", JStr backend);
      ("user_id", JStr (arg_user_id a));
      ("job_id", JStr job_id);
      ("process", arg_process a);
      ("title", json_of_opt_str (arg_title a));
      ("description", json_of_opt_str (arg_description a));
      ("status", JStr JOB_STATUS.CREATED);
      ("created", JStr created);
      ("updated", JStr created);
      ("job_options", json_of_opt (arg_job_options a));
      ("parent_id", json_of_opt_str (arg_parent_id a));
      ("application_id", JNull);
      ("api_version", json_of_opt_str (arg_api_version a)) ] in
  _do_request self "POST" "/jobs" (Some (JDict job_data)) true (Some 201).

(** [_search(query, fields)]: the projection is a set, sent as a list. *)
Definition _search (self : ElasticJobRegistry) (query : Json)
  (fields : option (list string)) : M World Json :=
  let fields : gset string := list_to_set (default [] fields) in
  let fields := fields ∪ {[ "job_id"; "user_id"; "created"; "status"; "updated" ]} in
  let query :=
    JDict [ ("query", query);
            ("_source", JList (map JStr (elements fields))) ] in
  _do_request self "POST" "/jobs/search" (Some query) true (Some 200).

(** [fields or ["*"]]. *)
Definition fields_or_all (fields : option (list string)) : option (list string) :=
  match fields with
  | Some (f :: r) => Some (f :: r)
  | _ => Some ["*"]
  end.

Definition get_job (self : ElasticJobRegistry) (job_id : string)
  (fields : option (list string)) : M World Json :=
  let! backend := backend_id self in
  let query :=
    JDict [ ("bool", JDict [ ("filter", JList
      [ JDict [ ("term", JDict [ ("backend_id", JStr backend) ]) ];
        JDict [ ("term", JDict [ ("job_id", JStr job_id) ]) ] ]) ]) ] in
  let! jobs := _search self query (fields_or_all fields) in
  let! n := of_outcome (Py.len jobs) in
  if (n =? 1)%nat then
    let! job := of_outcome (Py.first jobs) in
    let! found := of_outcome (Py.getitem job "job_id") in
    if Py.eq_str found job_id then ret job
    else raise (AssertionError ("job['job_id']=" +:+ py_repr found
                                +:+ " != job_id=" +:+ py_repr (JStr job_id)))
  else if (n =? 0)%nat then
    raise (JobNotFoundException job_id)
  else
    let! items := of_outcome (Py.iter jobs) in
    let! summary :=
      of_outcome (Py.mapM (fun j =>
        let? u := Py.get j "user_id" in
        let? c := Py.get j "created" in
        Return (JDict [ ("user_id", u); ("created", c) ])) items) in
    raise (InternalException ("Found " +:+ PyStr.str_int (Z.of_nat n)
                              +:+ " jobs for job_id=" +:+ py_repr (JStr job_id))).

(** [_update(job_id, data)]: the generic update method. *)
Definition _update (self : ElasticJobRegistry) (job_id : string) (data : JobDict)
  : M World Json :=
  _do_request self "PATCH" ("/jobs/" +:+ job_id) (Some (JDict data)) true (Some 200).

(** [rfc3339.datetime(x) if x else other]. *)
Definition datetime_or (x : option string) (other : M World string) : M World string :=
  match x with
  | Some s => if String.eqb s "" then other else of_outcome (rfc3339_datetime s)
  | None => other
  end.

(** [if x: data[key] = rfc3339.datetime(x)]. *)
Definition set_datetime_if (x : option string) (key : string) (data : JobDict)
  : M World JobDict :=
  match x with
  | Some s =>
      if String.eqb s "" then ret data
      else let! v := of_outcome (rfc3339_datetime s) in
           ret (PyDict.set data key (JStr v))
  | None => ret data
  end.

Definition set_status (self : ElasticJobRegistry) (job_id status : string)
  (updated started finished : option string) : M World Json :=
  let! stamp := datetime_or updated (in_world utcnow) in
  let data : JobDict := [ ("status", JStr status); ("updated", JStr stamp) ] in
  let! data := set_datetime_if started "started" data in
  let! data := set_datetime_if finished "finished" data in
  _update self job_id data.

Definition set_dependencies (self : ElasticJobRegistry) (job_id : string)
  (dependencies : list JobDict) : M World Json :=
  _update self job_id [ ("dependencies", JList (map JDict dependencies)) ].

Definition remove_dependencies (self : ElasticJobRegistry) (job_id : string)
  : M World Json :=
  _update self job_id [ ("dependencies", JNull); ("dependency_status", JNull) ].

Definition set_dependency_status (self : ElasticJobRegistry) (job_id : string)
  (dependency_status : string) : M World Json :=
  _update self job_id [ ("dependency_status", JStr dependency_status) ].

Definition set_dependency_usage (self : ElasticJobRegistry) (job_id : string)
  (dependency_usage : PyDecimal.Decimal) : M World Json :=
  _update self job_id [ ("dependency_usage", JStr (PyDecimal.__str__ dependency_usage)) ].

Definition set_proxy_user (self : ElasticJobRegistry) (job_id : string)
  (proxy_user : string) : M World Json :=
  _update self job_id [ ("proxy_user", JStr proxy_user) ].

Definition set_application_id (self : ElasticJobRegistry) (job_id : string)
  (application_id : string) : M World Json :=
  _update self job_id [ ("application_id", JStr application_id) ].

Definition list_user_jobs (self : ElasticJobRegistry) (user_id : option string)
  (fields : option (list string)) : M World Json :=
  let! backend := backend_id self in
  let query :=
    JDict [ ("bool", JDict [ ("filter", JList
      [ JDict [ ("term", JDict [ ("backend_id", JStr backend) ]) ];
        JDict [ ("term", JDict [ ("user_id", json_of_opt_str user_id) ]) ] ]) ]) ] in
  _search self query fields.

(** [max_age or 7]. *)
Definition max_age_or_7 (max_age : option Z) : Z :=
  match max_age with
  | Some n => if n =? 0 then 7 else n
  | None => 7
  end.

Definition list_active_jobs (self : ElasticJobRegistry) (max_age : option Z)
  (fields : option (list string)) : M World Json :=
  let active := [ JOB_STATUS.CREATED; JOB_STATUS.QUEUED; JOB_STATUS.RUNNING ] in
  let! backend := backend_id self in
  let query :=
    JDict [ ("bool", JDict [ ("filter", JList
      [ JDict [ ("term", JDict [ ("backend_id", JStr backend) ]) ];
        JDict [ ("terms", JDict [ ("status", JList (map JStr active)) ]) ];
        JDict [ ("range", JDict [ ("created", JDict
          [ ("gte", JStr ("now-" +:+ PyStr.str_int (max_age_or_7 max_age) +:+ "d")) ]) ]) ] ]) ]) ] in
  _search self query fields.

End Registry.

(** ** The operations as data

    The seven mutations and the three search-based fetches of the registry
    interface, each with its arguments, and the source function each
    stands for. *)

Inductive Mutation : Type :=
| SetStatus (job_id status : string) (updated started finished : option string)
| SetDependencies (job_id : string) (dependencies : list JobDict)
| RemoveDependencies (job_id : string)
| SetDependencyStatus (job_id dependency_status : string)
| SetDependencyUsage (job_id : string) (dependency_usage : PyDecimal.Decimal)
| SetProxyUser (job_id proxy_user : string)
| SetApplicationId (job_id application_id : string).

Inductive Fetch : Type :=
| GetJob (job_id : string) (fields : option (list string))
| ListUserJobs (user_id : option string) (fields : option (list string))
| ListActiveJobs (max_age : option Z) (fields : option (list string)).

Section Operations.
Context {runtime : PyRuntime} {World : Type} {externals : Externals World}.

Definition run_mutation (self : ElasticJobRegistry) (m : Mutation) : M World Json :=
  match m with
  | SetStatus j s u st f => set_status self j s u st f
  | SetDependencies j d => set_dependencies self j d
  | RemoveDependencies j => remove_dependencies self j
  | SetDependencyStatus j s => set_dependency_status self j s
  | SetDependencyUsage j u => set_dependency_usage self j u
  | SetProxyUser j p => set_proxy_user self j p
  | SetApplicationId j a => set_application_id self j a
  end.

(** The payload of a mutation, as its source function computes it before
    it calls [_update]. *)
Definition payload (m : Mutation) : M World JobDict :=
  match m with
  | SetStatus _ status updated started finished =>
      let! stamp := datetime_or updated (in_world utcnow) in
      let! data := set_datetime_if started "started"
                     [ ("status", JStr status); ("updated", JStr stamp) ] in
      set_datetime_if finished "finished" data
  | SetDependencies _ dependencies =>
      ret [ ("dependencies", JList (map JDict dependencies)) ]
  | RemoveDependencies _ =>
      ret [ ("dependencies", JNull); ("dependency_status", JNull) ]
  | SetDependencyStatus _ s => ret [ ("dependency_status", JStr s) ]
  | SetDependencyUsage _ u => ret [ ("dependency_usage", JStr (PyDecimal.__str__ u)) ]
  | SetProxyUser _ p => ret [ ("proxy_user", JStr p) ]
  | SetApplicationId _ a => ret [ ("application_id", JStr a) ]
  end.

Definition run_fetch (self : ElasticJobRegistry) (f : Fetch) : M World Json :=
  match f with
  | GetJob j fields => get_job self j fields
  | ListUserJobs u fields => list_user_jobs self u fields
  | ListActiveJobs a fields => list_active_jobs self a fields
  end.

End Operations.

(** The job a mutation is aimed at. *)
Definition target (m : Mutation) : string :=
  match m with
  | SetStatus j _ _ _ _ | SetDependencies j _ | RemoveDependencies j
  | SetDependencyStatus j _ | SetDependencyUsage j _ | SetProxyUser j _
  | SetApplicationId j _ => j
  end.

(** The fields a mutation is called to set (for [set_status], with the
    [updated] stamp; [started] and [finished] only when supplied). *)
Definition fields_being_set (m : Mutation) : list string :=
  match m with
  | SetStatus _ _ _ started finished =>
      ["status"; "updated"]
        ++ (if PyStr.truthy started then ["started"] else [])
        ++ (if PyStr.truthy finished then ["finished"] else [])
  | SetDependencies _ _ => ["dependencies"]
  | RemoveDependencies _ => ["dependencies"; "dependency_status"]
  | SetDependencyStatus _ _ => ["dependency_status"]
  | SetDependencyUsage _ _ => ["dependency_usage"]
  | SetProxyUser _ _ => ["proxy_user"]
  | SetApplicationId _ _ => ["application_id"]
  end.

(** The fields a fetch asks for. *)
Definition requested_fields (f : Fetch) : list string :=
  match f with
  | GetJob _ fields => default [] (fields_or_all fields)
  | ListUserJobs _ fields | ListActiveJobs _ fields => default [] fields
  end.

(** The fields of a whole record, as [create_job] submits it. *)
Definition record_fields : list string :=
  [ "backend_id"; "user_id"; "job_id"; "process"; "title"; "description";
    "status"; "created"; "updated"; "job_options"; "parent_id";
    "application_id"; "api_version" ].

(** Modelled from the spec: the remote store's handling of a PATCH request,
    which is outside this code base.  The glossary: a partial update is
    "a write that merges named fields into an existing record without
    touching unnamed fields". *)
Definition partial_update (record data : JobDict) : JobDict :=
  PyDict.update record data.

(** [record.get(field) is None]: the field is absent for a reader. *)
Definition absent (record : JobDict) (field : string) : Prop :=
  default JNull (PyDict.get record field) = JNull.

(** ** A test double

    A scripted world for running the registry on concrete inputs: a fixed
    clock, a counter for ids, a token (or the failure to get one), the
    headers of the HTTP session and a list of replies the session hands
    out in order. *)

Module Double.

Record World : Type := mkWorld {
  now : string;
  seconds : Z;
  next_id : nat;
  token : outcome string;
  session_headers : list (string * string);
  replies : list (HttpRequest -> outcome Response)
}.

Definition repr (v : Json) : string :=
  match v with
  | JStr s => "'" +:+ s +:+ "'"
  | JNull => "None"
  | JBool true => "True"
  | JBool false => "False"
  | JInt z => pretty z
  | JFloat l => l
  | JList _ => "[...]"
  | JDict _ => "{...}"
  end.

Fixpoint loads (table : list (string * Json)) (text : string) : outcome Json :=
  match table with
  | [] => Raise (ExternalError "JSONDecodeError")
  | (t, v) :: r => if String.eqb t text then Return v else loads r text
  end.

Definition runtime (table : list (string * Json)) : PyRuntime :=
  {| __version__ := "0.0.0";
     py_repr := repr;
     py_repr_plain := fun s _ => eq_refl;
     url_join := fun root path => root +:+ path;
     rfc3339_datetime := fun s => Return s;
     json_loads := loads table |}.

(** [headers[name] = value]. *)
Fixpoint set_header (headers : list (string * string)) (name value : string)
  : list (string * string) :=
  match headers with
  | [] => [(name, value)]
  | (n, v) :: rest =>
      if String.eqb n name then (n, value) :: rest
      else (n, v) :: set_header rest name value
  end.

Definition externals : Externals World :=
  {| utcnow := fun w => (now w, w);
     generate_unique_id := fun prefix w =>
       (prefix +:+ "-" +:+ pretty (next_id w),
        mkWorld (now w) (seconds w) (S (next_id w)) (token w) (session_headers w)
          (replies w));
     time_time := fun w => (seconds w, w);
     session_set_header := fun name value w =>
       mkWorld (now w) (seconds w) (next_id w) (token w)
         (set_header (session_headers w) name value) (replies w);
     oidc_provider_info := fun issuer w =>
       (if String.eqb issuer "" then Raise (ExternalError "MissingSchema")
        else Return tt, w);
     get_tokens := fun _ w => (token w, w);
     session_request := fun r w =>
       match replies w with
       | [] => (Raise (ExternalError "ConnectionError"), w)
       | reply :: rest =>
           (reply r,
            mkWorld (now w) (seconds w) (next_id w) (token w) (session_headers w) rest)
       end |}.

(** A reply with the given status and body to whatever was asked. *)
Definition reply (status : Z) (phrase body : string) (r : HttpRequest)
  : outcome Response :=
  Return (mkResponse status phrase body (mkPreparedRequest (method r) (url r))).

Definition start (replies : list (HttpRequest -> outcome Response)) : State World :=
  mkState (mkWorld "2024-01-01T00:00:00Z" 1000 0 (Return "t0k3n") [] replies) ∅ [].

Definition registry : ElasticJobRegistry :=
  mkRegistry "https://ejr.test" (Some "unittests")
    (Some (mkAuthenticator "https://oidc.test" "client" "s3cr3t")).

(** A stored record, and the response bodies the double can decode (the
    bodies are labels: decoding is by table). *)
Definition job (job_id : string) : JobDict :=
  [ ("job_id", JStr job_id); ("user_id", JStr "alice");
    ("status", JStr "created");
    ("created", JStr "2024-01-01T00:00:00Z");
    ("updated", JStr "2024-01-01T00:00:00Z") ].

Definition bodies : list (string * Json) :=
  [ ("[]", JList []);
    ("{}", JDict []);
    ("[j-1]", JList [JDict (job "j-1")]);
    ("[j-1, j-1]", JList [JDict (job "j-1"); JDict (job "j-1")]) ].

Definition sample : PyRuntime := runtime bodies.

(** The query [get_job] searches with. *)
Definition get_job_query (backend job_id : string) : Json :=
  JDict [ ("bool", JDict [ ("filter", JList
    [ JDict [ ("term", JDict [ ("backend_id", JStr backend) ]) ];
      JDict [ ("term", JDict [ ("job_id", JStr job_id) ]) ] ]) ]) ].

(** A job of alice, without a job id. *)
Definition alice_job : CreateJobArgs :=
  mkCreateJobArgs (JDict [ ("process_graph", JDict []) ]) "alice"
    None None None None None None.

End Double.

(** ** What a computation hands to the HTTP session *)

Section Traces.
Context {World : Type}.

(** [m] sends nothing: no request of the registry goes to the session. *)
Definition silent {A} (m : M World A) : Prop :=
  forall st, sent (snd (m st)) = sent st.

(** [m] sends at most one request, and one that satisfies [P]. *)
Definition emits {A} (P : HttpRequest -> Prop) (m : M World A) : Prop :=
  forall st,
    sent (snd (m st)) = sent st \/
    exists r, sent (snd (m st)) = (sent st ++ [r])%list /\ P r.

(** [m] leaves the session alone: neither the registry nor the OIDC client
    library works with it. *)
Definition idle {A} (m : M World A) : Prop :=
  forall st, session (snd (m st)) = session st.

(** [m] works with the session at most twice: at most once through the
    authenticator of [self], for a token, and after that at most once for
    a request of the registry, one that satisfies [P]. *)
Definition talks {A} (self : ElasticJobRegistry) (P : HttpRequest -> Prop)
  (m : M World A) : Prop :=
  forall st, exists tokens calls,
    session (snd (m st)) = (session st ++ tokens ++ calls)%list /\
    (tokens = [] \/
     exists authenticator,
       _authenticator self = Some authenticator /\ tokens = [OidcTokens authenticator]) /\
    (calls = [] \/ exists r, calls = [Request r] /\ P r).

End Traces.

(** ** Every operation of the registry *)

Inductive Operation : Type :=
| CreateJob (a : CreateJobArgs)
| FetchJobs (f : Fetch)
| Mutate (m : Mutation)
| HealthCheck (use_auth : bool).

Section AllOperations.
Context {runtime : PyRuntime} {World : Type} {externals : Externals World}.

Definition run_operation (self : ElasticJobRegistry) (op : Operation) : M World Json :=
  match op with
  | CreateJob a => create_job self a
  | FetchJobs f => run_fetch self f
  | Mutate m => run_mutation self m
  | HealthCheck use_auth => health_check self use_auth
  end.

End AllOperations.

(** The paths of the remote API, and the method each is called with. *)
Definition api_call (self : ElasticJobRegistry) {runtime : PyRuntime}
  (r : HttpRequest) : Prop :=
  (method r = "GET" /\ url r = url_join (_api_url self) "/health") \/
  (method r = "POST" /\ url r = url_join (_api_url self) "/jobs") \/
  (method r = "POST" /\ url r = url_join (_api_url self) "/jobs/search") \/
  (exists job_id, method r = "PATCH"
                  /\ url r = url_join (_api_url self) ("/jobs/" +:+ job_id)).

(** More for the test double: a runtime whose RFC 3339 formatter accepts
    only strings that end in [Z]. *)
Module StrictDouble.

Fixpoint ends_in_Z (s : string) : bool :=
  match s with
  | EmptyString => false
  | String c EmptyString => Ascii.eqb c "Z"
  | String _ r => ends_in_Z r
  end.

Definition runtime : PyRuntime :=
  {| __version__ := "0.0.0";
     py_repr := Double.repr;
     py_repr_plain := fun s _ => eq_refl;
     url_join := fun root path => root +:+ path;
     rfc3339_datetime := fun s =>
       if ends_in_Z s then Return s else Raise (ExternalError "ValueError");
     json_loads := Double.loads Double.bodies |}.

End StrictDouble.

(** ** The [in] operator on strings *)

Module PyIn.

(** [s.startswith(p)]. *)
Fixpoint starts_with (p s : string) : bool :=
  match p, s with
  | EmptyString, _ => true
  | String a p', String b s' => Ascii.eqb a b && starts_with p' s'
  | String _ _, EmptyString => false
  end.

(** [p in s] for two strings. *)
Fixpoint contains (p s : string) : bool :=
  starts_with p s ||
  match s with
  | EmptyString => false
  | String _ s' => contains p s'
  end.

End PyIn.

(** ** The command line tool, [CliApp]

    Each command builds a registry of its own (and with it an empty token
    cache), runs one operation and prints what it got.  The commands are
    given here with the parsed arguments they read; what they print is
    their result, line by line.  Reading the credentials from the vault
    and the formatting of values for printing are collaborators. *)

Module CliApp.

(** What reading the secret from the vault comes to. *)
Inductive vault_reply : Type :=
| Secret (data : gmap string string)       (* secret["data"]["data"] *)
| Forbidden (detail : string)              (* hvac.exceptions.Forbidden *)
| VaultFailure (e : exn).                  (* anything else raised *)

Class CliRuntime (World : Type) : Type := {
  (** whether [import hvac] succeeds *)
  hvac_installed : bool;
  (** [hvac.Client(url).secrets.kv.v2.read_secret_version(path, mount_point="kv")] *)
  read_secret_version : option string -> string -> World -> vault_reply * World;
  (** [str(v)] *)
  py_str : Json -> string;
  (** [pprint.pformat(v, sort_dicts=...)] *)
  pformat : bool -> Json -> string
}.

(** The exceptions of a command: its own, or one of the registry's. *)
Inductive cli_exn : Type :=
| RuntimeError (msg : string)
| Raised (e : exn).

Inductive result (A : Type) : Type :=
| Done (a : A)
| Failed (e : cli_exn).

Arguments Done {A} a.
Arguments Failed {A} e.

Definition C (World A : Type) : Type := State World -> result A * State World.

Definition done {World A} (a : A) : C World A := fun st => (Done a, st).

Definition fail {World A} (e : cli_exn) : C World A := fun st => (Failed e, st).

Definition then_ {World A B} (m : C World A) (k : A -> C World B) : C World B :=
  fun st =>
    match m st with
    | (Done a, st') => k a st'
    | (Failed e, st') => (Failed e, st')
    end.

Notation "'do!' x ':=' c 'in' k" := (then_ c (fun x => k))
  (at level 10, x name, c at level 100, k at level 200).

(** A call into the registry. *)
Definition call {World A} (m : M World A) : C World A :=
  fun st =>
    match m st with
    | (Return a, st') => (Done a, st')
    | (Raise e, st') => (Failed (Raised e), st')
    end.

(** [item in container] for a string [item] and a decoded JSON value. *)
Definition py_in (item : string) (container : Json) : outcome bool :=
  match container with
  | JDict d => Return (match PyDict.get d item with Some _ => true | None => false end)
  | JList l => Return (existsb (fun x => Py.eq_str x item) l)
  | JStr s => Return (PyIn.contains item s)
  | _ => Raise TypeError
  end.

Section CliApp.
Context {runtime : PyRuntime} {World : Type} {externals : Externals World}
        {cli : CliRuntime World}.

(** [self.environ = environ or os.environ]. *)
Definition environ_of (environ : option (gmap string string))
  (os_environ : gmap string string) : gmap string string :=
  match environ with
  | Some e => if decide (e = ∅) then os_environ else e
  | None => os_environ
  end.

Definition default_api_url : string := "https://jobregistry.openeo.vito.be".

Definition default_vault_path : string :=
  "TAP/big_data_services/openeo/openeo-job-registry-elastic-api".

(** [backend_id or "test_cli"]. *)
Definition backend_or_test_cli (backend_id : option string) : string :=
  match backend_id with
  | Some b => if String.eqb b "" then "test_cli" else b
  | None => "test_cli"
  end.

(** [_get_job_registry(backend_id, setup_auth)]. *)
Definition _get_job_registry (environ : gmap string string)
  (backend_id : option string) (setup_auth : bool) : C World ElasticJobRegistry :=
  let api_url := default default_api_url (environ !! "OPENEO_EJR_API") in
  do! ejr := call (__init__ api_url (Some (backend_or_test_cli backend_id))) in
  if setup_auth then
    if hvac_installed then
      do! secret :=
        (fun st =>
           let '(reply, w) :=
             read_secret_version (environ !! "VAULT_ADDR")
               (default default_vault_path
                  (environ !! "OPENEO_EJR_CREDENTIALS_VAULT_PATH"))
               (world st) in
           (match reply with
            | Secret data => Done data
            | Forbidden detail =>
                Failed (RuntimeError
                  ("No permissions to read EJR credentials from vault: " +:+ detail
                   +:+ ". Make sure `hvac.Client` can find a valid vault token"
                   +:+ " through environment variable `VAULT_TOKEN`"
                   +:+ " or local file `~/.vault-token` (e.g. created with `vault login -method=ldap username=john`)."))
            | VaultFailure e => Failed (Raised e)
            end,
            mkState w (cache st) (session st))) in
      do! credentials := call (of_outcome (Credentials.from_mapping secret true)) in
      match credentials with
      | Some credentials => call (setup_auth_oidc_client_credentials ejr credentials)
      | None => fail (Raised AttributeError)
      end
    else
      fail (RuntimeError
              "Package `hvac` (HashiCorp Vault client) is required for this functionality")
  else done ejr.

(** The [health] command. *)
Definition health_check (environ : gmap string string) (do_auth : bool)
  : C World (list string) :=
  do! ejr := _get_job_registry environ None do_auth in
  do! response := call (health_check ejr do_auth) in
  done [py_str response].

(** The [list-user] command. *)
Definition list_user_jobs (environ : gmap string string) (user_id : string)
  : C World (list string) :=
  do! ejr := _get_job_registry environ None true in
  do! jobs := call (list_user_jobs ejr (Some user_id)
                      (Some ["started"; "finished"; "title"])) in
  do! n := call (of_outcome (Py.len jobs)) in
  done [ "Found " +:+ PyStr.str_int (Z.of_nat n) +:+ " jobs for user "
           +:+ py_repr (JStr user_id) +:+ ":";
         pformat false jobs ].

(** The [list-active] command. *)
Definition list_active_jobs (environ : gmap string string)
  (override : option string) : C World (list string) :=
  do! ejr := _get_job_registry environ override true in
  do! jobs := call (list_active_jobs ejr None None) in
  do! n := call (of_outcome (Py.len jobs)) in
  do! backend := call (backend_id ejr) in
  done [ "Found " +:+ PyStr.str_int (Z.of_nat n) +:+ " active jobs (backend "
           +:+ py_repr (JStr backend) +:+ "):";
         pformat false jobs ].

(** The process graph [create] falls back on. *)
Definition default_process : Json :=
  JDict [ ("summary", JStr "calculate 3+5, please");
          ("process_graph", JDict [ ("add", JDict
             [ ("process_id", JStr "add");
               ("arguments", JDict [ ("x", JInt 3); ("y", JInt 5) ]);
               ("result", JBool true) ]) ]) ].

(** The process of the dummy job: the decoded [--process-graph], put under
    the key [process_graph] unless that is in it, or the default. *)
Definition dummy_process (process_graph : option string) : outcome Json :=
  match process_graph with
  | Some text =>
      if String.eqb text "" then Return default_process
      else
        let? process := json_loads text in
        let? wrapped := py_in "process_graph" process in
        if wrapped then Return process
        else Return (JDict [ ("process_graph", process) ])
  | None => Return default_process
  end.

(** The [create] command. *)
Definition create_dummy_job (environ : gmap string string) (user_id : string)
  (process_graph : option string) : C World (list string) :=
  do! ejr := _get_job_registry environ None true in
  do! process := call (of_outcome (dummy_process process_graph)) in
  do! created :=
    call (create_job ejr
            (mkCreateJobArgs process user_id None None None None None None)) in
  done [ "Created job:"; pformat true created ].

(** The [get] command. *)
Definition get_job (environ : gmap string string) (job_id : string)
  : C World (list string) :=
  do! ejr := _get_job_registry environ None true in
  do! job := call (get_job ejr job_id None) in
  done [ pformat true job ].

(** The [set_status] command. *)
Definition set_status (environ : gmap string string) (job_id status : string)
  : C World (list string) :=
  do! ejr := _get_job_registry environ None true in
  do! updated := call (set_status ejr job_id status None None None) in
  done [ pformat true updated ].

End CliApp.
End CliApp.

(** The commands of the tool, as [main] dispatches them. *)
Inductive Command : Type :=
| Health (do_auth : bool)
| ListUser (user_id : string)
| ListActive (backend_id : option string)
| Create (user_id : string) (process_graph : option string)
| Get (job_id : string)
| SetStatusOf (job_id status : string).

Section Commands.
Context {runtime : PyRuntime} {World : Type} {externals : Externals World}
        {cli : CliApp.CliRuntime World}.

Definition run_command (environ : gmap string string) (c : Command)
  : CliApp.C World (list string) :=
  match c with
  | Health do_auth => CliApp.health_check environ do_auth
  | ListUser user_id => CliApp.list_user_jobs environ user_id
  | ListActive backend_id => CliApp.list_active_jobs environ backend_id
  | Create user_id process_graph => CliApp.create_dummy_job environ user_id process_graph
  | Get job_id => CliApp.get_job environ job_id
  | SetStatusOf job_id status => CliApp.set_status environ job_id status
  end.

End Commands.

(** Whether a command sets up authentication. *)
Definition needs_credentials (c : Command) : bool :=
  match c with
  | Health do_auth => do_auth
  | _ => true
  end.

(** The backend id a command passes to [_get_job_registry]. *)
Definition backend_argument (c : Command) : option string :=
  match c with
  | ListActive backend_id => backend_id
  | _ => None
  end.

(** A vault and printer for the test double. *)
Module CliDouble.

Definition cli (installed : bool) (reply : CliApp.vault_reply)
  : CliApp.CliRuntime Double.World :=
  {| CliApp.hvac_installed := installed;
     CliApp.read_secret_version := fun _ _ w => (reply, w);
     CliApp.py_str := Double.repr;
     CliApp.pformat := fun _ v => Double.repr v |}.

Definition secret : gmap string string :=
  {[ "oidc_issuer" := "https://oidc.test"; "client_id" := "client";
     "client_secret" := "s3cr3t" ]}.

End CliDouble.

(* ===================================================================== *)
(** * Part II. Properties                                                  *)
(* ===================================================================== *)

(** ** The monad and the trace *)

Section TraceFacts.
Context {World : Type}.

Lemma requests_app (a b : list SessionUse) :
  requests (a ++ b) = (requests a ++ requests b)%list.
Proof.
  induction a as [| [r | issuer | authenticator] a IH]; simpl;
    [reflexivity | f_equal; exact IH | exact IH | exact IH].
Qed.

(** What was sent, after one more use of the session. *)
Lemma sent_use (st : State World) (w : World) c (u : SessionUse) :
  sent (mkState w c (session st ++ [u])) = (sent st ++ requests [u])%list.
Proof. unfold sent. simpl session. apply requests_app. Qed.

Lemma idle_silent {A} (m : M World A) : idle m -> silent m.
Proof. intros H st. unfold sent. rewrite H. reflexivity. Qed.

Lemma idle_ret {A} (a : A) : idle (@ret World A a).
Proof. intros st. reflexivity. Qed.

Lemma idle_raise {A} (e : exn) : idle (@raise World A e).
Proof. intros st. reflexivity. Qed.

Lemma idle_of_outcome {A} (o : outcome A) : idle (@of_outcome World A o).
Proof. intros st. reflexivity. Qed.

Lemma idle_in_world {A} (f : World -> A * World) : idle (in_world f).
Proof. intros st. unfold in_world. destruct (f (world st)). reflexivity. Qed.

Lemma idle_in_world_try {A} (f : World -> outcome A * World) : idle (in_world_try f).
Proof. intros st. unfold in_world_try. destruct (f (world st)). reflexivity. Qed.

Lemma idle_bind {A B} (m : M World A) (k : A -> M World B) :
  idle m -> (forall a, idle (k a)) -> idle (bind m k).
Proof.
  intros Hm Hk st. unfold bind. specialize (Hm st).
  destruct (m st) as [[a | e] st1]; simpl in *.
  - rewrite Hk. exact Hm.
  - exact Hm.
Qed.


Lemma silent_run {A} (m : M World A) st o st' :
  silent m -> m st = (o, st') -> sent st' = sent st.
Proof. intros Hm Hrun. specialize (Hm st). rewrite Hrun in Hm. exact Hm. Qed.

(** After a continuation that sends nothing, what was sent is what the
    first part sent. *)
Lemma bind_silent_sent {A B} (m : M World A) (k : A -> M World B) st :
  (forall a, silent (k a)) -> sent (snd (bind m k st)) = sent (snd (m st)).
Proof.
  intros Hk. unfold bind. destruct (m st) as [[a | e] st1]; [apply Hk | reflexivity].
Qed.

Lemma bind_raises {A B} (m : M World A) (k : A -> M World B) st e :
  fst (m st) = Raise e -> fst (bind m k st) = Raise e.
Proof.
  unfold bind. destruct (m st) as [[a | e'] st1]; cbn [fst];
    [discriminate | intros [= ->]; reflexivity].
Qed.

Lemma bind_ret_r {A} (m : M World A) st : bind m ret st = m st.
Proof. unfold bind, ret. destruct (m st) as [[a | e] st1]; reflexivity. Qed.

Lemma idle_talks {A} self P (m : M World A) : idle m -> talks self P m.
Proof.
  intros Hm st. exists [], []. rewrite Hm, !app_nil_r. auto.
Qed.

Lemma talks_bind_idle_l {A B} self P (m : M World A) (k : A -> M World B) :
  idle m -> (forall a, talks self P (k a)) -> talks self P (bind m k).
Proof.
  intros Hm Hk st. unfold bind. specialize (Hm st).
  destruct (m st) as [[a | e] st1]; simpl in *.
  - rewrite <- Hm. apply Hk.
  - exists [], []. rewrite Hm, !app_nil_r. auto.
Qed.

Lemma talks_bind_idle_r {A B} self P (m : M World A) (k : A -> M World B) :
  talks self P m -> (forall a, idle (k a)) -> talks self P (bind m k).
Proof.
  intros Hm Hk st. unfold bind. specialize (Hm st).
  destruct (m st) as [[a | e] st1]; simpl in *.
  - rewrite (Hk a st1). exact Hm.
  - exact Hm.
Qed.

Lemma talks_weaken {A} self (P Q : HttpRequest -> Prop) (m : M World A) :
  (forall r, P r -> Q r) -> talks self P m -> talks self Q m.
Proof.
  intros HPQ Hm st. destruct (Hm st) as (tokens & calls & H & Ht & Hc).
  exists tokens, calls. split; [exact H |]. split; [exact Ht |].
  destruct Hc as [-> | (r & -> & HP)]; [left; reflexivity |].
  right. exists r. split; [reflexivity | apply HPQ, HP].
Qed.

(** Of the at most two uses, the registry's own request is the one sent. *)
Lemma talks_emits {A} self P (m : M World A) : talks self P m -> emits P m.
Proof.
  intros Hm st. destruct (Hm st) as (tokens & calls & H & Ht & Hc).
  unfold sent. rewrite H, !requests_app.
  assert (Hnone : requests tokens = []).
  { destruct Ht as [-> | (a & _ & ->)]; reflexivity. }
  rewrite Hnone. simpl.
  destruct Hc as [-> | (r & -> & HP)].
  - left. apply app_nil_r.
  - right. exists r. split; [reflexivity | exact HP].
Qed.

Lemma silent_ret {A} (a : A) : silent (@ret World A a).
Proof. intros st. reflexivity. Qed.

Lemma silent_raise {A} (e : exn) : silent (@raise World A e).
Proof. intros st. reflexivity. Qed.

Lemma silent_of_outcome {A} (o : outcome A) : silent (@of_outcome World A o).
Proof. intros st. reflexivity. Qed.

Lemma silent_in_world {A} (f : World -> A * World) : silent (in_world f).
Proof. intros st. unfold in_world. destruct (f (world st)). reflexivity. Qed.

Lemma silent_in_world_try {A} (f : World -> outcome A * World) :
  silent (in_world_try f).
Proof. intros st. unfold in_world_try. destruct (f (world st)). reflexivity. Qed.

Lemma silent_bind {A B} (m : M World A) (k : A -> M World B) :
  silent m -> (forall a, silent (k a)) -> silent (bind m k).
Proof.
  intros Hm Hk st. unfold bind. specialize (Hm st).
  destruct (m st) as [[a | e] st1]; simpl in *.
  - rewrite Hk. exact Hm.
  - exact Hm.
Qed.

Lemma silent_emits {A} (P : HttpRequest -> Prop) (m : M World A) :
  silent m -> emits P m.
Proof. intros Hm st. left. apply Hm. Qed.

Lemma emits_bind_silent_l {A B} P (m : M World A) (k : A -> M World B) :
  silent m -> (forall a, emits P (k a)) -> emits P (bind m k).
Proof.
  intros Hm Hk st. unfold bind. specialize (Hm st).
  destruct (m st) as [[a | e] st1]; simpl in *.
  - rewrite <- Hm. apply Hk.
  - left. exact Hm.
Qed.

Lemma emits_bind_silent_r {A B} P (m : M World A) (k : A -> M World B) :
  emits P m -> (forall a, silent (k a)) -> emits P (bind m k).
Proof.
  intros Hm Hk st. unfold bind. specialize (Hm st).
  destruct (m st) as [[a | e] st1]; simpl in *.
  - rewrite (Hk a st1). exact Hm.
  - exact Hm.
Qed.

Lemma emits_weaken {A} (P Q : HttpRequest -> Prop) (m : M World A) :
  (forall r, P r -> Q r) -> emits P m -> emits Q m.
Proof.
  intros HPQ Hm st. destruct (Hm st) as [H | (r & H & HP)].
  - left. exact H.
  - right. exists r. split; [exact H | apply HPQ, HP].
Qed.

End TraceFacts.

Create HintDb trace.

#[local] Hint Resolve silent_ret silent_raise silent_of_outcome silent_in_world
  silent_in_world_try idle_ret idle_raise idle_of_outcome idle_in_world
  idle_in_world_try : trace.

(** ** The request pipeline *)

Section PipelineFacts.
Context {runtime : PyRuntime} {World : Type} {externals : Externals World}.

Lemma silent_get_or_call key (callback : M World string) ttl :
  silent callback -> silent (TtlCache.get_or_call key callback ttl).
Proof.
  intros Hc. unfold TtlCache.get_or_call.
  apply silent_bind; [apply silent_in_world |].
  intros now st.
  assert (Hrefresh : forall st0 : State World,
    sent (snd ((let! value := callback in
                let! stamp := in_world time_time in
                fun st' => (Return value,
                   mkState (world st') (<[key := (value, stamp + ttl)]> (cache st'))
                     (session st'))) st0)) = sent st0).
  { apply silent_bind; [exact Hc |]. intros v.
    apply silent_bind; [apply silent_in_world |]. intros s st'. reflexivity. }
  destruct (cache st !! key) as [[value expiry] |].
  - destruct (now <? expiry); [reflexivity | apply Hrefresh].
  - apply Hrefresh.
Qed.

Lemma silent_get_access_token self : silent (World := World) (_get_access_token self).
Proof.
  unfold _get_access_token.
  destruct (_authenticator self) as [authenticator |]; [| apply silent_raise].
  intros st. unfold use_session.
  destruct (get_tokens authenticator (world st)) as [o w].
  cbn [snd]. rewrite sent_use. apply app_nil_r.
Qed.

Lemma silent_request_headers self use_auth :
  silent (World := World) (request_headers self use_auth).
Proof.
  unfold request_headers. destruct use_auth; [| apply silent_ret].
  apply silent_bind; [| intros; apply silent_ret].
  apply silent_get_or_call, silent_get_access_token.
Qed.

Lemma silent_backend_id self : silent (World := World) (backend_id self).
Proof.
  unfold backend_id. destruct (_backend_id self) as [b |]; auto with trace.
  destruct (String.eqb b ""); auto with trace.
Qed.

Lemma silent_generate_job_id : silent (World := World) generate_job_id.
Proof. apply silent_in_world. Qed.

Lemma idle_backend_id self : idle (World := World) (backend_id self).
Proof.
  unfold backend_id. destruct (_backend_id self) as [b |]; auto with trace.
  destruct (String.eqb b ""); auto with trace.
Qed.

Lemma idle_generate_job_id : idle (World := World) generate_job_id.
Proof. apply idle_in_world. Qed.

(** What the headers take of the session: nothing, or one call of the
    authenticator for a token. *)
Lemma request_headers_session self use_auth (st : State World) :
  exists tokens,
    session (snd (request_headers self use_auth st)) = (session st ++ tokens)%list /\
    (tokens = [] \/
     exists authenticator,
       _authenticator self = Some authenticator /\ tokens = [OidcTokens authenticator]).
Proof.
  assert (Hnone : forall st' : State World,
             session st' = session st ->
             exists tokens,
               session st' = (session st ++ tokens)%list /\
               (tokens = [] \/
                exists authenticator,
                  _authenticator self = Some authenticator
                  /\ tokens = [OidcTokens authenticator])).
  { intros st' H. exists []. rewrite app_nil_r. auto. }
  unfold request_headers. destruct use_auth; [| apply Hnone; reflexivity].
  unfold TtlCache.get_or_call. unfold bind at 1. unfold bind at 1.
  unfold in_world at 1. destruct (time_time (world st)) as [now w].
  cbn [cache].
  assert (Hrefresh :
    exists tokens,
      session (snd (
        match
          (let! value := _get_access_token self in
           let! stamp := in_world time_time in
           fun st' : State World =>
             (Return value,
              mkState (world st')
                (<["api_access_token" := (value, stamp + 30 * 60)]> (cache st'))
                (session st'))) (mkState w (cache st) (session st))
        with
        | (Return a, st') => ret [("Authorization", "Bearer " +:+ a)] st'
        | (Raise e, st') => (Raise e, st')
        end)) = (session st ++ tokens)%list /\
      (tokens = [] \/
       exists authenticator,
         _authenticator self = Some authenticator /\ tokens = [OidcTokens authenticator])).
  { unfold _get_access_token.
    destruct (_authenticator self) as [authenticator |]; [| apply Hnone; reflexivity].
    unfold bind at 1. unfold use_session at 1. cbn [world cache session].
    destruct (get_tokens authenticator w) as [[token | e] w'].
    - unfold bind, in_world. cbn [world cache session].
      destruct (time_time w') as [stamp w'']. cbn [snd session].
      exists [OidcTokens authenticator]. split; [reflexivity |]. eauto.
    - cbn [snd session]. exists [OidcTokens authenticator]. split; [reflexivity |]. eauto. }
  destruct (cache st !! "api_access_token") as [[value expiry] |]; [| exact Hrefresh].
  destruct (now <? expiry); [apply Hnone; reflexivity | exact Hrefresh].
Qed.

Lemma emits_request_session r : emits (fun r' => r' = r) (request_session r).
Proof.
  intros st. right. exists r. unfold request_session, use_session.
  destruct (session_request r (world st)). cbn [snd]. rewrite sent_use. auto.
Qed.

(** A call of [_do_request] hands at most one request to the session: the
    given method and body, the joined URL, the fixed timeout. *)
Lemma emits_do_request self method path json use_auth expected_status :
  emits (fun r => exists headers,
           r = mkHttpRequest method (url_join (_api_url self) path) json headers
                 _REQUEST_TIMEOUT)
        (_do_request (World := World) self method path json use_auth expected_status).
Proof.
  unfold _do_request. apply emits_bind_silent_l.
  - apply silent_request_headers.
  - intros headers. apply emits_bind_silent_r.
    + eapply emits_weaken; [| apply emits_request_session].
      intros r ->. exists headers. reflexivity.
    + intros response.
      destruct (Py.int_truthy expected_status &&
                negb (bool_decide (Some (status_code response) = expected_status))).
      * apply silent_raise.
      * apply silent_bind; auto with trace.
Qed.

(** A call of [_do_request] works with the session at most twice: for a
    token, through the authenticator, and for its one request. *)
Lemma talks_do_request self method path json use_auth expected_status :
  talks self
        (fun r => exists headers,
           r = mkHttpRequest method (url_join (_api_url self) path) json headers
                 _REQUEST_TIMEOUT)
        (_do_request (World := World) self method path json use_auth expected_status).
Proof.
  intros st.
  destruct (request_headers_session self use_auth st) as (tokens & Hs & Htokens).
  unfold _do_request. unfold bind at 1.
  destruct (request_headers self use_auth st) as [[headers | e] st1].
  - cbn [snd] in Hs. unfold bind at 1. unfold request_session, use_session.
    destruct (session_request _ (world st1)) as [[response | e] w].
    + exists tokens, [Request (mkHttpRequest method (url_join (_api_url self) path)
                                 json headers _REQUEST_TIMEOUT)].
      split; [| split; [exact Htokens | right; eauto]].
      rewrite app_assoc, <- Hs.
      destruct (Py.int_truthy expected_status &&
                negb (bool_decide (Some (status_code response) = expected_status)));
        [reflexivity |].
      unfold bind, of_outcome. destruct (raise_for_status response); reflexivity.
    + exists tokens, [Request (mkHttpRequest method (url_join (_api_url self) path)
                                 json headers _REQUEST_TIMEOUT)].
      split; [| split; [exact Htokens | right; eauto]].
      rewrite app_assoc, <- Hs. reflexivity.
  - cbn [snd] in *. exists tokens, []. rewrite app_nil_r. auto.
Qed.

Lemma emits_update self job_id data :
  emits (fun r => exists headers,
           r = mkHttpRequest "PATCH" (url_join (_api_url self) ("/jobs/" +:+ job_id))
                 (Some (JDict data)) headers _REQUEST_TIMEOUT)
        (_update (World := World) self job_id data).
Proof. apply emits_do_request. Qed.

Lemma emits_search self query fields :
  emits (fun r => exists headers,
           r = mkHttpRequest "POST" (url_join (_api_url self) "/jobs/search")
                 (Some (JDict
                    [ ("query", query);
                      ("_source", JList (map JStr (elements
                         (list_to_set (default [] fields)
                            ∪ ({[ "job_id"; "user_id"; "created"; "status"; "updated" ]}
                               : gset string))))) ]))
                 headers _REQUEST_TIMEOUT)
        (_search (World := World) self query fields).
Proof. apply emits_do_request. Qed.

(** What the headers take leaves the registry's own requests as they were. *)
Lemma request_headers_sent self use_auth (st st1 : State World) o :
  request_headers self use_auth st = (o, st1) -> sent st1 = sent st.
Proof. apply silent_run, silent_request_headers. Qed.

(** With the headers obtained, [_do_request] hands the request to the
    session and classifies what comes back. *)
Lemma do_request_run self method path json use_auth expected_status
      (st st1 : State World) headers o w :
  request_headers self use_auth st = (Return headers, st1) ->
  session_request
    (mkHttpRequest method (url_join (_api_url self) path) json headers 20)
    (world st1) = (o, w) ->
  _do_request self method path json use_auth expected_status st
  = (match o with
     | Raise e => Raise e
     | Return response =>
         if Py.int_truthy expected_status
            && negb (bool_decide (Some (status_code response) = expected_status))
         then Raise (EjrHttpError.from_response response)
         else let? _ := raise_for_status response in json_loads (text response)
     end,
     mkState w (cache st1)
       (session st1 ++ [ Request (mkHttpRequest method (url_join (_api_url self) path)
                                    json headers 20) ])%list).
Proof.
  intros Hh Hs.
  unfold _do_request. unfold bind at 1. rewrite Hh.
  unfold bind at 1. unfold request_session, use_session.
  unfold _REQUEST_TIMEOUT. rewrite Hs.
  destruct o as [response | e]; [| reflexivity].
  destruct (Py.int_truthy expected_status &&
            negb (bool_decide (Some (status_code response) = expected_status))).
  - reflexivity.
  - unfold bind, of_outcome. destruct (raise_for_status response); reflexivity.
Qed.

(** Without headers there is no request. *)
Lemma do_request_no_headers self method path json use_auth expected_status
      (st st1 : State World) e :
  request_headers self use_auth st = (Raise e, st1) ->
  _do_request self method path json use_auth expected_status st = (Raise e, st1).
Proof. intros Hh. unfold _do_request. unfold bind at 1. rewrite Hh. reflexivity. Qed.

(** With the headers obtained, the one request is sent, whatever comes
    back. *)
Lemma do_request_sent self method path json use_auth expected_status
      (st st1 : State World) headers :
  request_headers self use_auth st = (Return headers, st1) ->
  sent (snd (_do_request self method path json use_auth expected_status st))
  = (sent st ++ [ mkHttpRequest method (url_join (_api_url self) path) json
                    headers 20 ])%list.
Proof.
  intros Hh.
  destruct (session_request
              (mkHttpRequest method (url_join (_api_url self) path) json headers 20)
              (world st1)) as [o w] eqn:Hs.
  rewrite (do_request_run _ _ _ _ _ _ _ _ _ _ _ Hh Hs). cbn [snd].
  rewrite sent_use, (request_headers_sent _ _ _ _ _ Hh). reflexivity.
Qed.

End PipelineFacts.

(** ** Dictionaries *)

Section DictFacts.

Lemma dict_get_set_eq (d : JobDict) k v : PyDict.get (PyDict.set d k v) k = Some v.
Proof.
  induction d as [| [k' v'] d IH]; simpl.
  - rewrite String.eqb_refl. reflexivity.
  - destruct (String.eqb k' k) eqn:E; simpl; rewrite E; [reflexivity | exact IH].
Qed.

Lemma dict_get_set_ne (d : JobDict) k k' v :
  k <> k' -> PyDict.get (PyDict.set d k v) k' = PyDict.get d k'.
Proof.
  intros Hne. induction d as [| [k0 v0] d IH]; simpl.
  - destruct (String.eqb k k') eqn:E; [| reflexivity].
    apply String.eqb_eq in E. contradiction.
  - destruct (String.eqb k0 k) eqn:E; simpl.
    + apply String.eqb_eq in E. subst k0.
      destruct (String.eqb k k') eqn:E'; [| reflexivity].
      apply String.eqb_eq in E'. contradiction.
    + rewrite IH. reflexivity.
Qed.

(** Whatever a record holds, merging a field set to [None] leaves it
    absent for a reader. *)
Lemma partial_update_two_nulls (record : JobDict) k1 k2 :
  absent (partial_update record [ (k1, JNull); (k2, JNull) ]) k1 /\
  absent (partial_update record [ (k1, JNull); (k2, JNull) ]) k2.
Proof.
  unfold absent, partial_update, PyDict.update. simpl. split.
  - destruct (String.eqb_spec k2 k1) as [-> | Hne].
    + rewrite dict_get_set_eq. reflexivity.
    + rewrite dict_get_set_ne by exact Hne. rewrite dict_get_set_eq. reflexivity.
  - rewrite dict_get_set_eq. reflexivity.
Qed.

End DictFacts.

(** ** Mutations *)

Section MutationFacts.
Context {runtime : PyRuntime} {World : Type} {externals : Externals World}.

Lemma emits_bind_post {A B} (Q : A -> Prop) P (m : M World A) (k : A -> M World B) :
  silent m ->
  (forall st a st', m st = (Return a, st') -> Q a) ->
  (forall a, Q a -> emits P (k a)) ->
  emits P (bind m k).
Proof.
  intros Hm HQ Hk st. unfold bind. specialize (Hm st). specialize (HQ st).
  destruct (m st) as [[a | e] st1]; simpl in *.
  - rewrite <- Hm. apply Hk. eapply HQ. reflexivity.
  - left. exact Hm.
Qed.

Lemma silent_datetime_or x (other : M World string) :
  silent other -> silent (datetime_or x other).
Proof.
  intros Ho. unfold datetime_or. destruct x as [s |]; [| exact Ho].
  destruct (String.eqb s ""); [exact Ho | apply silent_of_outcome].
Qed.

Lemma silent_set_datetime_if x key data :
  silent (World := World) (set_datetime_if x key data).
Proof.
  unfold set_datetime_if. destruct x as [s |]; [| apply silent_ret].
  destruct (String.eqb s ""); [apply silent_ret |].
  apply silent_bind; [apply silent_of_outcome | intros; apply silent_ret].
Qed.

Lemma silent_payload m : silent (payload m).
Proof.
  destruct m; simpl; try apply silent_ret.
  apply silent_bind; [apply silent_datetime_or, silent_in_world |].
  intros stamp. apply silent_bind; intros; apply silent_set_datetime_if.
Qed.

Lemma idle_datetime_or x (other : M World string) :
  idle other -> idle (datetime_or x other).
Proof.
  intros Ho. unfold datetime_or. destruct x as [s |]; [| exact Ho].
  destruct (String.eqb s ""); [exact Ho | apply idle_of_outcome].
Qed.

Lemma idle_set_datetime_if x key data :
  idle (World := World) (set_datetime_if x key data).
Proof.
  unfold set_datetime_if. destruct x as [s |]; [| apply idle_ret].
  destruct (String.eqb s ""); [apply idle_ret |].
  apply idle_bind; [apply idle_of_outcome | intros; apply idle_ret].
Qed.

Lemma idle_payload m : idle (payload m).
Proof.
  destruct m; simpl; try apply idle_ret.
  apply idle_bind; [apply idle_datetime_or, idle_in_world |].
  intros stamp. apply idle_bind; intros; apply idle_set_datetime_if.
Qed.

(** What [set_datetime_if] returns has the old keys, and the new key after
    them exactly when the value was supplied. *)
Lemma set_datetime_if_keys x key data st data' st' :
  ~ In key (PyDict.keys data) ->
  set_datetime_if (World := World) x key data st = (Return data', st') ->
  PyDict.keys data' =
    (PyDict.keys data ++ (if PyStr.truthy x then [key] else []))%list.
Proof.
  intros Hfresh. unfold set_datetime_if, PyStr.truthy.
  assert (Hset : forall v, PyDict.keys (PyDict.set data key v)
                           = (PyDict.keys data ++ [key])%list).
  { intros v. clear -Hfresh. induction data as [| [k0 v0] d IH]; simpl in *.
    - reflexivity.
    - destruct (String.eqb k0 key) eqn:E.
      + apply String.eqb_eq in E. tauto.
      + simpl. f_equal. apply IH. tauto. }
  destruct x as [s |].
  - destruct (String.eqb s ""); simpl.
    + intros [= <- <-]. rewrite app_nil_r. reflexivity.
    + unfold bind, of_outcome, ret. destruct (rfc3339_datetime s); [| discriminate].
      intros [= <- <-]. apply Hset.
  - intros [= <- <-]. rewrite app_nil_r. reflexivity.
Qed.

Lemma payload_keys m st data st' :
  payload m st = (Return data, st') -> PyDict.keys data = fields_being_set m.
Proof.
  destruct m; simpl; try (intros [= <- <-]; reflexivity).
  unfold bind at 1.
  destruct (datetime_or updated (in_world utcnow) st) as [[stamp | e] st1];
    [| discriminate].
  unfold bind.
  destruct (set_datetime_if started "started" _ st1) as [[d1 | e] st2] eqn:E1;
    [| discriminate].
  intros E2.
  apply set_datetime_if_keys in E1; [| simpl; intuition discriminate].
  apply set_datetime_if_keys in E2.
  - rewrite E2, E1. simpl. reflexivity.
  - rewrite E1. simpl. destruct (PyStr.truthy started); simpl; intuition discriminate.
Qed.

(** Every mutation is its payload handed to [_update] for its one job. *)
Lemma run_mutation_through_update self m st :
  run_mutation self m st = bind (payload m) (_update self (target m)) st.
Proof.
  destruct m; try reflexivity.
  simpl. unfold set_status, bind.
  destruct (datetime_or updated (in_world utcnow) st) as [[stamp | e] st1];
    [| reflexivity].
  destruct (set_datetime_if started "started" _ st1) as [[d1 | e] st2];
    [| reflexivity].
  destruct (set_datetime_if finished "finished" d1 st2) as [[d2 | e] st3];
    reflexivity.
Qed.

(** Once its payload is computed and the request headers are there, a
    mutation sends exactly its PATCH. *)
Lemma run_mutation_sent self m (st st1 st2 : State World) data headers :
  payload m st = (Return data, st1) ->
  request_headers self true st1 = (Return headers, st2) ->
  sent (snd (run_mutation self m st))
  = (sent st ++ [ mkHttpRequest "PATCH"
                    (url_join (_api_url self) ("/jobs/" +:+ target m))
                    (Some (JDict data)) headers 20 ])%list.
Proof.
  intros Hp Hh. rewrite run_mutation_through_update. unfold bind. rewrite Hp.
  unfold _update. rewrite (do_request_sent _ _ _ _ _ _ _ _ _ Hh).
  rewrite (silent_run _ _ _ _ (silent_payload m) Hp). reflexivity.
Qed.

(** What comes out of a mutation is what [_do_request] makes of the
    session's answer. *)
Lemma run_mutation_result self m (st st1 st2 : State World) data headers o w :
  payload m st = (Return data, st1) ->
  request_headers self true st1 = (Return headers, st2) ->
  session_request
    (mkHttpRequest "PATCH" (url_join (_api_url self) ("/jobs/" +:+ target m))
       (Some (JDict data)) headers 20) (world st2) = (o, w) ->
  fst (run_mutation self m st)
  = match o with
    | Raise e => Raise e
    | Return response =>
        if negb (bool_decide (Some (status_code response) = Some 200))
        then Raise (EjrHttpError.from_response response)
        else let? _ := raise_for_status response in json_loads (text response)
    end.
Proof.
  intros Hp Hh Hs. rewrite run_mutation_through_update. unfold bind. rewrite Hp.
  unfold _update. rewrite (do_request_run _ _ _ _ _ _ _ _ _ _ _ Hh Hs). reflexivity.
Qed.

Lemma talks_run_mutation self m :
  talks self
        (fun r => exists data headers,
           r = mkHttpRequest "PATCH"
                 (url_join (_api_url self) ("/jobs/" +:+ target m))
                 (Some (JDict data)) headers 20)
        (run_mutation (World := World) self m).
Proof.
  intros st. rewrite run_mutation_through_update. revert st.
  apply talks_bind_idle_l; [apply idle_payload |].
  intros data. eapply talks_weaken; [| apply talks_do_request].
  intros r [headers ->]. eauto.
Qed.

Lemma job_id_not_being_set m : ~ In "job_id" (fields_being_set m).
Proof.
  destruct m; simpl;
    try destruct (PyStr.truthy started); try destruct (PyStr.truthy finished);
    simpl; intuition discriminate.
Qed.

(** C3. Every mutation operation (set_status, set_dependencies,
    remove_dependencies, set_dependency_status, set_dependency_usage,
    set_proxy_user, set_application_id) goes through the one partial-update
    primitive [_update]: it is a computation of the payload, which sends
    nothing, followed by [_update] on the job id of the call.  What it hands
    to the HTTP session is at most one PATCH request to the path of that job
    id, whose body has exactly the fields being set (for set_status with the
    [updated] stamp), and never all the fields of a record. *)
Theorem mutation_is_partial_update (self : ElasticJobRegistry) (m : Mutation) :
  (exists prepare : M World JobDict,
      silent prepare /\
      (forall st data st', prepare st = (Return data, st') ->
                           PyDict.keys data = fields_being_set m) /\
      (forall st, run_mutation self m st
                  = bind prepare (_update self (target m)) st)) /\
  emits (fun r => exists data headers,
           r = mkHttpRequest "PATCH"
                 (url_join (_api_url self) ("/jobs/" +:+ target m))
                 (Some (JDict data)) headers 20
           /\ PyDict.keys data = fields_being_set m
           /\ ~ (forall f, In f record_fields -> In f (PyDict.keys data)))
        (run_mutation self m).
Proof.
  split.
  - exists (payload m). split; [apply silent_payload |]. split.
    + apply payload_keys.
    + apply run_mutation_through_update.
  - intros st. rewrite run_mutation_through_update. revert st.
    apply (emits_bind_post (fun data => PyDict.keys data = fields_being_set m)).
    + apply silent_payload.
    + apply payload_keys.
    + intros data Hkeys. eapply emits_weaken; [| apply emits_update].
      intros r [headers ->]. exists data, headers.
      split; [reflexivity |]. split; [exact Hkeys |].
      intros Hall. apply (job_id_not_being_set m). rewrite <- Hkeys.
      apply Hall. simpl. tauto.
Qed.

(** C4. A call of remove_dependencies hands at most one request to the
    HTTP session, the PATCH of that job id whose body sets both
    [dependencies] and [dependency_status] to [None]; once the request
    headers are there it is exactly that one request; and merged into any record, whatever it
    held in these fields, that body leaves both absent. *)
Theorem remove_dependencies_clears_both (self : ElasticJobRegistry) (job_id : string) :
  let body := [ ("dependencies", JNull); ("dependency_status", JNull) ] in
  emits (fun r => exists headers,
           r = mkHttpRequest "PATCH"
                 (url_join (_api_url self) ("/jobs/" +:+ job_id))
                 (Some (JDict body)) headers 20)
        (remove_dependencies (World := World) self job_id) /\
  (forall st headers st1,
      request_headers self true st = (Return headers, st1) ->
      sent (snd (remove_dependencies self job_id st))
      = (sent st ++ [ mkHttpRequest "PATCH"
                        (url_join (_api_url self) ("/jobs/" +:+ job_id))
                        (Some (JDict body)) headers 20 ])%list) /\
  (forall record : JobDict,
      absent (partial_update record body) "dependencies" /\
      absent (partial_update record body) "dependency_status").
Proof.
  intros body. split; [| split].
  - apply emits_update.
  - intros st headers st1 Hh.
    unfold remove_dependencies, _update. apply (do_request_sent _ _ _ _ _ _ _ _ _ Hh).
  - intros record. apply partial_update_two_nulls.
Qed.

End MutationFacts.

(** ** Strings that occur in a message *)

Section OccursFacts.

Lemma append_cons x (a b : string) : String x a +:+ b = String x (a +:+ b).
Proof. reflexivity. Qed.

Lemma append_assoc (a b c : string) : (a +:+ b) +:+ c = a +:+ b +:+ c.
Proof.
  induction a as [| x a IH]; [reflexivity |].
  rewrite !append_cons, IH. reflexivity.
Qed.

Lemma append_empty_r (a : string) : a +:+ "" = a.
Proof.
  induction a as [| x a IH]; [reflexivity |].
  rewrite append_cons, IH. reflexivity.
Qed.

Lemma occurs_in_refl p : PyStr.occurs_in p p.
Proof. exists "", "". change ("" +:+ p +:+ "") with (p +:+ ""). rewrite append_empty_r. reflexivity. Qed.

Lemma occurs_in_head p b : PyStr.occurs_in p (p +:+ b).
Proof. exists "", b. reflexivity. Qed.

Lemma occurs_in_skip p a s : PyStr.occurs_in p s -> PyStr.occurs_in p (a +:+ s).
Proof.
  intros (x & y & ->). exists (a +:+ x), y. rewrite append_assoc. reflexivity.
Qed.

Lemma occurs_in_join (f : string -> string) sep k l :
  In k l -> PyStr.occurs_in (f k) (PyStr.join sep (map f l)).
Proof.
  induction l as [| x l IH]; [intros [] |].
  intros [-> | Hin].
  - destruct l as [| y l]; simpl; [apply occurs_in_refl | apply occurs_in_head].
  - destruct l as [| y l]; [destruct Hin |].
    change (PyStr.join sep (map f (x :: y :: l)))
      with (f x +:+ sep +:+ PyStr.join sep (map f (y :: l))).
    apply occurs_in_skip, occurs_in_skip, IH, Hin.
Qed.

End OccursFacts.

Ltac occurs :=
  repeat first
    [ apply occurs_in_refl
    | apply occurs_in_head
    | apply occurs_in_skip ].

(** ** The request pipeline, step by step *)

Section RequestFacts.
Context {runtime : PyRuntime} {World : Type} {externals : Externals World}.

(** A status that equals a truthy expected_status is still passed through
    [raise_for_status]: when it is a 4xx or 5xx status, the call raises the
    HTTP library's error. *)
Lemma do_request_expected_error_status self method path json use_auth
      (st st1 : State World) headers response w :
  request_headers self use_auth st = (Return headers, st1) ->
  session_request
    (mkHttpRequest method (url_join (_api_url self) path) json headers 20)
    (world st1) = (Return response, w) ->
  400 <= status_code response < 600 ->
  fst (_do_request self method path json use_auth (Some (status_code response)) st)
  = Raise (HTTPError response).
Proof.
  intros Hh Hs [Hlo Hhi].
  rewrite (do_request_run _ _ _ _ _ _ _ _ _ _ _ Hh Hs). simpl.
  rewrite bool_decide_eq_true_2 by reflexivity. rewrite andb_false_r.
  unfold raise_for_status.
  destruct (Z.leb_spec 400 (status_code response)); [| lia].
  destruct (Z.ltb_spec (status_code response) 600); [| lia]. reflexivity.
Qed.

(** C5, amended. For every call of _do_request that gets a response: if
    expected_status is truthy and the response status differs from it, the
    call raises the registry's HTTP error, which carries the status code
    and whose message has the status code, the reason phrase, the method
    and URL of the request and the response body in it.  If
    expected_status is falsy, the response is classified by its status
    alone: the call fails, with the HTTP library's own error, exactly on
    the 4xx and 5xx statuses, and on every other status it returns what
    decoding the response body gives.  Otherwise, when the response status
    equals expected_status and is not a 4xx or 5xx status, the call
    returns what decoding the response body gives. *)
Theorem do_request_classifies_response self method path json use_auth
        expected_status (st st1 : State World) headers response w :
  request_headers self use_auth st = (Return headers, st1) ->
  session_request
    (mkHttpRequest method (url_join (_api_url self) path) json headers 20)
    (world st1) = (Return response, w) ->
  let status := status_code response in
  let result := fst (_do_request self method path json use_auth expected_status st) in
  (Py.int_truthy expected_status = true -> expected_status <> Some status ->
     exists msg,
       result = Raise (EjrHttpError msg (Some status)) /\
       PyStr.occurs_in (PyStr.str_int status) msg /\
       PyStr.occurs_in (py_repr (JStr (reason response))) msg /\
       PyStr.occurs_in (request_method (request response)) msg /\
       PyStr.occurs_in (py_repr (JStr (request_url (request response)))) msg /\
       PyStr.occurs_in (text response) msg) /\
  (Py.int_truthy expected_status = false ->
     (400 <= status < 600 -> result = Raise (HTTPError response)) /\
     (~ 400 <= status < 600 -> result = json_loads (text response))) /\
  (expected_status = Some status -> ~ 400 <= status < 600 ->
     result = json_loads (text response)).
Proof.
  intros Hh Hs status result. subst result.
  rewrite (do_request_run _ _ _ _ _ _ _ _ _ _ _ Hh Hs). simpl.
  assert (Hpass : ~ 400 <= status < 600 ->
                  (let? _ := raise_for_status response in json_loads (text response))
                  = json_loads (text response)).
  { intros Hout. unfold raise_for_status. fold status.
    destruct (Z.leb_spec 400 status); destruct (Z.ltb_spec status 600);
      simpl; try reflexivity. lia. }
  split; [| split].
  - intros Ht Hne. rewrite Ht. simpl.
    rewrite bool_decide_eq_false_2
      by (intros E; apply Hne; symmetry; exact E).
    simpl. eexists. split; [reflexivity |]. repeat split; occurs.
  - intros Hfalsy. rewrite Hfalsy. simpl. split; [| exact Hpass].
    intros [Hlo Hhi]. unfold raise_for_status. fold status.
    destruct (Z.leb_spec 400 status); [| lia].
    destruct (Z.ltb_spec status 600); [| lia]. reflexivity.
  - intros -> Hout.
    rewrite bool_decide_eq_true_2 by reflexivity. rewrite andb_false_r.
    apply Hpass, Hout.
Qed.

End RequestFacts.

(** ** Searches *)

Ltac silence :=
  repeat first
    [ apply silent_ret
    | apply silent_raise
    | apply silent_of_outcome
    | apply silent_in_world
    | apply silent_backend_id
    | apply silent_bind; [| intros ?]
    | match goal with
      | |- silent (if ?c then _ else _) => destruct c
      end ].

Ltac at_rest :=
  repeat first
    [ apply idle_ret
    | apply idle_raise
    | apply idle_of_outcome
    | apply idle_in_world
    | apply idle_backend_id
    | apply idle_bind; [| intros ?]
    | match goal with
      | |- idle (if ?c then _ else _) => destruct c
      end ].

Section FetchFacts.
Context {runtime : PyRuntime} {World : Type} {externals : Externals World}.

(** What [backend_id] returns is the registry's backend id. *)
Lemma backend_id_returns self (st st' : State World) b :
  backend_id self st = (Return b, st') -> _backend_id self = Some b /\ b <> "".
Proof.
  unfold backend_id. destruct (_backend_id self) as [b0 |]; [| discriminate].
  destruct (String.eqb_spec b0 ""); [discriminate |].
  intros [= <- <-]. auto.
Qed.

Lemma backend_id_set self (st : State World) b :
  _backend_id self = Some b -> b <> "" -> backend_id self st = (Return b, st).
Proof.
  intros Hb Hne. unfold backend_id. rewrite Hb.
  destruct (String.eqb_spec b ""); [contradiction | reflexivity].
Qed.

(** The projection [_search] sends holds the five basic fields and every
    field asked for. *)
Lemma search_projection (fields : option (list string)) f :
  In f ["job_id"; "user_id"; "created"; "status"; "updated"]
  \/ In f (default [] fields) ->
  In f (elements (list_to_set (default [] fields)
                    ∪ ({[ "job_id"; "user_id"; "created"; "status"; "updated" ]}
                       : gset string))).
Proof.
  intros H. apply list_elem_of_In, elem_of_elements.
  destruct H as [H | H].
  - apply elem_of_union_r.
    destruct H as [<- | [<- | [<- | [<- | [<- | []]]]]];
      rewrite !elem_of_union, !elem_of_singleton; tauto.
  - apply elem_of_union_l, elem_of_list_to_set, list_elem_of_In, H.
Qed.

(** What [get_job] does with the search result sends nothing. *)
Lemma silent_get_job_pick job_id (jobs : Json) :
  silent (World := World)
    (let! n := of_outcome (Py.len jobs) in
     if (n =? 1)%nat then
       let! job := of_outcome (Py.first jobs) in
       let! found := of_outcome (Py.getitem job "job_id") in
       if Py.eq_str found job_id then ret job
       else raise (AssertionError ("job['job_id']=" +:+ py_repr found
                                   +:+ " != job_id=" +:+ py_repr (JStr job_id)))
     else if (n =? 0)%nat then
       raise (JobNotFoundException job_id)
     else
       let! items := of_outcome (Py.iter jobs) in
       let! summary :=
         of_outcome (Py.mapM (fun j =>
           let? u := Py.get j "user_id" in
           let? c := Py.get j "created" in
           Return (JDict [ ("user_id", u); ("created", c) ])) items) in
       raise (InternalException ("Found " +:+ PyStr.str_int (Z.of_nat n)
                                 +:+ " jobs for job_id=" +:+ py_repr (JStr job_id)))).
Proof. silence. Qed.

(** Nor does it work with the session in any other way. *)
Lemma idle_get_job_pick job_id (jobs : Json) :
  idle (World := World)
    (let! n := of_outcome (Py.len jobs) in
     if (n =? 1)%nat then
       let! job := of_outcome (Py.first jobs) in
       let! found := of_outcome (Py.getitem job "job_id") in
       if Py.eq_str found job_id then ret job
       else raise (AssertionError ("job['job_id']=" +:+ py_repr found
                                   +:+ " != job_id=" +:+ py_repr (JStr job_id)))
     else if (n =? 0)%nat then
       raise (JobNotFoundException job_id)
     else
       let! items := of_outcome (Py.iter jobs) in
       let! summary :=
         of_outcome (Py.mapM (fun j =>
           let? u := Py.get j "user_id" in
           let? c := Py.get j "created" in
           Return (JDict [ ("user_id", u); ("created", c) ])) items) in
       raise (InternalException ("Found " +:+ PyStr.str_int (Z.of_nat n)
                                 +:+ " jobs for job_id=" +:+ py_repr (JStr job_id)))).
Proof. at_rest. Qed.

(** With the headers obtained, a search sends exactly its request. *)
Lemma search_sent self query fields (st st1 : State World) headers :
  request_headers self true st = (Return headers, st1) ->
  sent (snd (_search self query fields st))
  = (sent st ++
     [ mkHttpRequest "POST" (url_join (_api_url self) "/jobs/search")
         (Some (JDict
            [ ("query", query);
              ("_source", JList (map JStr (elements
                 (list_to_set (default [] fields)
                    ∪ ({[ "job_id"; "user_id"; "created"; "status"; "updated" ]}
                       : gset string))))) ]))
         headers 20 ])%list.
Proof. intros Hh. unfold _search. apply (do_request_sent _ _ _ _ _ _ _ _ _ Hh). Qed.

(** With a backend id, the two listings are their search. *)
Lemma list_user_jobs_search self user_id fields backend (st : State World) :
  _backend_id self = Some backend -> backend <> "" ->
  list_user_jobs self user_id fields st
  = _search self
      (JDict [ ("bool", JDict [ ("filter", JList
         [ JDict [ ("term", JDict [ ("backend_id", JStr backend) ]) ];
           JDict [ ("term", JDict [ ("user_id", json_of_opt_str user_id) ]) ] ]) ]) ])
      fields st.
Proof.
  intros Hb Hne. unfold list_user_jobs. unfold bind at 1.
  rewrite (backend_id_set _ _ _ Hb Hne). reflexivity.
Qed.

Lemma list_active_jobs_search self max_age fields backend (st : State World) :
  _backend_id self = Some backend -> backend <> "" ->
  list_active_jobs self max_age fields st
  = _search self
      (JDict [ ("bool", JDict [ ("filter", JList
         [ JDict [ ("term", JDict [ ("backend_id", JStr backend) ]) ];
           JDict [ ("terms", JDict [ ("status",
             JList [ JStr "created"; JStr "queued"; JStr "running" ]) ]) ];
           JDict [ ("range", JDict [ ("created", JDict
             [ ("gte", JStr ("now-" +:+ PyStr.str_int (max_age_or_7 max_age)
                             +:+ "d")) ]) ]) ] ]) ]) ])
      fields st.
Proof.
  intros Hb Hne. unfold list_active_jobs. unfold bind at 1.
  rewrite (backend_id_set _ _ _ Hb Hne). reflexivity.
Qed.

(** With a backend id, [get_job] is its search followed by the choice
    among the records found, which leaves the session alone. *)
Lemma get_job_through_search self job_id fields backend :
  _backend_id self = Some backend -> backend <> "" ->
  exists k : Json -> M World Json,
    (forall jobs, idle (k jobs)) /\
    forall st : State World,
      get_job self job_id fields st
      = bind (_search self
                (JDict [ ("bool", JDict [ ("filter", JList
                   [ JDict [ ("term", JDict [ ("backend_id", JStr backend) ]) ];
                     JDict [ ("term", JDict [ ("job_id", JStr job_id) ]) ] ]) ]) ])
                (fields_or_all fields)) k st.
Proof.
  intros Hb Hne. eexists. split.
  - intros jobs. apply (idle_get_job_pick job_id jobs).
  - intros st. unfold get_job. unfold bind at 1.
    rewrite (backend_id_set _ _ _ Hb Hne). reflexivity.
Qed.

(** Every fetch, on a registry with a backend id, is a search followed by
    something that leaves the session alone. *)
Lemma run_fetch_through_search self f backend :
  _backend_id self = Some backend -> backend <> "" ->
  exists query fields (k : Json -> M World Json),
    default [] fields = requested_fields f /\
    (forall jobs, idle (k jobs)) /\
    forall st : State World,
      run_fetch self f st = bind (_search self query fields) k st.
Proof.
  intros Hb Hne.
  destruct f as [job_id fields | user_id fields | max_age fields]; simpl.
  - destruct (get_job_through_search self job_id fields backend Hb Hne)
      as (k & Hk & Hrun).
    eexists _, (fields_or_all fields), k. auto.
  - eexists _, fields, ret. split; [reflexivity |].
    split; [intros; apply idle_ret |]. intros st.
    rewrite bind_ret_r. apply (list_user_jobs_search _ _ _ _ _ Hb Hne).
  - eexists _, fields, ret. split; [reflexivity |].
    split; [intros; apply idle_ret |]. intros st.
    rewrite bind_ret_r. apply (list_active_jobs_search _ _ _ _ _ Hb Hne).
Qed.

(** So with a backend id and the headers obtained, a fetch sends exactly
    its search request, and a status other than 200 in the answer to that
    request makes it fail with the registry's HTTP error. *)
Lemma run_fetch_sent self f backend (st st1 : State World) headers :
  _backend_id self = Some backend -> backend <> "" ->
  request_headers self true st = (Return headers, st1) ->
  exists query,
    let r := mkHttpRequest "POST" (url_join (_api_url self) "/jobs/search")
               (Some (JDict
                  [ ("query", query);
                    ("_source", JList (map JStr (elements
                       (list_to_set (requested_fields f)
                          ∪ ({[ "job_id"; "user_id"; "created"; "status"; "updated" ]}
                             : gset string))))) ]))
               headers 20 in
    sent (snd (run_fetch self f st)) = (sent st ++ [r])%list /\
    forall response w,
      session_request r (world st1) = (Return response, w) ->
      status_code response <> 200 ->
      fst (run_fetch self f st) = Raise (EjrHttpError.from_response response).
Proof.
  intros Hb Hne Hh.
  destruct (run_fetch_through_search self f backend Hb Hne)
    as (query & fields & k & Hf & Hk & Hrun).
  exists query. cbv zeta. rewrite Hrun, <- Hf. split.
  - rewrite bind_silent_sent by (intros; apply idle_silent, Hk).
    apply (search_sent _ _ _ _ _ _ Hh).
  - intros response w Hs Hstatus. apply bind_raises. unfold _search.
    rewrite (do_request_run _ _ _ _ _ _ _ _ _ _ _ Hh Hs). simpl.
    rewrite bool_decide_eq_false_2 by congruence. reflexivity.
Qed.

(** C8. For every search-based fetch (get_job, list_user_jobs,
    list_active_jobs) and every requested field list, the request handed to
    the HTTP session, if any, is a POST to the search path whose [_source]
    projection holds job_id, user_id, created, status and updated, and
    every field the caller asked for.  And on a registry with a backend
    id, once the request headers are there, the fetch does hand a request
    to the session, exactly one, with such a projection. *)
Theorem fetch_projection_has_basic_fields (self : ElasticJobRegistry) (f : Fetch) :
  emits (fun r => exists query source headers,
           r = mkHttpRequest "POST" (url_join (_api_url self) "/jobs/search")
                 (Some (JDict [ ("query", query);
                                ("_source", JList (map JStr source)) ]))
                 headers 20
           /\ (forall x, In x ["job_id"; "user_id"; "created"; "status"; "updated"]
                         -> In x source)
           /\ (forall x, In x (requested_fields f) -> In x source))
        (run_fetch (World := World) self f) /\
  (forall backend (st st1 : State World) headers,
      _backend_id self = Some backend -> backend <> "" ->
      request_headers self true st = (Return headers, st1) ->
      exists query source,
        sent (snd (run_fetch self f st))
        = (sent st ++
           [ mkHttpRequest "POST" (url_join (_api_url self) "/jobs/search")
               (Some (JDict [ ("query", query);
                              ("_source", JList (map JStr source)) ]))
               headers 20 ])%list
        /\ (forall x, In x ["job_id"; "user_id"; "created"; "status"; "updated"]
                      -> In x source)
        /\ (forall x, In x (requested_fields f) -> In x source)).
Proof.
  split.
  - assert (Hsearch : forall query fields,
      emits (fun r => exists query source headers,
               r = mkHttpRequest "POST" (url_join (_api_url self) "/jobs/search")
                     (Some (JDict [ ("query", query);
                                    ("_source", JList (map JStr source)) ]))
                     headers 20
               /\ (forall x, In x ["job_id"; "user_id"; "created"; "status"; "updated"]
                             -> In x source)
               /\ (forall x, In x (default [] fields) -> In x source))
            (_search (World := World) self query fields)).
    { intros query fields. eapply emits_weaken; [| apply emits_search].
      intros r [headers ->]. eexists query, _, headers.
      split; [reflexivity |].
      split; intros x Hx; apply search_projection; auto. }
    destruct f as [job_id fields | user_id fields | max_age fields]; simpl.
    + unfold get_job. apply emits_bind_silent_l; [apply silent_backend_id |].
      intros backend. apply emits_bind_silent_r; [apply Hsearch |].
      intros jobs. apply silent_get_job_pick.
    + unfold list_user_jobs. apply emits_bind_silent_l; [apply silent_backend_id |].
      intros backend. apply Hsearch.
    + unfold list_active_jobs. apply emits_bind_silent_l; [apply silent_backend_id |].
      intros backend. apply Hsearch.
  - intros backend st st1 headers Hb Hne Hh.
    destruct (run_fetch_sent self f backend st st1 headers Hb Hne Hh)
      as (query & Hsent & _).
    eexists query, _. split; [exact Hsent |].
    split; intros x Hx; apply (search_projection (Some (requested_fields f))); auto.
Qed.

(** C9, amended. For every call of list_active_jobs, the request handed to
    the HTTP session, if any, carries a query with three filters: the
    registry's backend id, status one of created, queued, running, and
    created not older than [now-<days>d], where days is max_age when that
    is given and not zero, and 7 when max_age is not given or is zero.
    On a registry with a backend id the call is the search with that
    query, and once the request headers are there it hands exactly one
    request to the session, the search request that carries that query. *)
Theorem list_active_jobs_query (self : ElasticJobRegistry)
        (max_age : option Z) (fields : option (list string)) :
  let days := match max_age with
              | Some n => if n =? 0 then 7 else n
              | None => 7
              end in
  let query backend :=
    JDict [ ("bool", JDict [ ("filter", JList
      [ JDict [ ("term", JDict [ ("backend_id", JStr backend) ]) ];
        JDict [ ("terms", JDict [ ("status",
          JList [ JStr "created"; JStr "queued"; JStr "running" ]) ]) ];
        JDict [ ("range", JDict [ ("created", JDict
          [ ("gte", JStr ("now-" +:+ PyStr.str_int days +:+ "d")) ]) ]) ]
      ]) ]) ] in
  emits (fun r => exists backend source headers,
           _backend_id self = Some backend /\
           r = mkHttpRequest "POST" (url_join (_api_url self) "/jobs/search")
                 (Some (JDict
                    [ ("query", query backend);
                      ("_source", JList (map JStr source)) ]))
                 headers 20)
        (list_active_jobs (World := World) self max_age fields) /\
  (forall backend (st : State World),
      _backend_id self = Some backend -> backend <> "" ->
      list_active_jobs self max_age fields st
      = _search self (query backend) fields st) /\
  (forall backend (st st1 : State World) headers,
      _backend_id self = Some backend -> backend <> "" ->
      request_headers self true st = (Return headers, st1) ->
      exists source,
        sent (snd (list_active_jobs self max_age fields st))
        = (sent st ++
           [ mkHttpRequest "POST" (url_join (_api_url self) "/jobs/search")
               (Some (JDict
                  [ ("query", query backend);
                    ("_source", JList (map JStr source)) ]))
               headers 20 ])%list).
Proof.
  intros days query. split; [| split].
  - unfold list_active_jobs.
    apply (emits_bind_post (fun b => _backend_id self = Some b /\ b <> "")).
    + apply silent_backend_id.
    + intros st b st'. apply backend_id_returns.
    + intros backend [Hb _]. eapply emits_weaken; [| apply emits_search].
      intros r [headers ->]. eexists backend, _, headers.
      split; [exact Hb | reflexivity].
  - intros backend st Hb Hne. apply (list_active_jobs_search _ _ _ _ _ Hb Hne).
  - intros backend st st1 headers Hb Hne Hh.
    rewrite (list_active_jobs_search _ _ _ _ _ Hb Hne).
    eexists. apply (search_sent _ _ _ _ _ _ Hh).
Qed.

(** With a backend id, [get_job] is its search followed by the choice among
    the records found. *)
Lemma get_job_after_search (self : ElasticJobRegistry) (job_id backend : string)
      (fields : option (list string)) (jobs : Json) (st st' : State World) :
  _backend_id self = Some backend -> backend <> "" ->
  _search self
    (JDict [ ("bool", JDict [ ("filter", JList
       [ JDict [ ("term", JDict [ ("backend_id", JStr backend) ]) ];
         JDict [ ("term", JDict [ ("job_id", JStr job_id) ]) ] ]) ]) ])
    (fields_or_all fields) st
  = (Return jobs, st') ->
  get_job self job_id fields st
  = (let! n := of_outcome (Py.len jobs) in
     if (n =? 1)%nat then
       let! job := of_outcome (Py.first jobs) in
       let! found := of_outcome (Py.getitem job "job_id") in
       if Py.eq_str found job_id then ret job
       else raise (AssertionError ("job['job_id']=" +:+ py_repr found
                                   +:+ " != job_id=" +:+ py_repr (JStr job_id)))
     else if (n =? 0)%nat then raise (JobNotFoundException job_id)
     else
       let! items := of_outcome (Py.iter jobs) in
       let! summary :=
         of_outcome (Py.mapM (fun j =>
           let? u := Py.get j "user_id" in
           let? c := Py.get j "created" in
           Return (JDict [ ("user_id", u); ("created", c) ])) items) in
       raise (InternalException ("Found " +:+ PyStr.str_int (Z.of_nat n)
                                 +:+ " jobs for job_id=" +:+ py_repr (JStr job_id))))
    st'.
Proof.
  intros Hb Hne Hsearch.
  unfold get_job. unfold bind at 1. rewrite (backend_id_set _ _ _ Hb Hne).
  unfold bind at 1. rewrite Hsearch. reflexivity.
Qed.

(** C1. For every call of get_job on a registry with a backend id whose
    search returns the list [jobs] of records: with no record the call
    raises the not-found error for that job id; with two or more records
    it raises the internal error that counts them for that job id; and
    whenever the call returns a record, [jobs] holds exactly that one
    record. *)
Theorem get_job_by_match_count (self : ElasticJobRegistry) (job_id backend : string)
        (fields : option (list string)) (jobs : list JobDict)
        (st st' : State World) :
  _backend_id self = Some backend -> backend <> "" ->
  _search self
    (JDict [ ("bool", JDict [ ("filter", JList
       [ JDict [ ("term", JDict [ ("backend_id", JStr backend) ]) ];
         JDict [ ("term", JDict [ ("job_id", JStr job_id) ]) ] ]) ]) ])
    (fields_or_all fields) st
  = (Return (JList (map JDict jobs)), st') ->
  (jobs = [] ->
     get_job self job_id fields st = (Raise (JobNotFoundException job_id), st')) /\
  ((2 <= length jobs)%nat ->
     get_job self job_id fields st
     = (Raise (InternalException
                 ("Found " +:+ PyStr.str_int (Z.of_nat (length jobs))
                  +:+ " jobs for job_id=" +:+ py_repr (JStr job_id))), st')) /\
  (forall job st'',
     get_job self job_id fields st = (Return job, st'') ->
     exists record, jobs = [record] /\ job = JDict record).
Proof.
  intros Hb Hne Hsearch.
  rewrite (get_job_after_search _ _ _ _ _ _ _ Hb Hne Hsearch). clear Hsearch.
  simpl Py.len. rewrite length_map.
  destruct jobs as [| j1 [| j2 rest]].
  - split; [reflexivity |]. split; [simpl; lia |]. intros job st'' H. discriminate.
  - split; [discriminate |]. split; [simpl; lia |].
    intros job st''. simpl. unfold bind, of_outcome. simpl.
    destruct (PyDict.get j1 "job_id") as [found |]; [| discriminate].
    destruct (Py.eq_str found job_id); [| discriminate].
    intros [= <- <-]. exists j1. auto.
  - assert (Hsum : exists l, Py.mapM (fun j =>
               let? u := Py.get j "user_id" in
               let? c := Py.get j "created" in
               Return (JDict [ ("user_id", u); ("created", c) ]))
               (map JDict (j1 :: j2 :: rest)) = Return l).
    { generalize (j1 :: j2 :: rest). intros l.
      induction l as [| d l [l' IH]]; simpl; [eauto |].
      rewrite IH. simpl. eauto. }
    destruct Hsum as [l Hl].
    assert (Hrun : forall k : nat -> M World Json,
               bind (of_outcome (Return (length (j1 :: j2 :: rest)))) k st'
               = k (length (j1 :: j2 :: rest)) st') by reflexivity.
    rewrite Hrun. clear Hrun.
    rewrite (eq_refl : (length (j1 :: j2 :: rest) =? 1)%nat = false).
    rewrite (eq_refl : (length (j1 :: j2 :: rest) =? 0)%nat = false).
    unfold Py.iter, bind, of_outcome. rewrite Hl.
    split; [discriminate |]. split; [reflexivity | discriminate].
Qed.

(** C10. For every call of get_job on a registry with a backend id whose
    search returns exactly one record: a record whose job_id field is the
    requested job id is returned, and a record whose job_id field is
    anything else makes the call fail with an assertion error instead. *)
Theorem get_job_asserts_job_id (self : ElasticJobRegistry) (job_id backend : string)
        (fields : option (list string)) (record : JobDict)
        (st st' : State World) :
  _backend_id self = Some backend -> backend <> "" ->
  _search self
    (JDict [ ("bool", JDict [ ("filter", JList
       [ JDict [ ("term", JDict [ ("backend_id", JStr backend) ]) ];
         JDict [ ("term", JDict [ ("job_id", JStr job_id) ]) ] ]) ]) ])
    (fields_or_all fields) st
  = (Return (JList [JDict record]), st') ->
  (PyDict.get record "job_id" = Some (JStr job_id) ->
     get_job self job_id fields st = (Return (JDict record), st')) /\
  (forall found, PyDict.get record "job_id" = Some found -> found <> JStr job_id ->
     exists msg, get_job self job_id fields st = (Raise (AssertionError msg), st')).
Proof.
  intros Hb Hne Hsearch.
  rewrite (get_job_after_search _ _ _ _ _ _ _ Hb Hne Hsearch). clear Hsearch.
  unfold bind, of_outcome, Py.len, Py.first, Py.getitem, ret, raise.
  cbn [length Nat.eqb]. split.
  - intros ->. simpl. rewrite String.eqb_refl. reflexivity.
  - intros found Hfound Hdiff. rewrite Hfound.
    assert (Heq : Py.eq_str found job_id = false).
    { destruct found; try reflexivity. simpl.
      destruct (String.eqb_spec s job_id); [subst; contradiction | reflexivity]. }
    rewrite Heq. eexists. reflexivity.
Qed.

End FetchFacts.

(** ** Creating a job *)

Section CreateFacts.
Context {runtime : PyRuntime} {World : Type} {externals : Externals World}.

(** C2. For every call of create_job on a registry with a backend id: the
    call is a creation request, POST to [/jobs] with expected status 201,
    whose body is the whole initial record; there the job id is the one
    given, or a generated one when none (or an empty one) is given, status
    is "created", and created and updated both hold the one time stamp
    taken from the clock.  As the request expects 201, a response with any
    other status makes the call raise the registry's HTTP error, and a
    response with 201 makes it return the decoded body. *)
Theorem create_job_initial_record (self : ElasticJobRegistry) (a : CreateJobArgs)
        (st : State World) (job_id created backend : string) (w1 w2 : World) :
  match arg_job_id a with
  | Some j => if String.eqb j "" then generate_unique_id "j" (world st)
              else (j, world st)
  | None => generate_unique_id "j" (world st)
  end = (job_id, w1) ->
  utcnow w1 = (created, w2) ->
  _backend_id self = Some backend -> backend <> "" ->
  let st2 := mkState w2 (cache st) (session st) in
  exists record,
    create_job self a st
    = _do_request self "POST" "/jobs" (Some (JDict record)) true (Some 201) st2
    /\ PyDict.keys record = record_fields
    /\ PyDict.get record "job_id" = Some (JStr job_id)
    /\ PyDict.get record "status" = Some (JStr "created")
    /\ PyDict.get record "created" = Some (JStr created)
    /\ PyDict.get record "updated" = Some (JStr created)
    /\ (forall headers st3 response w,
          request_headers self true st2 = (Return headers, st3) ->
          session_request
            (mkHttpRequest "POST" (url_join (_api_url self) "/jobs")
               (Some (JDict record)) headers 20) (world st3)
          = (Return response, w) ->
          (status_code response <> 201 ->
             fst (create_job self a st)
             = Raise (EjrHttpError.from_response response)) /\
          (status_code response = 201 ->
             fst (create_job self a st) = json_loads (text response))).
Proof.
  intros Hid Hnow Hb Hne st2.
  assert (Hrun : forall record_of : string -> string -> string -> JobDict,
    (let! job_id :=
       (match arg_job_id a with
        | Some j => if String.eqb j "" then generate_job_id else ret j
        | None => generate_job_id
        end) in
     let! created := in_world utcnow in
     let! backend := backend_id self in
     _do_request self "POST" "/jobs" (Some (JDict (record_of backend job_id created)))
       true (Some 201)) st
    = _do_request self "POST" "/jobs" (Some (JDict (record_of backend job_id created)))
        true (Some 201) st2).
  { intros record_of. unfold bind at 1.
    assert (Hgen : (match arg_job_id a with
                    | Some j => if String.eqb j "" then generate_job_id else ret j
                    | None => generate_job_id
                    end) st = (Return job_id, mkState w1 (cache st) (session st))).
    { unfold generate_job_id, in_world, ret.
      destruct (arg_job_id a) as [j |].
      - destruct (String.eqb j "").
        + rewrite Hid. reflexivity.
        + injection Hid as <- <-. destruct st; reflexivity.
      - rewrite Hid. reflexivity. }
    rewrite Hgen. unfold bind at 1. unfold in_world at 1. simpl world.
    rewrite Hnow. simpl cache. simpl session.
    unfold bind at 1. rewrite (backend_id_set _ _ _ Hb Hne). reflexivity. }
  eexists. split; [apply (Hrun (fun backend job_id created => _)) |].
  repeat (split; [reflexivity |]).
  intros headers st3 response w Hh Hs.
  unfold create_job.
  rewrite (Hrun (fun backend job_id created => _)).
  rewrite (do_request_run _ _ _ _ _ _ _ _ _ _ _ Hh Hs). simpl.
  split.
  - intros Hstatus. rewrite bool_decide_eq_false_2 by congruence. reflexivity.
  - intros Hstatus. rewrite bool_decide_eq_true_2 by congruence. simpl.
    unfold raise_for_status. rewrite Hstatus. reflexivity.
Qed.

End CreateFacts.

(** ** Credentials *)

Section CredentialFacts.
Context {runtime : PyRuntime}.

Lemma repr_set_names (s : gset string) k :
  k ∈ s -> Py.plain k = true ->
  PyStr.occurs_in ("'" +:+ k +:+ "'") (Credentials.repr_set s).
Proof.
  intros Hin Hplain. unfold Credentials.repr_set.
  apply elem_of_elements, list_elem_of_In in Hin.
  rewrite <- (py_repr_plain k Hplain).
  destruct (elements s) as [| x l] eqn:E; [destruct Hin |].
  apply occurs_in_skip.
  destruct (occurs_in_join (fun k => py_repr (JStr k)) ", " k (x :: l) Hin)
    as (pre & post & ->).
  exists pre, (post +:+ "}"). rewrite !append_assoc. reflexivity.
Qed.

(** The three keys are found, or the set of missing ones is not empty. *)
Lemma three_keys (m : gmap string string) (k1 k2 k3 : string) (keys : gset string) :
  (forall k, k ∈ keys <-> k = k1 \/ k = k2 \/ k = k3) ->
  (keys ∖ dom m = ∅ ->
     exists v1 v2 v3, m !! k1 = Some v1 /\ m !! k2 = Some v2 /\ m !! k3 = Some v3) /\
  (keys ∖ dom m <> ∅ -> m !! k1 = None \/ m !! k2 = None \/ m !! k3 = None).
Proof.
  intros Hkeys. split.
  - intros Hempty.
    assert (Hin : forall k, k ∈ keys -> is_Some (m !! k)).
    { intros k Hk. apply elem_of_dom.
      destruct (decide (k ∈ dom m)) as [| Hout]; [assumption |].
      exfalso. apply (not_elem_of_empty (C := gset string) k).
      rewrite <- Hempty. apply elem_of_difference. auto. }
    destruct (Hin k1) as [v1 E1]; [apply Hkeys; auto |].
    destruct (Hin k2) as [v2 E2]; [apply Hkeys; auto |].
    destruct (Hin k3) as [v3 E3]; [apply Hkeys; auto |].
    eauto 7.
  - intros Hsome.
    destruct (m !! k1) as [v1 |] eqn:E1; [| auto].
    destruct (m !! k2) as [v2 |] eqn:E2; [| auto].
    destruct (m !! k3) as [v3 |] eqn:E3; [| auto].
    exfalso. apply Hsome. apply set_eq. intros k.
    rewrite elem_of_difference, Hkeys, elem_of_dom.
    split; [| intros Hk; exfalso; exact (not_elem_of_empty k Hk)].
    intros [[-> | [-> | ->]] Hnot]; exfalso; apply Hnot; eauto.
Qed.

Lemma args_keys k :
  k ∈ Credentials.args <-> k = "oidc_issuer" \/ k = "client_id" \/ k = "client_secret".
Proof.
  unfold Credentials.args. rewrite !elem_of_union, !elem_of_singleton. tauto.
Qed.

Lemma env_keys k :
  k ∈ (list_to_set (map snd Credentials.env_var_mapping) : gset string)
  <-> k = "OPENEO_EJR_OIDC_ISSUER" \/ k = "OPENEO_EJR_OIDC_CLIENT_ID"
      \/ k = "OPENEO_EJR_OIDC_CLIENT_SECRET".
Proof.
  simpl. rewrite !elem_of_union, !elem_of_singleton, elem_of_empty. tauto.
Qed.

(** C6, amended. For every input mapping, and for every environment that
    from_env reads (this is the one passed in when that is not empty, and
    the process environment when none or an empty one is passed): when any
    of the three required values is absent from it, building the
    credentials with strict=True fails with the registry's error whose
    message names every missing key, and with strict=False it returns the
    absent result; when all three are present it returns the credential
    object made of them, in both modes. *)
Theorem credentials_strictness (data os_environ : gmap string string)
        (env : option (gmap string string)) :
  let missing := Credentials.args ∖ dom data in
  let environment := Credentials.effective_env env os_environ in
  let missing_env :=
    ({[ "OPENEO_EJR_OIDC_ISSUER"; "OPENEO_EJR_OIDC_CLIENT_ID";
        "OPENEO_EJR_OIDC_CLIENT_SECRET" ]} : gset string) ∖ dom environment in
  ((missing <> ∅ ->
      (exists msg, Credentials.from_mapping data true = Raise (EjrError msg) /\
                   forall k, k ∈ missing -> PyStr.occurs_in ("'" +:+ k +:+ "'") msg) /\
      Credentials.from_mapping data false = Return None) /\
   (missing = ∅ ->
      exists i c s,
        data !! "oidc_issuer" = Some i /\ data !! "client_id" = Some c /\
        data !! "client_secret" = Some s /\
        forall strict,
          Credentials.from_mapping data strict = Return (Some (mkCredentials i c s)))) /\
  ((missing_env <> ∅ ->
      (exists msg, Credentials.from_env os_environ env true = Raise (EjrError msg) /\
                   forall k, k ∈ missing_env ->
                             PyStr.occurs_in ("'" +:+ k +:+ "'") msg) /\
      Credentials.from_env os_environ env false = Return None) /\
   (missing_env = ∅ ->
      exists i c s,
        environment !! "OPENEO_EJR_OIDC_ISSUER" = Some i /\
        environment !! "OPENEO_EJR_OIDC_CLIENT_ID" = Some c /\
        environment !! "OPENEO_EJR_OIDC_CLIENT_SECRET" = Some s /\
        forall strict,
          Credentials.from_env os_environ env strict
          = Return (Some (mkCredentials i c s)))) /\
  environment = match env with
                | Some given => if decide (given = ∅) then os_environ else given
                | None => os_environ
                end.
Proof.
  intros missing environment missing_env.
  assert (Hsame : missing_env
                  = list_to_set (map snd Credentials.env_var_mapping) ∖ dom environment).
  { apply set_eq. intros k. subst missing_env.
    rewrite !elem_of_difference, env_keys, !elem_of_union, !elem_of_singleton. tauto. }
  split; [split | split; [split | reflexivity]].
  - intros Hmiss. apply (three_keys data _ _ _ _ args_keys) in Hmiss.
    assert (Hraise : Credentials.from_mapping data true
                     = Raise (EjrError ("Failed building " +:+ Credentials.__name__
                                        +:+ " from mapping: missing "
                                        +:+ Credentials.repr_set missing))
                     /\ Credentials.from_mapping data false = Return None).
    { unfold Credentials.from_mapping, Credentials.getitem.
      destruct (data !! "oidc_issuer"); simpl; [| auto].
      destruct (data !! "client_id"); simpl; [| auto].
      destruct (data !! "client_secret"); simpl; [| auto].
      destruct Hmiss as [? | [? | ?]]; discriminate. }
    destruct Hraise as [Hstrict Hlax]. split; [| exact Hlax].
    eexists. split; [exact Hstrict |].
    intros k Hk. do 3 apply occurs_in_skip.
    apply repr_set_names; [exact Hk |].
    apply elem_of_difference in Hk as [Hk _]. apply args_keys in Hk.
    destruct Hk as [-> | [-> | ->]]; reflexivity.
  - intros Hnone. apply (three_keys data _ _ _ _ args_keys) in Hnone.
    destruct Hnone as (i & c & s & E1 & E2 & E3). exists i, c, s.
    repeat (split; [assumption |]). intros strict.
    unfold Credentials.from_mapping, Credentials.getitem.
    rewrite E1, E2, E3. reflexivity.
  - rewrite Hsame. intros Hmiss.
    apply (three_keys environment _ _ _ _ env_keys) in Hmiss.
    assert (Hraise : Credentials.from_env os_environ env true
                     = Raise (EjrError ("Failed building " +:+ Credentials.__name__
                                        +:+ " from env: missing "
                                        +:+ Credentials.repr_set
                                              (list_to_set (map snd Credentials.env_var_mapping)
                                                 ∖ dom environment)))
                     /\ Credentials.from_env os_environ env false = Return None).
    { unfold Credentials.from_env, Credentials.getitem. fold environment.
      destruct (environment !! "OPENEO_EJR_OIDC_ISSUER"); simpl; [| auto].
      destruct (environment !! "OPENEO_EJR_OIDC_CLIENT_ID"); simpl; [| auto].
      destruct (environment !! "OPENEO_EJR_OIDC_CLIENT_SECRET"); simpl; [| auto].
      destruct Hmiss as [? | [? | ?]]; discriminate. }
    destruct Hraise as [Hstrict Hlax]. split; [| exact Hlax].
    eexists. split; [exact Hstrict |].
    intros k Hk. do 3 apply occurs_in_skip.
    apply repr_set_names; [exact Hk |].
    apply elem_of_difference in Hk as [Hk _]. apply env_keys in Hk.
    destruct Hk as [-> | [-> | ->]]; reflexivity.
  - rewrite Hsame. intros Hnone.
    apply (three_keys environment _ _ _ _ env_keys) in Hnone.
    destruct Hnone as (i & c & s & E1 & E2 & E3). exists i, c, s.
    repeat (split; [assumption |]). intros strict.
    unfold Credentials.from_env, Credentials.getitem. fold environment.
    rewrite E1, E2, E3. reflexivity.
Qed.

End CredentialFacts.

(** ** The text form of a decimal *)

Section StringFacts.

Import PyStr.

Lemma all_app P (a b : string) : all P (a +:+ b) = all P a && all P b.
Proof.
  induction a as [| c a IH]; [reflexivity |].
  rewrite append_cons. simpl. rewrite IH. apply andb_assoc.
Qed.

Lemma all_replicate P n c : P c = true -> all P (replicate n c) = true.
Proof. intros Hc. induction n as [| n IH]; simpl; [reflexivity | rewrite Hc, IH; reflexivity]. Qed.

Lemma all_weaken (P Q : ascii -> bool) s :
  (forall c, P c = true -> Q c = true) -> all P s = true -> all Q s = true.
Proof.
  intros HPQ. induction s as [| c s IH]; simpl; [reflexivity |].
  intros [Hc Hs]%andb_prop. rewrite (HPQ c Hc), (IH Hs). reflexivity.
Qed.

Lemma take_drop n s : take n s +:+ drop n s = s.
Proof.
  revert s. induction n as [| n IH]; intros [| c s]; simpl; try reflexivity.
  rewrite append_cons, IH. reflexivity.
Qed.

Lemma length_drop n s : String.length (drop n s) = (String.length s - n)%nat.
Proof.
  revert s. induction n as [| n IH]; intros [| c s]; simpl; try reflexivity; try lia.
  apply IH.
Qed.

Lemma length_append (a b : string) :
  String.length (a +:+ b) = (String.length a + String.length b)%nat.
Proof.
  induction a as [| c a IH]; [reflexivity |].
  rewrite append_cons. simpl. rewrite IH. reflexivity.
Qed.

Lemma length_replicate n c : String.length (replicate n c) = n.
Proof. induction n as [| n IH]; simpl; [reflexivity | rewrite IH; reflexivity]. Qed.

Lemma all_take_drop P n s :
  all P s = true -> all P (take n s) = true /\ all P (drop n s) = true.
Proof.
  intros Hs. rewrite <- (take_drop n s), all_app in Hs.
  apply andb_prop in Hs. exact Hs.
Qed.

Lemma take_nonempty n s : (0 < n)%nat -> s <> "" -> take n s <> "".
Proof. destruct n; [lia |]. destruct s; [congruence | discriminate]. Qed.

(** Digits are read one after the other. *)
Lemma int_of_digits_from_app acc (a b : string) :
  int_of_digits_from acc (a +:+ b) = int_of_digits_from (int_of_digits_from acc a) b.
Proof.
  revert acc. induction a as [| c a IH]; intros acc; [reflexivity |].
  rewrite append_cons. simpl. apply IH.
Qed.

Lemma int_of_leading_zeros n s :
  int_of_digits (String "0" (replicate n "0" +:+ s)) = int_of_digits s.
Proof.
  unfold int_of_digits. simpl. rewrite int_of_digits_from_app.
  f_equal. induction n as [| n IH]; simpl; [reflexivity | exact IH].
Qed.

Lemma span_digits_app ds rest :
  all is_digit ds = true -> stops_digits rest ->
  span_digits (ds +:+ rest) = (ds, rest).
Proof.
  intros Hds Hrest. induction ds as [| c ds IH].
  - destruct rest as [| c r]; [reflexivity |]. simpl in *. rewrite Hrest. reflexivity.
  - rewrite append_cons. simpl in *. apply andb_prop in Hds as [Hc Hds].
    rewrite Hc, (IH Hds). reflexivity.
Qed.

Lemma span_digits_all ds : all is_digit ds = true -> span_digits ds = (ds, "").
Proof.
  intros Hds. rewrite <- (append_empty_r ds) at 1.
  apply span_digits_app; [exact Hds | exact I].
Qed.

(** [strip] and [replace] leave clean strings alone. *)
Lemma strip_clean s : all clean s = true -> remove_char "_" (strip s) = s.
Proof.
  intros Hs.
  assert (Hl : lstrip s = s).
  { destruct s as [| c s]; [reflexivity |]. simpl in *.
    apply andb_prop in Hs as [Hc _]. unfold clean in Hc.
    apply andb_prop in Hc as [Hc _]. apply negb_true_iff in Hc.
    rewrite Hc. reflexivity. }
  assert (Hr : rstrip s = s).
  { clear Hl. induction s as [| c s IH]; [reflexivity |]. simpl in *.
    apply andb_prop in Hs as [Hc Hs]. rewrite (IH Hs).
    destruct s; [| reflexivity].
    unfold clean in Hc. apply andb_prop in Hc as [Hc _].
    apply negb_true_iff in Hc. rewrite Hc. reflexivity. }
  unfold strip. rewrite Hl, Hr. clear Hl Hr.
  induction s as [| c s IH]; [reflexivity |]. simpl in *.
  apply andb_prop in Hs as [Hc Hs]. rewrite (IH Hs).
  unfold clean in Hc. apply andb_prop in Hc as [_ Hc].
  apply negb_true_iff in Hc. rewrite Hc. reflexivity.
Qed.

Lemma digit_clean c : is_digit c = true -> clean c = true.
Proof.
  destruct c as [[|] [|] [|] [|] [|] [|] [|] [|]]; try discriminate; reflexivity.
Qed.

Lemma digits_clean s : all is_digit s = true -> all clean s = true.
Proof. apply all_weaken, digit_clean. Qed.

Lemma digit_lower c : is_digit c = true -> lower c = c.
Proof.
  destruct c as [[|] [|] [|] [|] [|] [|] [|] [|]]; try discriminate; reflexivity.
Qed.

Lemma split_sign_digit c r :
  is_digit c = true -> PyDecimal.split_sign (String c r) = (false, String c r).
Proof.
  destruct c as [[|] [|] [|] [|] [|] [|] [|] [|]]; try discriminate; reflexivity.
Qed.

(** The digits of a number, as [str] prints them. *)
Lemma pretty_N_char_digit d : is_digit (pretty_N_char d) = true.
Proof. destruct d as [| p]; [reflexivity |]. do 4 (destruct p; try reflexivity). Qed.

Lemma pretty_N_char_value d :
  (d < 10)%N -> (N.of_nat (nat_of_ascii (pretty_N_char d)) - 48)%N = d.
Proof.
  intros Hd.
  assert (d = 0 \/ d = 1 \/ d = 2 \/ d = 3 \/ d = 4 \/ d = 5 \/ d = 6 \/ d = 7
          \/ d = 8 \/ d = 9)%N as Hcases by lia.
  repeat (destruct Hcases as [-> | Hcases]; [reflexivity |]). subst. reflexivity.
Qed.

Lemma pretty_N_go_digits x s :
  all is_digit s = true -> all is_digit (pretty_N_go x s) = true.
Proof.
  revert s. induction (N.lt_wf_0 x) as [x _ IH]. intros s Hs.
  destruct (N.eq_dec x 0%N) as [-> | Hx]; [rewrite pretty_N_go_0; exact Hs |].
  rewrite pretty_N_go_step by lia. apply IH.
  - apply N.div_lt; lia.
  - simpl. rewrite pretty_N_char_digit, Hs. reflexivity.
Qed.

Lemma pretty_N_go_value x s :
  int_of_digits_from 0 (pretty_N_go x s) = int_of_digits_from x s.
Proof.
  revert s. induction (N.lt_wf_0 x) as [x _ IH]. intros s.
  destruct (N.eq_dec x 0%N) as [-> | Hx]; [rewrite pretty_N_go_0; reflexivity |].
  rewrite pretty_N_go_step by lia. rewrite IH by (apply N.div_lt; lia).
  simpl. rewrite pretty_N_char_value by (apply N.mod_lt; lia).
  f_equal. rewrite (N.div_mod x 10%N) at 3 by lia. reflexivity.
Qed.

Lemma pretty_N_go_length x s :
  (String.length s <= String.length (pretty_N_go x s))%nat.
Proof.
  revert s. induction (N.lt_wf_0 x) as [x _ IH]. intros s.
  destruct (N.eq_dec x 0%N) as [-> | Hx]; [rewrite pretty_N_go_0; lia |].
  rewrite pretty_N_go_step by lia.
  etransitivity; [| apply IH; apply N.div_lt; lia]. simpl. lia.
Qed.

Lemma pretty_N_digits (n : N) : all is_digit (pretty n) = true.
Proof.
  unfold pretty, pretty_N. destruct (decide (n = 0%N)); [reflexivity |].
  apply pretty_N_go_digits. reflexivity.
Qed.

Lemma pretty_N_value (n : N) : int_of_digits (pretty n) = n.
Proof.
  unfold pretty, pretty_N, int_of_digits.
  destruct (decide (n = 0%N)) as [-> |]; [reflexivity |].
  apply pretty_N_go_value.
Qed.

Lemma pretty_N_nonempty (n : N) : exists c r, pretty n = String c r /\ is_digit c = true.
Proof.
  pose proof (pretty_N_digits n) as Hd.
  destruct (pretty n) as [| c r] eqn:E.
  - exfalso. unfold pretty, pretty_N in E.
    destruct (decide (n = 0%N)); [discriminate |].
    rewrite pretty_N_go_step in E by lia.
    pose proof (pretty_N_go_length (n `div` 10)
                  (String (pretty_N_char (n `mod` 10)) "")) as Hlen.
    rewrite E in Hlen. simpl in Hlen. lia.
  - simpl in Hd. apply andb_prop in Hd as [Hc _]. eauto.
Qed.

End StringFacts.

Section DecimalFacts.

Import PyStr PyDecimal.

Lemma fmt_plus_d_clean z : all clean (fmt_plus_d z) = true.
Proof.
  unfold fmt_plus_d. destruct (z <? 0); rewrite append_cons; simpl;
    apply digits_clean, pretty_N_digits.
Qed.

Lemma parse_exponent_fmt z : parse_exponent ("E" +:+ fmt_plus_d z) = Some z.
Proof.
  unfold fmt_plus_d.
  destruct (Z.ltb_spec z 0) as [Hneg | Hpos].
  - destruct (pretty_N_nonempty (Z.to_N (- z))) as (c & r & E & Hc).
    change (parse_exponent (String "E" (String "-" (pretty (Z.to_N (- z))))) = Some z).
    unfold parse_exponent. simpl lower. cbv beta iota.
    change (Ascii.eqb "e" "e") with true. cbv beta iota.
    rewrite (span_digits_all _ (pretty_N_digits _)). rewrite E at 1.
    rewrite <- E, pretty_N_value. f_equal. lia.
  - destruct (pretty_N_nonempty (Z.to_N z)) as (c & r & E & Hc).
    change (parse_exponent (String "E" (String "+" (pretty (Z.to_N z)))) = Some z).
    unfold parse_exponent. simpl lower. cbv beta iota.
    change (Ascii.eqb "e" "e") with true. cbv beta iota.
    rewrite (span_digits_all _ (pretty_N_digits _)). rewrite E at 1.
    rewrite <- E, pretty_N_value. f_equal. lia.
Qed.

(** Reading a numeric string laid out as sign, integer digits, an optional
    point with fraction digits, an optional exponent. *)
Lemma of_str_layout sg (ip : string) (f : option string) (x : option Z) :
  ip <> "" -> all is_digit ip = true ->
  all is_digit (default "" f) = true ->
  of_str (sign_str sg +:+ ip
            +:+ match f with Some fs => "." +:+ fs | None => "" end
            +:+ match x with Some z => "E" +:+ fmt_plus_d z | None => "" end)
  = Some (Finite sg (int_of_digits (ip +:+ default "" f))
                    (default 0 x - Z.of_nat (String.length (default "" f)))).
Proof.
  intros Hne Hip Hf.
  set (ex := match x with Some z => "E" +:+ fmt_plus_d z | None => "" end).
  set (fr := match f with Some fs => "." +:+ fs | None => "" end).
  assert (Hex : parse_exponent ex = Some (default 0 x)).
  { subst ex. destruct x as [z |]; [apply parse_exponent_fmt | reflexivity]. }
  assert (Hex_stop : stops_digits ex).
  { subst ex. destruct x; [reflexivity | exact I]. }
  assert (Hex_clean : all clean ex = true).
  { subst ex. destruct x as [z |]; [| reflexivity].
    rewrite append_cons. simpl. apply fmt_plus_d_clean. }
  assert (Hfr_clean : all clean fr = true).
  { subst fr. destruct f as [fs |]; [| reflexivity].
    rewrite append_cons. simpl. apply digits_clean, Hf. }
  destruct ip as [| c ip']; [congruence |].
  pose proof Hip as Hc. simpl in Hc. apply andb_prop in Hc as [Hc _].
  unfold of_str. rewrite strip_clean.
  2:{ rewrite !all_app, Hfr_clean, Hex_clean, (digits_clean _ Hip).
      destruct sg; reflexivity. }
  assert (Hsplit : split_sign (sign_str sg +:+ String c ip' +:+ fr +:+ ex)
                   = (sg, String c ip' +:+ fr +:+ ex)).
  { destruct sg; [reflexivity |]. apply (split_sign_digit c _ Hc). }
  rewrite Hsplit.
  assert (Hstart : starts_number (String c ip' +:+ fr +:+ ex) = true).
  { rewrite append_cons. simpl. rewrite Hc. reflexivity. }
  rewrite Hstart.
  assert (Hspan : span_digits (String c ip' +:+ fr +:+ ex) = (String c ip', fr +:+ ex)).
  { apply span_digits_app; [exact Hip |].
    subst fr. destruct f; [reflexivity |]. exact Hex_stop. }
  rewrite Hspan.
  assert (Hfrac : match fr +:+ ex with
                  | String "." r => span_digits r
                  | _ => (EmptyString, fr +:+ ex)
                  end = (default "" f, ex)).
  { subst fr. destruct f as [fs |].
    - rewrite append_cons. apply span_digits_app; [exact Hf | exact Hex_stop].
    - subst ex. destruct x; reflexivity. }
  rewrite Hfrac, Hex. reflexivity.
Qed.

Lemma of_str_finite sg c e : of_str (__str__ (Finite sg c e)) = Some (Finite sg c e).
Proof.
  destruct (pretty_N_nonempty c) as (d & r & E & Hd).
  assert (Hne : pretty c <> "") by (rewrite E; discriminate).
  pose proof (pretty_N_digits c) as Hdigits.
  pose proof (pretty_N_value c) as Hvalue.
  unfold __str__.
  set (_int := pretty c) in *.
  set (len := Z.of_nat (String.length _int)).
  assert (Hlen : 1 <= len) by (subst len _int; rewrite E; simpl; lia).
  destruct ((e <=? 0) && (-6 <? e + len)) eqn:Hplain.
  - (* no exponent: the point is placed among, before or after the digits *)
    apply andb_prop in Hplain as [He _]. apply Z.leb_le in He.
    rewrite Z.eqb_refl.
    destruct (Z.leb_spec (e + len) 0) as [Hleft | Hleft].
    + change ("." +:+ replicate (Z.to_nat (- (e + len))) "0" +:+ _int)
        with ("." +:+ (replicate (Z.to_nat (- (e + len))) "0" +:+ _int)).
      rewrite (of_str_layout sg "0"
                 (Some (replicate (Z.to_nat (- (e + len))) "0" +:+ _int)) None);
        try discriminate; try reflexivity.
      * cbn [default from_option id]. f_equal. f_equal.
        -- rewrite append_cons. change ("" +:+ ?s) with s.
           rewrite int_of_leading_zeros. exact Hvalue.
        -- rewrite length_append, length_replicate. subst len. lia.
      * cbn [default from_option id]. rewrite all_app, all_replicate, Hdigits; reflexivity.
    + destruct (Z.leb_spec len (e + len)) as [Hright | Hright].
      * assert (e = 0) by lia. subst e.
        replace (Z.to_nat (0 + len - len)) with 0%nat by lia.
        simpl replicate. rewrite append_empty_r.
        change (sign_str sg +:+ _int +:+ "")
          with (sign_str sg +:+ _int +:+ "" +:+ "").
        rewrite (of_str_layout sg _int None None Hne Hdigits eq_refl).
        cbn [default from_option id]. rewrite append_empty_r, Hvalue. reflexivity.
      * pose proof (all_take_drop is_digit (Z.to_nat (e + len)) _int Hdigits)
          as [Htake Hdrop].
        rewrite (of_str_layout sg (take (Z.to_nat (e + len)) _int)
                   (Some (drop (Z.to_nat (e + len)) _int)) None);
          [| apply take_nonempty; [lia | exact Hne] | exact Htake | exact Hdrop].
        cbn [default from_option id]. rewrite take_drop, Hvalue, length_drop.
        do 2 f_equal. subst len. lia.
  - (* scientific notation: one digit before the point *)
    assert (Hexp : e + len <> 1).
    { intros Hone. apply andb_false_iff in Hplain as [H | H].
      - apply Z.leb_gt in H. lia.
      - apply Z.ltb_ge in H. lia. }
    change (1 <=? 0) with false. cbv beta iota.
    destruct (Z.eqb_spec (e + len) 1) as [| _]; [contradiction |].
    destruct (Z.leb_spec len 1) as [Hone | Hmore].
    + assert (len = 1) by lia.
      replace (Z.to_nat (1 - len)) with 0%nat by lia.
      simpl replicate. rewrite append_empty_r.
      rewrite (of_str_layout sg _int None (Some (e + len - 1)) Hne Hdigits eq_refl).
      cbn [default from_option id]. rewrite append_empty_r, Hvalue.
      do 2 f_equal. simpl String.length. lia.
    + pose proof (all_take_drop is_digit (Z.to_nat 1) _int Hdigits) as [Htake Hdrop].
      rewrite (of_str_layout sg (take (Z.to_nat 1) _int)
                 (Some (drop (Z.to_nat 1) _int)) (Some (e + len - 1)));
        [| apply take_nonempty; [lia | exact Hne] | exact Htake | exact Hdrop].
      cbn [default from_option id]. rewrite take_drop, Hvalue, length_drop.
      do 2 f_equal. subst len. lia.
Qed.

Lemma lower_str_cons c s : lower_str (String c s) = String (lower c) (lower_str s).
Proof. reflexivity. Qed.

Lemma lower_str_digits s : all is_digit s = true -> lower_str s = s.
Proof.
  induction s as [| c s IH]; [reflexivity |]. simpl all.
  intros [Hc Hs]%andb_prop.
  rewrite lower_str_cons, (digit_lower c Hc), (IH Hs). reflexivity.
Qed.

Lemma parse_special_nan (sg signaling : bool) (digits : string) :
  all is_digit digits = true ->
  parse_special sg ((if signaling then "sNaN" else "NaN") +:+ digits)
  = Some (NaN sg signaling (int_of_digits digits)).
Proof.
  intros Hd. unfold parse_special.
  destruct signaling.
  - change ("sNaN" +:+ digits)
      with (String "s" (String "N" (String "a" (String "N" digits)))).
    rewrite !lower_str_cons, (lower_str_digits _ Hd).
    change (lower "s"%char) with "s"%char. change (lower "N"%char) with "n"%char.
    change (lower "a"%char) with "a"%char.
    cbn [String.eqb Ascii.eqb Bool.eqb orb].
    rewrite (span_digits_all _ Hd). reflexivity.
  - change ("NaN" +:+ digits) with (String "N" (String "a" (String "N" digits))).
    rewrite !lower_str_cons, (lower_str_digits _ Hd).
    change (lower "N"%char) with "n"%char. change (lower "a"%char) with "a"%char.
    cbn [String.eqb Ascii.eqb Bool.eqb orb].
    rewrite (span_digits_all _ Hd). reflexivity.
Qed.

Lemma of_str_special_nan (sg signaling : bool) (p : N) :
  of_str (__str__ (NaN sg signaling p)) = Some (NaN sg signaling p).
Proof.
  assert (Hdigits : all is_digit (payload_str p) = true).
  { unfold payload_str. destruct (decide (p = 0%N)); [reflexivity |].
    apply pretty_N_digits. }
  assert (Hvalue : int_of_digits (payload_str p) = p).
  { unfold payload_str. destruct (decide (p = 0%N)) as [-> |]; [reflexivity |].
    apply pretty_N_value. }
  unfold __str__, of_str. rewrite strip_clean.
  2:{ rewrite !all_app, (digits_clean _ Hdigits).
      destruct sg, signaling; reflexivity. }
  assert (Hsplit : split_sign (sign_str sg +:+ (if signaling then "sNaN" else "NaN")
                                 +:+ payload_str p)
                   = (sg, (if signaling then "sNaN" else "NaN") +:+ payload_str p)).
  { destruct sg, signaling; reflexivity. }
  rewrite Hsplit.
  assert (Hstart : starts_number ((if signaling then "sNaN" else "NaN")
                                    +:+ payload_str p) = false).
  { destruct signaling; reflexivity. }
  rewrite Hstart, (parse_special_nan _ _ _ Hdigits), Hvalue. reflexivity.
Qed.

(** Reading the text form of a decimal gives the decimal back. *)
Lemma of_str_str (d : Decimal) : of_str (__str__ d) = Some d.
Proof.
  destruct d as [sg c e | sg | sg signaling p].
  - apply of_str_finite.
  - destruct sg; vm_compute; reflexivity.
  - apply of_str_special_nan.
Qed.

End DecimalFacts.

(** C7. For every Decimal value, set_dependency_usage hands to the HTTP
    session at most one request, the PATCH of that job id whose body has
    the single field [dependency_usage], a string: the text form of the
    decimal, which reads back as the identical decimal (sign, coefficient
    and exponent, or the same special value).  Once the request headers
    are there, it does hand that request to the session, and that one
    only.  No floating-point number takes part; two decimals with the same
    text form are the same. *)
Theorem dependency_usage_round_trips {runtime : PyRuntime} {World : Type}
        {externals : Externals World}
        (self : ElasticJobRegistry) (job_id : string) (usage : PyDecimal.Decimal) :
  emits (fun r => exists text headers,
           r = mkHttpRequest "PATCH"
                 (url_join (_api_url self) ("/jobs/" +:+ job_id))
                 (Some (JDict [ ("dependency_usage", JStr text) ])) headers 20
           /\ text = PyDecimal.__str__ usage
           /\ PyDecimal.of_str text = Some usage)
        (set_dependency_usage (World := World) self job_id usage) /\
  (forall (st st1 : State World) headers,
      request_headers self true st = (Return headers, st1) ->
      sent (snd (set_dependency_usage self job_id usage st))
      = (sent st ++
         [ mkHttpRequest "PATCH"
             (url_join (_api_url self) ("/jobs/" +:+ job_id))
             (Some (JDict [ ("dependency_usage", JStr (PyDecimal.__str__ usage)) ]))
             headers 20 ])%list) /\
  PyDecimal.of_str (PyDecimal.__str__ usage) = Some usage /\
  (forall other, PyDecimal.__str__ other = PyDecimal.__str__ usage -> other = usage).
Proof.
  split; [| split; [| split]].
  - eapply emits_weaken; [| apply emits_update].
    intros r [headers ->]. eexists _, headers.
    split; [reflexivity |]. split; [reflexivity | apply of_str_str].
  - intros st st1 headers Hh. unfold set_dependency_usage, _update.
    apply (do_request_sent _ _ _ _ _ _ _ _ _ Hh).
  - apply of_str_str.
  - intros other Heq.
    pose proof (of_str_str other) as Hother. rewrite Heq, of_str_str in Hother.
    congruence.
Qed.

(** The decimal 12.3456789012345: its text, and the text read back. *)
Example dependency_usage_sample :
  PyDecimal.__str__ (PyDecimal.Finite false 123456789012345 (-13)) = "12.3456789012345"
  /\ PyDecimal.of_str "12.3456789012345"
     = Some (PyDecimal.Finite false 123456789012345 (-13)).
Proof. vm_compute. split; reflexivity. Qed.

(** ** Runs on the test double *)

Section Runs.

Import Double.

#[local] Existing Instance sample.
#[local] Existing Instance externals.

(** Two records for one job id: the internal error, and no record. *)
Lemma get_job_by_match_count_witness :
  fst (get_job registry "j-1" None (start [reply 200 "OK" "[j-1, j-1]"]))
  = Raise (InternalException "Found 2 jobs for job_id='j-1'").
Proof.
  pose (st := start [reply 200 "OK" "[j-1, j-1]"]).
  pose (st' := snd (_search registry (get_job_query "unittests" "j-1")
                      (fields_or_all None) st)).
  destruct (get_job_by_match_count registry "j-1" "unittests" None
              [job "j-1"; job "j-1"] st st') as (_ & Hmany & _).
  - reflexivity.
  - discriminate.
  - vm_compute. reflexivity.
  - fold st. rewrite Hmany by (simpl; lia). reflexivity.
Defined.

(** One record, of another job: the assertion fails. *)
Lemma get_job_asserts_job_id_witness :
  fst (get_job registry "j-2" None (start [reply 200 "OK" "[j-1]"]))
  = Raise (AssertionError "job['job_id']='j-1' != job_id='j-2'").
Proof.
  pose (st := start [reply 200 "OK" "[j-1]"]).
  pose (st' := snd (_search registry (get_job_query "unittests" "j-2")
                      (fields_or_all None) st)).
  destruct (get_job_asserts_job_id registry "j-2" "unittests" None
              (job "j-1") st st') as (_ & Hother).
  - reflexivity.
  - discriminate.
  - vm_compute. reflexivity.
  - destruct (Hother (JStr "j-1")) as [msg Hmsg];
      [reflexivity | discriminate |].
    vm_compute. reflexivity.
Defined.

(** A job without an id: the generated id, and one time stamp twice. *)
Lemma create_job_initial_record_witness :
  exists record,
    map json (sent (snd (create_job registry alice_job
                           (start [reply 201 "Created" "{}"]))))
    = [Some (JDict record)]
    /\ PyDict.get record "job_id" = Some (JStr "j-0")
    /\ PyDict.get record "status" = Some (JStr "created")
    /\ PyDict.get record "created" = Some (JStr "2024-01-01T00:00:00Z")
    /\ PyDict.get record "updated" = Some (JStr "2024-01-01T00:00:00Z").
Proof.
  pose (st := start [reply 201 "Created" "{}"]).
  destruct (create_job_initial_record registry alice_job st
              "j-0" "2024-01-01T00:00:00Z" "unittests"
              (mkWorld "2024-01-01T00:00:00Z" 1000 1 (Return "t0k3n") []
                 [reply 201 "Created" "{}"])
              (mkWorld "2024-01-01T00:00:00Z" 1000 1 (Return "t0k3n") []
                 [reply 201 "Created" "{}"]))
    as (record & Hrun & _ & Hid & Hstatus & Hcreated & Hupdated & _).
  - reflexivity.
  - reflexivity.
  - reflexivity.
  - discriminate.
  - exists record. fold st. rewrite Hrun.
    split; [reflexivity |]. repeat split; assumption.
Defined.

(** A 500 where 200 was expected: the registry's HTTP error. *)
Lemma do_request_classifies_response_witness :
  fst (_do_request registry "GET" "/health" None false (Some 200)
         (start [reply 500 "Internal Server Error" "{}"]))
  = Raise (EjrHttpError
      "EJR API error: 500 'Internal Server Error' on `GET 'https://ejr.test/health'`: {}"
      (Some 500)).
Proof.
  pose (st := start [reply 500 "Internal Server Error" "{}"]).
  destruct (do_request_classifies_response registry "GET" "/health" None false
              (Some 200) st st []
              (mkResponse 500 "Internal Server Error" "{}"
                 (mkPreparedRequest "GET" "https://ejr.test/health"))
              (mkWorld "2024-01-01T00:00:00Z" 1000 0 (Return "t0k3n") [] []))
    as [Hdiffers _].
  - reflexivity.
  - reflexivity.
  - destruct Hdiffers as (msg & Hmsg & _); [reflexivity | discriminate |].
    vm_compute. reflexivity.
Defined.

(** C5, as stated, fails: with a falsy expected_status and a 304 response,
    which is not a 2xx status, the call succeeds and returns the decoded
    body. *)
Lemma do_request_not_modified_counterexample :
  let result :=
    fst (_do_request registry "GET" "/jobs/j-1" None false None
           (start [reply 304 "Not Modified" "{}"])) in
  Py.int_truthy None = false /\
  ~ (200 <= 304 < 300) /\
  result = Return (JDict []).
Proof. split; [reflexivity |]. split; [lia |]. vm_compute. reflexivity. Qed.

(** And a status that equals the expected one does not always give the
    body: a 404 where 404 was expected raises the HTTP library's error. *)
Example do_request_expected_404 :
  fst (_do_request registry "GET" "/jobs/j-1" None false (Some 404)
         (start [reply 404 "Not Found" "{}"]))
  = Raise (HTTPError (mkResponse 404 "Not Found" "{}"
                        (mkPreparedRequest "GET" "https://ejr.test/jobs/j-1"))).
Proof. vm_compute. reflexivity. Qed.

(** C9, as stated, fails: with max_age 0 the query does not ask for the
    last 0 days but for the last 7. *)
Lemma list_active_jobs_max_age_zero_counterexample :
  exists source headers,
    sent (snd (list_active_jobs registry (Some 0) None (start [reply 200 "OK" "[]"])))
    = [ mkHttpRequest "POST" "https://ejr.test/jobs/search"
          (Some (JDict
             [ ("query", JDict [ ("bool", JDict [ ("filter", JList
                 [ JDict [ ("term", JDict [ ("backend_id", JStr "unittests") ]) ];
                   JDict [ ("terms", JDict [ ("status",
                     JList [ JStr "created"; JStr "queued"; JStr "running" ]) ]) ];
                   JDict [ ("range", JDict [ ("created", JDict
                     [ ("gte", JStr "now-7d") ]) ]) ] ]) ]) ]);
               ("_source", source) ]))
          headers 20 ]
    /\ "now-7d" <> "now-" +:+ PyStr.str_int 0 +:+ "d".
Proof.
  eexists _, _. split; [vm_compute; reflexivity | vm_compute; discriminate].
Qed.

(** A status change on the double: one PATCH with the fields being set. *)
Example set_status_running :
  map (fun r => (method r, url r, json r))
    (sent (snd (set_status registry "j-1" "running" None
                  (Some "2024-01-02T10:00:00Z") None (start []))))
  = [ ("PATCH", "https://ejr.test/jobs/j-1",
       Some (JDict [ ("status", JStr "running");
                     ("updated", JStr "2024-01-01T00:00:00Z");
                     ("started", JStr "2024-01-02T10:00:00Z") ])) ].
Proof. vm_compute. reflexivity. Qed.

(** Without authentication set up nothing is sent. *)
Example no_authentication_no_request :
  let self := mkRegistry "https://ejr.test" (Some "unittests") None in
  fst (remove_dependencies self "j-1" (start [])) = Raise (EjrError "No authentication set up")
  /\ sent (snd (remove_dependencies self "j-1" (start []))) = [].
Proof. vm_compute. split; reflexivity. Qed.

(** Credentials from a mapping that lacks two of the three keys, and from
    an environment that lacks two of the three variables: the error names
    both. *)
Lemma credentials_strictness_witness :
  (exists msg,
     Credentials.from_mapping {[ "client_id" := "c-123" ]} true = Raise (EjrError msg)
     /\ PyStr.occurs_in "'oidc_issuer'" msg
     /\ PyStr.occurs_in "'client_secret'" msg) /\
  (exists msg,
     Credentials.from_env ∅ (Some {[ "OPENEO_EJR_OIDC_CLIENT_ID" := "c-123" ]}) true
     = Raise (EjrError msg)
     /\ PyStr.occurs_in "'OPENEO_EJR_OIDC_ISSUER'" msg
     /\ PyStr.occurs_in "'OPENEO_EJR_OIDC_CLIENT_SECRET'" msg).
Proof.
  split.
  - destruct (credentials_strictness {[ "client_id" := "c-123" ]} ∅ None)
      as [[Hmiss _] _].
    destruct Hmiss as [(msg & Hmsg & Hnames) _].
    + intros Hempty.
      apply (not_elem_of_empty (C := gset string) "oidc_issuer").
      rewrite <- Hempty. vm_compute. reflexivity.
    + exists msg. split; [exact Hmsg |].
      split; [apply (Hnames "oidc_issuer") | apply (Hnames "client_secret")];
        vm_compute; reflexivity.
  - destruct (credentials_strictness ∅ ∅
                (Some {[ "OPENEO_EJR_OIDC_CLIENT_ID" := "c-123" ]}))
      as (_ & [Hmiss _] & _).
    destruct Hmiss as [(msg & Hmsg & Hnames) _].
    + intros Hempty.
      apply (not_elem_of_empty (C := gset string) "OPENEO_EJR_OIDC_ISSUER").
      rewrite <- Hempty. vm_compute. reflexivity.
    + exists msg. split; [exact Hmsg |].
      split; [apply (Hnames "OPENEO_EJR_OIDC_ISSUER")
             | apply (Hnames "OPENEO_EJR_OIDC_CLIENT_SECRET")];
        vm_compute; reflexivity.
Defined.

(** C6, as stated, fails for from_env: with an empty mapping passed in,
    from which all three values are absent, and strict=True, it does not
    fail but returns the credentials found in the process environment. *)
Lemma from_env_empty_mapping_counterexample :
  let os_environ : gmap string string :=
    {[ "OPENEO_EJR_OIDC_ISSUER" := "https://oidc.test";
       "OPENEO_EJR_OIDC_CLIENT_ID" := "client";
       "OPENEO_EJR_OIDC_CLIENT_SECRET" := "s3cr3t" ]} in
  let env : gmap string string := ∅ in
  env !! "OPENEO_EJR_OIDC_ISSUER" = None /\
  env !! "OPENEO_EJR_OIDC_CLIENT_ID" = None /\
  env !! "OPENEO_EJR_OIDC_CLIENT_SECRET" = None /\
  Credentials.from_env os_environ (Some env) true
  = Return (Some (mkCredentials "https://oidc.test" "client" "s3cr3t")).
Proof. repeat split; vm_compute; reflexivity. Qed.

(** The usage 12.3456789012345 on the double: the PATCH that is sent
    carries its text, which reads back as the same decimal. *)
Lemma dependency_usage_round_trips_witness :
  sent (snd (set_dependency_usage registry "j-1"
               (PyDecimal.Finite false 123456789012345 (-13))
               (start [reply 200 "OK" "{}"])))
  = [ mkHttpRequest "PATCH" "https://ejr.test/jobs/j-1"
        (Some (JDict [ ("dependency_usage", JStr "12.3456789012345") ]))
        [("Authorization", "Bearer t0k3n")] 20 ]
  /\ PyDecimal.of_str "12.3456789012345"
     = Some (PyDecimal.Finite false 123456789012345 (-13)).
Proof.
  pose (st := start [reply 200 "OK" "{}"]).
  pose (usage := PyDecimal.Finite false 123456789012345 (-13)).
  assert (Htext : PyDecimal.__str__ usage = "12.3456789012345")
    by (vm_compute; reflexivity).
  destruct (dependency_usage_round_trips registry "j-1" usage)
    as (_ & Hsent & Hread & _).
  rewrite Htext in Hread. split; [| exact Hread].
  fold st usage.
  rewrite (Hsent st (snd (request_headers registry true st))
             [("Authorization", "Bearer t0k3n")]) by (vm_compute; reflexivity).
  rewrite Htext. reflexivity.
Defined.

(** A listing of alice's jobs with their titles: the projection that is
    sent has the five basic fields and the title. *)
Lemma fetch_projection_has_basic_fields_witness :
  exists query source,
    map json (sent (snd (list_user_jobs registry (Some "alice") (Some ["title"])
                           (start [reply 200 "OK" "[]"]))))
    = [ Some (JDict [ ("query", query); ("_source", JList (map JStr source)) ]) ]
    /\ In "job_id" source /\ In "user_id" source /\ In "created" source
    /\ In "status" source /\ In "updated" source /\ In "title" source.
Proof.
  pose (st := start [reply 200 "OK" "[]"]).
  destruct (fetch_projection_has_basic_fields registry
              (ListUserJobs (Some "alice") (Some ["title"]))) as [_ Hsent].
  destruct (Hsent "unittests" st (snd (request_headers registry true st))
              [("Authorization", "Bearer t0k3n")])
    as (query & source & Hs & Hfive & Hreq);
    [reflexivity | discriminate | vm_compute; reflexivity |].
  exists query, source.
  change (list_user_jobs registry (Some "alice") (Some ["title"])
            (start [reply 200 "OK" "[]"]))
    with (run_fetch registry (ListUserJobs (Some "alice") (Some ["title"])) st).
  rewrite Hs. split; [reflexivity |].
  do 5 (split; [apply Hfive; simpl; tauto |]).
  apply Hreq. simpl. tauto.
Defined.

(** The active jobs of the last three days on the double: the query that
    is sent. *)
Lemma list_active_jobs_query_witness :
  exists source,
    sent (snd (list_active_jobs registry (Some 3) None (start [reply 200 "OK" "[]"])))
    = [ mkHttpRequest "POST" "https://ejr.test/jobs/search"
          (Some (JDict
             [ ("query", JDict [ ("bool", JDict [ ("filter", JList
                 [ JDict [ ("term", JDict [ ("backend_id", JStr "unittests") ]) ];
                   JDict [ ("terms", JDict [ ("status",
                     JList [ JStr "created"; JStr "queued"; JStr "running" ]) ]) ];
                   JDict [ ("range", JDict [ ("created", JDict
                     [ ("gte", JStr "now-3d") ]) ]) ] ]) ]) ]);
               ("_source", JList (map JStr source)) ]))
          [("Authorization", "Bearer t0k3n")] 20 ].
Proof.
  pose (st := start [reply 200 "OK" "[]"]).
  pose proof (list_active_jobs_query registry (Some 3) None) as Hquery.
  cbv zeta in Hquery. destruct Hquery as (_ & _ & Hsent).
  destruct (Hsent "unittests" st (snd (request_headers registry true st))
              [("Authorization", "Bearer t0k3n")])
    as (source & Hs);
    [reflexivity | discriminate | vm_compute; reflexivity |].
  exists source. fold st. rewrite Hs. reflexivity.
Defined.

End Runs.

(* ===================================================================== *)
(** * Part III. Further properties                                         *)
(* ===================================================================== *)

(** ** The request pipeline *)

Section PipelineMore.
Context {runtime : PyRuntime} {World : Type} {externals : Externals World}.

(** X1. A call of _do_request with use_auth=False needs no token: it hands
    exactly one request to the HTTP session, without any header, leaves the
    token cache as it was and lets nothing but the session touch the
    world; the session is used for that request and for nothing else.
    (This is how [health_check(use_auth=False)] runs.) *)
Theorem do_request_without_auth (self : ElasticJobRegistry) (method path : string)
        (json : option Json) (expected_status : option Z) (st : State World) :
  let r := mkHttpRequest method (url_join (_api_url self) path) json [] 20 in
  let st' := snd (_do_request self method path json false expected_status st) in
  sent st' = (sent st ++ [r])%list /\
  cache st' = cache st /\
  world st' = snd (session_request r (world st)) /\
  session st' = (session st ++ [Request r])%list.
Proof.
  intros r st'. subst st'.
  destruct (session_request r (world st)) as [o w] eqn:Hs.
  rewrite (do_request_run self method path json false expected_status st st [] o w
             eq_refl Hs).
  cbn [snd]. rewrite sent_use. simpl. auto.
Qed.

(** X2. With no authentication set up and no token in the cache, a call of
    _do_request with use_auth=True raises the registry's error "No
    authentication set up" and hands nothing to the HTTP session, which is
    not used at all. *)
Theorem do_request_without_authentication (self : ElasticJobRegistry)
        (method path : string) (json : option Json) (expected_status : option Z)
        (st : State World) :
  _authenticator self = None ->
  cache st !! "api_access_token" = None ->
  fst (_do_request self method path json true expected_status st)
  = Raise (EjrError "No authentication set up") /\
  sent (snd (_do_request self method path json true expected_status st)) = sent st /\
  session (snd (_do_request self method path json true expected_status st))
  = session st.
Proof.
  intros Hauth Hmiss.
  assert (Hh : exists st1, request_headers self true st
                           = (Raise (EjrError "No authentication set up"), st1)
                           /\ sent st1 = sent st /\ session st1 = session st).
  { unfold request_headers, TtlCache.get_or_call, _get_access_token.
    rewrite Hauth. unfold bind at 1. unfold bind at 1. unfold in_world at 1.
    destruct (time_time (world st)) as [now w]. simpl cache. rewrite Hmiss.
    eexists. split; [reflexivity |]. split; reflexivity. }
  destruct Hh as (st1 & Hh & Hsent & Hsession).
  rewrite (do_request_no_headers _ _ _ _ _ _ _ _ _ Hh). auto.
Qed.

(** X3. An exception raised by the HTTP session (a timeout, a connection
    error) comes out of _do_request unchanged, after the one request was
    handed over: there is no retry and no wrapping. *)
Theorem do_request_propagates_transport_error (self : ElasticJobRegistry)
        (method path : string) (json : option Json) (use_auth : bool)
        (expected_status : option Z) (st st1 : State World) headers e w :
  request_headers self use_auth st = (Return headers, st1) ->
  session_request
    (mkHttpRequest method (url_join (_api_url self) path) json headers 20)
    (world st1) = (Raise e, w) ->
  fst (_do_request self method path json use_auth expected_status st) = Raise e /\
  sent (snd (_do_request self method path json use_auth expected_status st))
  = (sent st ++ [ mkHttpRequest method (url_join (_api_url self) path) json
                    headers 20 ])%list.
Proof.
  intros Hh Hs. split.
  - rewrite (do_request_run _ _ _ _ _ _ _ _ _ _ _ Hh Hs). reflexivity.
  - apply (do_request_sent _ _ _ _ _ _ _ _ _ Hh).
Qed.

End PipelineMore.

(** ** All operations *)

Section OperationFacts.
Context {runtime : PyRuntime} {World : Type} {externals : Externals World}.

Lemma emits_run_fetch self f :
  emits (fun r => exists query source headers,
           r = mkHttpRequest "POST" (url_join (_api_url self) "/jobs/search")
                 (Some (JDict [ ("query", query);
                                ("_source", JList (map JStr source)) ]))
                 headers 20
           /\ source = elements (list_to_set (requested_fields f)
                         ∪ ({[ "job_id"; "user_id"; "created"; "status"; "updated" ]}
                            : gset string)))
        (run_fetch (World := World) self f).
Proof.
  assert (Hsearch : forall query fields,
    emits (fun r => exists query source headers,
             r = mkHttpRequest "POST" (url_join (_api_url self) "/jobs/search")
                   (Some (JDict [ ("query", query);
                                  ("_source", JList (map JStr source)) ]))
                   headers 20
             /\ source = elements (list_to_set (default [] fields)
                           ∪ ({[ "job_id"; "user_id"; "created"; "status"; "updated" ]}
                              : gset string)))
          (_search (World := World) self query fields)).
  { intros query fields. eapply emits_weaken; [| apply emits_search].
    intros r [headers ->]. eexists query, _, headers. split; reflexivity. }
  destruct f as [job_id fields | user_id fields | max_age fields]; simpl.
  - unfold get_job. apply emits_bind_silent_l; [apply silent_backend_id |].
    intros backend. apply emits_bind_silent_r; [apply Hsearch |].
    intros jobs. apply silent_get_job_pick.
  - unfold list_user_jobs. apply emits_bind_silent_l; [apply silent_backend_id |].
    intros backend. apply Hsearch.
  - unfold list_active_jobs. apply emits_bind_silent_l; [apply silent_backend_id |].
    intros backend. apply Hsearch.
Qed.

Lemma talks_create_job self a :
  talks self
        (fun r => exists record headers,
           r = mkHttpRequest "POST" (url_join (_api_url self) "/jobs")
                 (Some (JDict record)) headers 20)
        (create_job (World := World) self a).
Proof.
  unfold create_job. apply talks_bind_idle_l.
  { destruct (arg_job_id a) as [j |]; [destruct (String.eqb j "") |];
      auto using idle_generate_job_id with trace. }
  intros job_id. apply talks_bind_idle_l; [apply idle_in_world |].
  intros created. apply talks_bind_idle_l; [apply idle_backend_id |].
  intros backend. eapply talks_weaken; [| apply talks_do_request].
  intros r [headers ->]. eauto.
Qed.

Lemma talks_run_fetch self f :
  talks self
        (fun r => exists body headers,
           r = mkHttpRequest "POST" (url_join (_api_url self) "/jobs/search")
                 (Some body) headers 20)
        (run_fetch (World := World) self f).
Proof.
  assert (Hsearch : forall query fields,
    talks self
          (fun r => exists body headers,
             r = mkHttpRequest "POST" (url_join (_api_url self) "/jobs/search")
                   (Some body) headers 20)
          (_search (World := World) self query fields)).
  { intros query fields. eapply talks_weaken; [| apply talks_do_request].
    intros r [headers ->]. eauto. }
  destruct f as [job_id fields | user_id fields | max_age fields]; simpl.
  - unfold get_job. apply talks_bind_idle_l; [apply idle_backend_id |].
    intros backend. apply talks_bind_idle_r; [apply Hsearch |].
    intros jobs. apply idle_get_job_pick.
  - unfold list_user_jobs. apply talks_bind_idle_l; [apply idle_backend_id |].
    intros backend. apply Hsearch.
  - unfold list_active_jobs. apply talks_bind_idle_l; [apply idle_backend_id |].
    intros backend. apply Hsearch.
Qed.

(** X4. Every operation of the registry (create_job, the three fetches, the
    seven mutations, health_check) works with the HTTP session at most
    twice per call: at most once through the registry's authenticator,
    which asks for a token with it, and after that at most once itself,
    for one request, always with the 20 second timeout, and always one of
    the four calls of the remote API: GET /health, POST /jobs, POST
    /jobs/search or PATCH /jobs/<job id>, under the registry's URL. *)
Theorem operation_sends_one_api_call (self : ElasticJobRegistry) (op : Operation)
        (st : State World) :
  exists tokens calls,
    session (snd (run_operation self op st)) = (session st ++ tokens ++ calls)%list /\
    (tokens = [] \/
     exists authenticator,
       _authenticator self = Some authenticator /\ tokens = [OidcTokens authenticator]) /\
    (calls = [] \/
     exists r, calls = [Request r] /\ timeout r = 20 /\ api_call self r).
Proof.
  revert st.
  change (talks self (fun r => timeout r = 20 /\ api_call self r)
            (run_operation (World := World) self op)).
  destruct op as [a | f | m | use_auth]; simpl.
  - eapply talks_weaken; [| apply talks_create_job].
    intros r (record & headers & ->). split; [reflexivity |].
    right. left. split; reflexivity.
  - eapply talks_weaken; [| apply talks_run_fetch].
    intros r (body & headers & ->). split; [reflexivity |].
    right. right. left. split; reflexivity.
  - eapply talks_weaken; [| apply talks_run_mutation].
    intros r (data & headers & ->). split; [reflexivity |].
    right. right. right. exists (target m). split; reflexivity.
  - eapply talks_weaken; [| apply talks_do_request].
    intros r (headers & ->). split; [reflexivity |].
    left. split; reflexivity.
Qed.

(** X5. On a registry without a backend id (none, or an empty one),
    create_job and the three fetches fail with an assertion error and hand
    nothing to the HTTP session. *)
Theorem backend_id_is_required (self : ElasticJobRegistry) :
  _backend_id self = None \/ _backend_id self = Some "" ->
  (forall a (st : State World),
      fst (create_job self a st) = Raise (AssertionError "") /\
      sent (snd (create_job self a st)) = sent st) /\
  (forall f (st : State World),
      fst (run_fetch self f st) = Raise (AssertionError "") /\
      sent (snd (run_fetch self f st)) = sent st).
Proof.
  intros Hunset.
  assert (Hfail : forall st : State World,
             backend_id self st = (Raise (AssertionError ""), st)).
  { intros st. unfold backend_id. destruct Hunset as [-> | ->]; reflexivity. }
  split.
  - intros a st.
    assert (Hrun : exists st2, create_job self a st = (Raise (AssertionError ""), st2)
                               /\ sent st2 = sent st);
      [| destruct Hrun as (st2 & -> & Hs); auto].
    unfold create_job.
    assert (Hid : silent (World := World)
                    (match arg_job_id a with
                     | Some j => if String.eqb j "" then generate_job_id else ret j
                     | None => generate_job_id
                     end)).
    { destruct (arg_job_id a) as [j |]; [destruct (String.eqb j "") |];
        auto using silent_generate_job_id with trace. }
    unfold bind at 1.
    destruct (match arg_job_id a with
              | Some j => if String.eqb j "" then generate_job_id else ret j
              | None => generate_job_id
              end st) as [[job_id | e] st1] eqn:E1.
    2:{ exfalso. clear -E1. destruct (arg_job_id a) as [j |];
          [destruct (String.eqb j "") |]; unfold generate_job_id, in_world, ret in E1;
          try destruct (generate_unique_id "j" (world st)); discriminate. }
    pose proof (Hid st) as H1. rewrite E1 in H1. simpl in H1.
    unfold bind at 1.
    destruct (in_world utcnow st1) as [[created | e] st2] eqn:E2.
    2:{ exfalso. unfold in_world in E2. destruct (utcnow (world st1)). discriminate. }
    pose proof (silent_in_world utcnow st1) as H2. rewrite E2 in H2. simpl in H2.
    unfold bind at 1. rewrite Hfail. exists st2. split; [reflexivity | congruence].
  - intros f st.
    assert (Hrun : run_fetch self f st = (Raise (AssertionError ""), st));
      [| rewrite Hrun; auto].
    destruct f as [job_id fields | user_id fields | max_age fields]; simpl;
      [unfold get_job | unfold list_user_jobs | unfold list_active_jobs];
      unfold bind at 1; rewrite Hfail; reflexivity.
Qed.

(** X6. A mutation does not need the registry's backend id: on every
    registry, also one without a backend id (where create_job and the
    fetches fail), it is the computation of its payload followed by
    [_update], and once the payload is there and the request headers are
    there it hands exactly one request to the session, the PATCH of its
    job id whose body has exactly the fields being set, and returns or
    raises what the answer to that request comes to. *)
Theorem mutation_needs_no_backend_id (self : ElasticJobRegistry) (m : Mutation)
        (st st1 st2 : State World) (data : JobDict) headers :
  payload m st = (Return data, st1) ->
  request_headers self true st1 = (Return headers, st2) ->
  let r := mkHttpRequest "PATCH" (url_join (_api_url self) ("/jobs/" +:+ target m))
             (Some (JDict data)) headers 20 in
  run_mutation self m st = bind (payload m) (_update self (target m)) st /\
  PyDict.keys data = fields_being_set m /\
  sent (snd (run_mutation self m st)) = (sent st ++ [r])%list /\
  fst (run_mutation self m st)
  = match fst (session_request r (world st2)) with
    | Raise e => Raise e
    | Return response =>
        if negb (bool_decide (status_code response = 200))
        then Raise (EjrHttpError.from_response response)
        else let? _ := raise_for_status response in json_loads (text response)
    end.
Proof.
  intros Hp Hh r.
  split; [apply run_mutation_through_update |].
  split; [apply (payload_keys _ _ _ _ Hp) |].
  split; [apply (run_mutation_sent _ _ _ _ _ _ _ Hp Hh) |].
  destruct (session_request r (world st2)) as [o w] eqn:Hs.
  rewrite (run_mutation_result _ _ _ _ _ _ _ _ _ Hp Hh Hs). cbn [fst].
  destruct o as [response | e]; [| reflexivity].
  destruct (decide (status_code response = 200)) as [H200 | H200].
  - rewrite !bool_decide_eq_true_2 by congruence. reflexivity.
  - rewrite !bool_decide_eq_false_2 by congruence. reflexivity.
Qed.

(** X7. The projection a fetch sends has the five basic fields and the
    requested fields (for get_job without requested fields: the wildcard),
    nothing else, and no field twice.  On a registry with a backend id,
    once the request headers are there, the fetch does send it: it hands
    exactly one request to the session, with that projection. *)
Theorem fetch_projection_is_exact (self : ElasticJobRegistry) (f : Fetch) :
  let wanted := match f with
                | GetJob _ None | GetJob _ (Some []) => ["*"]
                | GetJob _ (Some fields)
                | ListUserJobs _ (Some fields)
                | ListActiveJobs _ (Some fields) => fields
                | _ => []
                end in
  emits (fun r => exists query source headers,
           r = mkHttpRequest "POST" (url_join (_api_url self) "/jobs/search")
                 (Some (JDict [ ("query", query);
                                ("_source", JList (map JStr source)) ]))
                 headers 20
           /\ List.NoDup source
           /\ (forall x, In x source <->
                         In x ["job_id"; "user_id"; "created"; "status"; "updated"]
                         \/ In x wanted))
        (run_fetch (World := World) self f) /\
  (forall backend (st st1 : State World) headers,
      _backend_id self = Some backend -> backend <> "" ->
      request_headers self true st = (Return headers, st1) ->
      exists query source,
        sent (snd (run_fetch self f st))
        = (sent st ++
           [ mkHttpRequest "POST" (url_join (_api_url self) "/jobs/search")
               (Some (JDict [ ("query", query);
                              ("_source", JList (map JStr source)) ]))
               headers 20 ])%list
        /\ List.NoDup source
        /\ (forall x, In x source <->
                      In x ["job_id"; "user_id"; "created"; "status"; "updated"]
                      \/ In x wanted)).
Proof.
  intros wanted.
  assert (Hreq : requested_fields f = wanted).
  { subst wanted. destruct f as [j [[| y l] |] | u [l |] | a [l |]]; reflexivity. }
  assert (Hexact : forall x,
             In x (elements (list_to_set (requested_fields f)
                     ∪ ({[ "job_id"; "user_id"; "created"; "status"; "updated" ]}
                        : gset string)))
             <-> In x ["job_id"; "user_id"; "created"; "status"; "updated"]
                 \/ In x wanted).
  { intros x. rewrite <- list_elem_of_In, elem_of_elements, elem_of_union,
      elem_of_list_to_set, !elem_of_union, !elem_of_singleton, list_elem_of_In.
    rewrite Hreq. simpl In. intuition (subst; auto). }
  split.
  - eapply emits_weaken; [| apply emits_run_fetch].
    intros r (query & source & headers & -> & ->).
    eexists query, _, headers. split; [reflexivity |]. split; [| exact Hexact].
    apply NoDup_ListNoDup, NoDup_elements.
  - intros backend st st1 headers Hb Hne Hh.
    destruct (run_fetch_sent self f backend st st1 headers Hb Hne Hh)
      as (query & Hsent & _).
    eexists query, _. split; [exact Hsent |]. split; [| exact Hexact].
    apply NoDup_ListNoDup, NoDup_elements.
Qed.

(** X8. get_job searches by two exact terms, the registry's backend id and
    the job id; list_user_jobs by the backend id and the user id (the JSON
    null when no user id is given): a request that one of them hands to
    the session carries that query, and on a registry with a backend id,
    once the request headers are there, each hands exactly one request to
    the session, the search request with that query. *)
Theorem lookups_filter_by_backend_and_id (self : ElasticJobRegistry)
        (job_id : string) (user_id : option string) (fields : option (list string)) :
  let by_job backend :=
    JDict [ ("bool", JDict [ ("filter", JList
      [ JDict [ ("term", JDict [ ("backend_id", JStr backend) ]) ];
        JDict [ ("term", JDict [ ("job_id", JStr job_id) ]) ] ]) ]) ] in
  let by_user backend :=
    JDict [ ("bool", JDict [ ("filter", JList
      [ JDict [ ("term", JDict [ ("backend_id", JStr backend) ]) ];
        JDict [ ("term", JDict [ ("user_id",
          match user_id with Some u => JStr u | None => JNull end) ]) ] ]) ]) ] in
  let search query source headers :=
    mkHttpRequest "POST" (url_join (_api_url self) "/jobs/search")
      (Some (JDict [ ("query", query); ("_source", JList (map JStr source)) ]))
      headers 20 in
  emits (fun r => exists backend source headers,
           _backend_id self = Some backend /\ r = search (by_job backend) source headers)
        (get_job (World := World) self job_id fields) /\
  emits (fun r => exists backend source headers,
           _backend_id self = Some backend /\ r = search (by_user backend) source headers)
        (list_user_jobs (World := World) self user_id fields) /\
  (forall backend (st st1 : State World) headers,
      _backend_id self = Some backend -> backend <> "" ->
      request_headers self true st = (Return headers, st1) ->
      (exists source,
         sent (snd (get_job self job_id fields st))
         = (sent st ++ [search (by_job backend) source headers])%list) /\
      (exists source,
         sent (snd (list_user_jobs self user_id fields st))
         = (sent st ++ [search (by_user backend) source headers])%list)).
Proof.
  intros by_job by_user search. split; [| split].
  - unfold get_job.
    apply (emits_bind_post (fun b => _backend_id self = Some b /\ b <> "")).
    + apply silent_backend_id.
    + intros st b st'. apply backend_id_returns.
    + intros backend [Hb _]. apply emits_bind_silent_r.
      * eapply emits_weaken; [| apply emits_search].
        intros r [headers ->]. eexists backend, _, headers.
        split; [exact Hb | reflexivity].
      * intros jobs. apply silent_get_job_pick.
  - unfold list_user_jobs.
    apply (emits_bind_post (fun b => _backend_id self = Some b /\ b <> "")).
    + apply silent_backend_id.
    + intros st b st'. apply backend_id_returns.
    + intros backend [Hb _]. eapply emits_weaken; [| apply emits_search].
      intros r [headers ->]. eexists backend, _, headers.
      split; [exact Hb |]. subst search by_user. destruct user_id; reflexivity.
  - intros backend st st1 headers Hb Hne Hh. split.
    + destruct (get_job_through_search self job_id fields backend Hb Hne)
        as (k & Hk & Hrun).
      rewrite Hrun. rewrite bind_silent_sent by (intros; apply idle_silent, Hk).
      eexists. apply (search_sent _ _ _ _ _ _ Hh).
    + rewrite (list_user_jobs_search _ _ _ _ _ Hb Hne).
      eexists. subst search by_user.
      rewrite (search_sent _ _ _ _ _ _ Hh). destruct user_id; reflexivity.
Qed.

End OperationFacts.

(** ** Looking a job up *)

Section LookupFacts.
Context {runtime : PyRuntime} {World : Type} {externals : Externals World}.

(** X9. When the store answers the request of a fetch with a status other
    than 200, the fetch (each of the three) raises the registry's HTTP
    error made from that response; get_job in particular does not report
    the job as not found. *)
Theorem fetch_search_failure_is_http_error (self : ElasticJobRegistry) (f : Fetch)
        (backend : string) (st st1 : State World) headers response w :
  _backend_id self = Some backend -> backend <> "" ->
  request_headers self true st = (Return headers, st1) ->
  (forall r, sent (snd (run_fetch self f st)) = (sent st ++ [r])%list ->
             session_request r (world st1) = (Return response, w)) ->
  status_code response <> 200 ->
  fst (run_fetch self f st) = Raise (EjrHttpError.from_response response).
Proof.
  intros Hb Hne Hh Hs Hstatus.
  destruct (run_fetch_sent self f backend st st1 headers Hb Hne Hh)
    as (query & Hsent & Hfail).
  cbv zeta in Hsent, Hfail.
  apply (Hfail response w); [| exact Hstatus].
  apply Hs. exact Hsent.
Qed.

(** Whatever the search gave, the choice among the records returns only
    the single element of a one-element result, a record whose job_id is
    the requested one. *)
Lemma get_job_pick_returns (job_id : string) (jobs job : Json) (st' st'' : State World) :
  (let! n := of_outcome (Py.len jobs) in
   if (n =? 1)%nat then
     let! job := of_outcome (Py.first jobs) in
     let! found := of_outcome (Py.getitem job "job_id") in
     if Py.eq_str found job_id then ret job
     else raise (AssertionError ("job['job_id']=" +:+ py_repr found
                                 +:+ " != job_id=" +:+ py_repr (JStr job_id)))
   else if (n =? 0)%nat then raise (JobNotFoundException job_id)
   else
     let! items := of_outcome (Py.iter jobs) in
     let! summary :=
       of_outcome (Py.mapM (fun j =>
         let? u := Py.get j "user_id" in
         let? c := Py.get j "created" in
         Return (JDict [ ("user_id", u); ("created", c) ])) items) in
     raise (InternalException ("Found " +:+ PyStr.str_int (Z.of_nat n)
                               +:+ " jobs for job_id=" +:+ py_repr (JStr job_id))))
    st' = (Return job, st'') ->
  st'' = st' /\ Py.len jobs = Return 1%nat /\ Py.first jobs = Return job /\
  exists record, job = JDict record
                 /\ PyDict.get record "job_id" = Some (JStr job_id).
Proof.
  unfold bind at 1. unfold of_outcome at 1.
  destruct (Py.len jobs) as [n | e]; [| discriminate].
  destruct n as [| [| n]].
  - discriminate.
  - rewrite (eq_refl : (1 =? 1)%nat = true).
    unfold bind, of_outcome, ret, raise.
    destruct (Py.first jobs) as [job0 | e]; [| discriminate].
    destruct job0 as [| | | | | | record]; try discriminate.
    unfold Py.getitem.
    destruct (PyDict.get record "job_id") as [found |] eqn:Hget; [| discriminate].
    destruct found as [| | | | s | |]; cbn [Py.eq_str]; try discriminate.
    destruct (String.eqb_spec s job_id) as [-> |]; [| discriminate].
    intros [= <- <-]. eauto 6.
  - rewrite (eq_refl : (S (S n) =? 1)%nat = false).
    rewrite (eq_refl : (S (S n) =? 0)%nat = false).
    unfold bind, of_outcome, raise.
    destruct (Py.iter jobs) as [items | e]; [| discriminate].
    destruct (Py.mapM _ items); discriminate.
Qed.

(** X10. Whatever JSON value the search returns, a record that get_job
    returns is the single element of a one-element result and is an object
    whose job_id field is the requested job id. *)
Theorem get_job_returns_requested_job (self : ElasticJobRegistry)
        (job_id backend : string) (fields : option (list string))
        (jobs job : Json) (st st' st'' : State World) :
  _backend_id self = Some backend -> backend <> "" ->
  _search self
    (JDict [ ("bool", JDict [ ("filter", JList
       [ JDict [ ("term", JDict [ ("backend_id", JStr backend) ]) ];
         JDict [ ("term", JDict [ ("job_id", JStr job_id) ]) ] ]) ]) ])
    (fields_or_all fields) st
  = (Return jobs, st') ->
  get_job self job_id fields st = (Return job, st'') ->
  Py.len jobs = Return 1%nat /\ Py.first jobs = Return job /\
  exists record, job = JDict record
                 /\ PyDict.get record "job_id" = Some (JStr job_id).
Proof.
  intros Hb Hne Hsearch.
  rewrite (get_job_after_search _ _ _ _ _ _ _ Hb Hne Hsearch).
  intros Hpick. apply get_job_pick_returns in Hpick. tauto.
Qed.

(** X11. When the search returns exactly one record and that record has no
    job_id field, get_job fails with a key error for job_id. *)
Theorem get_job_record_without_job_id (self : ElasticJobRegistry)
        (job_id backend : string) (fields : option (list string))
        (record : JobDict) (st st' : State World) :
  _backend_id self = Some backend -> backend <> "" ->
  _search self
    (JDict [ ("bool", JDict [ ("filter", JList
       [ JDict [ ("term", JDict [ ("backend_id", JStr backend) ]) ];
         JDict [ ("term", JDict [ ("job_id", JStr job_id) ]) ] ]) ]) ])
    (fields_or_all fields) st
  = (Return (JList [JDict record]), st') ->
  PyDict.get record "job_id" = None ->
  get_job self job_id fields st = (Raise (KeyError "job_id"), st').
Proof.
  intros Hb Hne Hsearch Hmissing.
  rewrite (get_job_after_search _ _ _ _ _ _ _ Hb Hne Hsearch).
  unfold bind, of_outcome, Py.len, Py.first, Py.getitem.
  cbn [length Nat.eqb]. rewrite Hmissing. reflexivity.
Qed.

End LookupFacts.

(** ** Changing the status *)

Section StatusFacts.
Context {runtime : PyRuntime} {World : Type} {externals : Externals World}.

Lemma datetime_or_utcnow_returns (x : option string) (st st1 : State World) stamp :
  datetime_or x (in_world utcnow) st = (Return stamp, st1) ->
  sent st1 = sent st /\
  match x with
  | Some u => if String.eqb u "" then stamp = fst (utcnow (world st))
              else rfc3339_datetime u = Return stamp
  | None => stamp = fst (utcnow (world st))
  end.
Proof.
  intros Hrun.
  pose proof (silent_datetime_or x (in_world utcnow) (silent_in_world utcnow) st) as Hs.
  rewrite Hrun in Hs. simpl in Hs. split; [exact Hs |].
  unfold datetime_or in Hrun.
  assert (Hnow : in_world utcnow st = (Return stamp, st1) ->
                 stamp = fst (utcnow (world st))).
  { unfold in_world. destruct (utcnow (world st)). intros [= <- _]. reflexivity. }
  destruct x as [u |]; [| auto].
  destruct (String.eqb u ""); [auto |].
  unfold of_outcome in Hrun. congruence.
Qed.

Lemma set_datetime_if_returns (x : option string) key data (st st' : State World) data' :
  set_datetime_if x key data st = (Return data', st') ->
  st' = st /\
  match x with
  | Some s => if String.eqb s "" then data' = data
              else exists v, rfc3339_datetime s = Return v
                             /\ data' = PyDict.set data key (JStr v)
  | None => data' = data
  end.
Proof.
  unfold set_datetime_if. destruct x as [s |].
  - destruct (String.eqb s "").
    + intros [= <- <-]. auto.
    + unfold bind, of_outcome, ret.
      destruct (rfc3339_datetime s) as [v | e]; [| discriminate].
      intros [= <- <-]. eauto.
  - intros [= <- <-]. auto.
Qed.

(** What the payload of set_status holds, when it is computed. *)
Lemma set_status_payload_returns job_id status updated started finished
      (st st1 : State World) data :
  payload (SetStatus job_id status updated started finished) st = (Return data, st1) ->
  sent st1 = sent st /\
  PyDict.get data "status" = Some (JStr status) /\
  (exists stamp,
      PyDict.get data "updated" = Some (JStr stamp) /\
      match updated with
      | Some u => if String.eqb u "" then stamp = fst (utcnow (world st))
                  else rfc3339_datetime u = Return stamp
      | None => stamp = fst (utcnow (world st))
      end) /\
  match started with
  | Some s => if String.eqb s "" then PyDict.get data "started" = None
              else exists v, rfc3339_datetime s = Return v
                             /\ PyDict.get data "started" = Some (JStr v)
  | None => PyDict.get data "started" = None
  end /\
  match finished with
  | Some s => if String.eqb s "" then PyDict.get data "finished" = None
              else exists v, rfc3339_datetime s = Return v
                             /\ PyDict.get data "finished" = Some (JStr v)
  | None => PyDict.get data "finished" = None
  end.
Proof.
  simpl. unfold bind at 1.
  destruct (datetime_or updated (in_world utcnow) st) as [[stamp | e] st0] eqn:E0;
    [| discriminate].
  apply datetime_or_utcnow_returns in E0 as [Hs0 Hstamp].
  unfold bind at 1.
  destruct (set_datetime_if started "started" _ st0) as [[d1 | e] st2] eqn:E1;
    [| discriminate].
  apply set_datetime_if_returns in E1 as [-> Hd1].
  intros E2. apply set_datetime_if_returns in E2 as [-> Hd2].
  split; [exact Hs0 |].
  assert (Hcases :
    (d1 = [ ("status", JStr status); ("updated", JStr stamp) ]
     \/ exists v, d1 = [ ("status", JStr status); ("updated", JStr stamp);
                         ("started", JStr v) ])).
  { destruct started as [s |]; [destruct (String.eqb s "") |]; auto.
    destruct Hd1 as (v & _ & ->). right. exists v. reflexivity. }
  assert (Hkeep : forall k, k <> "finished" -> PyDict.get data k = PyDict.get d1 k).
  { intros k Hk. destruct finished as [s |]; [destruct (String.eqb s "") |];
      try (subst data; reflexivity).
    destruct Hd2 as (v & _ & ->). apply dict_get_set_ne. congruence. }
  split; [| split; [| split]].
  - rewrite Hkeep by discriminate.
    destruct Hcases as [-> | (v & ->)]; reflexivity.
  - exists stamp. split; [| exact Hstamp].
    rewrite Hkeep by discriminate.
    destruct Hcases as [-> | (v & ->)]; reflexivity.
  - rewrite Hkeep by discriminate.
    destruct started as [s |]; [destruct (String.eqb s "") |];
      try (subst d1; reflexivity).
    destruct Hd1 as (v & Hv & ->). exists v. split; [exact Hv | reflexivity].
  - destruct finished as [s |]; [destruct (String.eqb s "") |].
    + subst data. destruct Hcases as [-> | (v & ->)]; reflexivity.
    + destruct Hd2 as (v & Hv & ->). exists v. split; [exact Hv |].
      apply dict_get_set_eq.
    + subst data. destruct Hcases as [-> | (v & ->)]; reflexivity.
Qed.

(** X12. set_status is the computation of its payload followed by
    [_update] on the job id.  The payload stores exactly the status given,
    whatever it is; its [updated] is the given time stamp as the RFC 3339
    formatter renders it, or the current time when none (or an empty one)
    is given; [started] and [finished] are there, rendered the same way,
    exactly when they are given and not empty.  Once the payload is there
    and the request headers are there, set_status hands exactly one
    request to the session, the PATCH of the job id with that payload. *)
Theorem set_status_payload (self : ElasticJobRegistry) (job_id status : string)
        (updated started finished : option string) (st : State World) :
  let prepare := payload (SetStatus job_id status updated started finished) in
  set_status self job_id status updated started finished st
  = bind prepare (_update self job_id) st /\
  (forall data st1,
      prepare st = (Return data, st1) ->
      PyDict.get data "status" = Some (JStr status) /\
      (exists stamp,
          PyDict.get data "updated" = Some (JStr stamp) /\
          match updated with
          | Some u => if String.eqb u "" then stamp = fst (utcnow (world st))
                      else rfc3339_datetime u = Return stamp
          | None => stamp = fst (utcnow (world st))
          end) /\
      match started with
      | Some s => if String.eqb s "" then PyDict.get data "started" = None
                  else exists v, rfc3339_datetime s = Return v
                                 /\ PyDict.get data "started" = Some (JStr v)
      | None => PyDict.get data "started" = None
      end /\
      match finished with
      | Some s => if String.eqb s "" then PyDict.get data "finished" = None
                  else exists v, rfc3339_datetime s = Return v
                                 /\ PyDict.get data "finished" = Some (JStr v)
      | None => PyDict.get data "finished" = None
      end /\
      forall headers st2,
        request_headers self true st1 = (Return headers, st2) ->
        sent (snd (set_status self job_id status updated started finished st))
        = (sent st ++ [ mkHttpRequest "PATCH"
                          (url_join (_api_url self) ("/jobs/" +:+ job_id))
                          (Some (JDict data)) headers 20 ])%list).
Proof.
  intros prepare. subst prepare.
  change (set_status self job_id status updated started finished st)
    with (run_mutation self (SetStatus job_id status updated started finished) st).
  split; [apply run_mutation_through_update |].
  intros data st1 Hp.
  pose proof (set_status_payload_returns _ _ _ _ _ _ _ _ Hp)
    as (_ & Hstatus & Hupdated & Hstarted & Hfinished).
  repeat (split; [assumption |]).
  intros headers st2 Hh.
  apply (run_mutation_sent _ _ _ _ _ _ _ Hp Hh).
Qed.

(** X13. When the RFC 3339 formatter rejects a time stamp that is given
    (not empty) as updated, started or finished, set_status raises and
    hands nothing to the HTTP session. *)
Theorem set_status_rejected_time_stamp (self : ElasticJobRegistry)
        (job_id status : string) (updated started finished : option string)
        (bad : string) (e : exn) (st : State World) :
  bad <> "" -> rfc3339_datetime bad = Raise e ->
  updated = Some bad \/ started = Some bad \/ finished = Some bad ->
  (exists e', fst (set_status self job_id status updated started finished st) = Raise e')
  /\ sent (snd (set_status self job_id status updated started finished st)) = sent st.
Proof.
  intros Hbad Hrej Hwhere.
  change (set_status self job_id status updated started finished st)
    with (run_mutation self (SetStatus job_id status updated started finished) st).
  rewrite run_mutation_through_update. unfold bind.
  pose proof (silent_payload (SetStatus job_id status updated started finished) st)
    as Hs.
  destruct (payload (SetStatus job_id status updated started finished) st)
    as [[data | e'] st1] eqn:E.
  - exfalso.
    apply set_status_payload_returns in E as (_ & _ & (stamp & _ & Hu) & Hst & Hfi).
    apply String.eqb_neq in Hbad.
    destruct Hwhere as [-> | [-> | ->]].
    + rewrite Hbad in Hu. congruence.
    + rewrite Hbad in Hst. destruct Hst as (v & Hv & _). congruence.
    + rewrite Hbad in Hfi. destruct Hfi as (v & Hv & _). congruence.
  - simpl in *. split; [eauto | exact Hs].
Qed.

End StatusFacts.

(** ** Credentials, further *)

Section CredentialMore.
Context {runtime : PyRuntime}.

Lemma starts_with_append p b : PyIn.starts_with p (p +:+ b) = true.
Proof.
  induction p as [| c p IH]; [reflexivity |].
  rewrite append_cons. simpl. rewrite Ascii.eqb_refl. exact IH.
Qed.

(** The test [contains] finds every occurrence. *)
Lemma contains_complete p s : PyStr.occurs_in p s -> PyIn.contains p s = true.
Proof.
  intros (a & b & ->). induction a as [| c a IH].
  - change ("" +:+ p +:+ b) with (p +:+ b).
    destruct (p +:+ b) eqn:E; simpl; rewrite <- E, starts_with_append; reflexivity.
  - rewrite append_cons. simpl. rewrite IH. apply orb_true_r.
Qed.

(** The message of the strict failure, for a given set of missing keys. *)
Lemma from_mapping_strict_failure (data : gmap string string) msg :
  Credentials.from_mapping data true = Raise (EjrError msg) ->
  msg = "Failed building ElasticJobRegistryCredentials from mapping: missing "
        +:+ Credentials.repr_set (Credentials.args ∖ dom data).
Proof.
  unfold Credentials.from_mapping, Credentials.getitem.
  destruct (data !! "oidc_issuer"); simpl obind;
    [destruct (data !! "client_id"); simpl obind;
     [destruct (data !! "client_secret"); simpl obind |] |];
    intros [= <-]; reflexivity.
Qed.

Lemma missing_keys (data : gmap string string) k :
  k ∈ Credentials.args ∖ dom data <-> k ∈ Credentials.args /\ data !! k = None.
Proof. rewrite elem_of_difference, not_elem_of_dom. reflexivity. Qed.

(** X14. When from_mapping fails in strict mode, its message names a
    required key, between quotes, exactly when the mapping lacks that key:
    every missing key is named and no key that is present is. *)
Theorem from_mapping_names_exactly_missing (data : gmap string string)
        (msg k : string) :
  Credentials.from_mapping data true = Raise (EjrError msg) ->
  k ∈ Credentials.args ->
  (PyStr.occurs_in ("'" +:+ k +:+ "'") msg <-> data !! k = None).
Proof.
  intros Hfail Hk. apply from_mapping_strict_failure in Hfail. split.
  - intros Hocc. destruct (data !! k) as [v |] eqn:Ek; [exfalso | reflexivity].
    apply contains_complete in Hocc.
    assert (Hset : exists S : gset string,
               Credentials.args ∖ dom data = S /\
               (S = {[ "oidc_issuer" ]} \/ S = {[ "client_id" ]}
                \/ S = {[ "client_secret" ]}
                \/ S = {[ "oidc_issuer"; "client_id" ]}
                \/ S = {[ "oidc_issuer"; "client_secret" ]}
                \/ S = {[ "client_id"; "client_secret" ]}
                \/ S = {[ "oidc_issuer"; "client_id"; "client_secret" ]}
                \/ S = ∅) /\
               k ∉ S).
    { exists (Credentials.args ∖ dom data). split; [reflexivity |]. split.
      - destruct (data !! "oidc_issuer") as [v1 |] eqn:E1;
          destruct (data !! "client_id") as [v2 |] eqn:E2;
          destruct (data !! "client_secret") as [v3 |] eqn:E3.
        all: match goal with
             | |- ?a \/ ?b => idtac
             end.
        all: first
          [ do 7 right; apply set_eq; intros x;
            rewrite missing_keys, args_keys, elem_of_empty;
            intuition (subst; congruence)
          | left; apply set_eq; intros x;
            rewrite missing_keys, args_keys, ?elem_of_union, ?elem_of_singleton;
            intuition (subst; auto; congruence)
          | do 1 right; left; apply set_eq; intros x;
            rewrite missing_keys, args_keys, ?elem_of_union, ?elem_of_singleton;
            intuition (subst; auto; congruence)
          | do 2 right; left; apply set_eq; intros x;
            rewrite missing_keys, args_keys, ?elem_of_union, ?elem_of_singleton;
            intuition (subst; auto; congruence)
          | do 3 right; left; apply set_eq; intros x;
            rewrite missing_keys, args_keys, ?elem_of_union, ?elem_of_singleton;
            intuition (subst; auto; congruence)
          | do 4 right; left; apply set_eq; intros x;
            rewrite missing_keys, args_keys, ?elem_of_union, ?elem_of_singleton;
            intuition (subst; auto; congruence)
          | do 5 right; left; apply set_eq; intros x;
            rewrite missing_keys, args_keys, ?elem_of_union, ?elem_of_singleton;
            intuition (subst; auto; congruence)
          | do 6 right; left; apply set_eq; intros x;
            rewrite missing_keys, args_keys, ?elem_of_union, ?elem_of_singleton;
            intuition (subst; auto; congruence) ].
      - rewrite missing_keys. intros [_ Hnone]. congruence. }
    destruct Hset as (S & HS & Hcases & Hout). rewrite HS in Hfail.
    apply args_keys in Hk.
    unfold Credentials.repr_set in Hfail.
    destruct Hcases as [-> | [-> | [-> | [-> | [-> | [-> | [-> | ->]]]]]]];
      match type of Hfail with
      | context [elements ?s] =>
          let l := eval vm_compute in (elements s) in
          change (elements s) with l in Hfail
      end;
      cbn [map PyStr.join] in Hfail;
      rewrite ?py_repr_plain in Hfail by reflexivity;
      subst msg;
      destruct Hk as [-> | [-> | ->]];
      first [ vm_compute in Hocc; discriminate
            | exfalso; apply Hout;
              rewrite ?elem_of_union, ?elem_of_singleton; auto ].
  - intros Hnone. subst msg. apply occurs_in_skip.
    apply repr_set_names.
    + apply missing_keys. auto.
    + apply args_keys in Hk. destruct Hk as [-> | [-> | ->]]; reflexivity.
Qed.

(** X15. Keys other than the three required ones make no difference to
    from_mapping: with such a key added to the mapping, the result, and in
    strict mode the error, is the same. *)
Theorem from_mapping_ignores_other_keys (data : gmap string string)
        (k v : string) (strict : bool) :
  k ∉ Credentials.args ->
  Credentials.from_mapping (<[k := v]> data) strict
  = Credentials.from_mapping data strict.
Proof.
  intros Hk.
  assert (Hne : k <> "oidc_issuer" /\ k <> "client_id" /\ k <> "client_secret").
  { rewrite args_keys in Hk. tauto. }
  destruct Hne as (H1 & H2 & H3).
  unfold Credentials.from_mapping, Credentials.getitem.
  rewrite !lookup_insert_ne by assumption.
  assert (Hmiss : Credentials.args ∖ dom (<[k := v]> data)
                  = Credentials.args ∖ dom data).
  { rewrite dom_insert_L. apply set_eq. intros x.
    rewrite !elem_of_difference, elem_of_union, elem_of_singleton.
    split; [tauto |]. intros [Hx Hn]. split; [exact Hx |].
    intros [-> | Hd]; tauto. }
  rewrite Hmiss. reflexivity.
Qed.

(** X16. from_env reads the process environment only when it is given no
    environment or an empty one: with a mapping that is not empty the
    process environment makes no difference, and an empty mapping gives
    what no mapping gives, so that credentials found in the process
    environment are returned even though the mapping given has none. *)
Theorem from_env_reads_process_environment_by_default
        (os_environ : gmap string string) (strict : bool) :
  (forall env other, env <> ∅ ->
      Credentials.from_env os_environ (Some env) strict
      = Credentials.from_env other (Some env) strict) /\
  Credentials.from_env os_environ (Some ∅) strict
  = Credentials.from_env os_environ None strict /\
  (forall i c s,
      os_environ !! "OPENEO_EJR_OIDC_ISSUER" = Some i ->
      os_environ !! "OPENEO_EJR_OIDC_CLIENT_ID" = Some c ->
      os_environ !! "OPENEO_EJR_OIDC_CLIENT_SECRET" = Some s ->
      Credentials.from_env os_environ (Some ∅) strict
      = Return (Some (mkCredentials i c s))).
Proof.
  split; [| split].
  - intros env other Hne. unfold Credentials.from_env, Credentials.effective_env.
    destruct (decide (env = ∅)); [contradiction | reflexivity].
  - reflexivity.
  - intros i c s E1 E2 E3.
    unfold Credentials.from_env, Credentials.effective_env, Credentials.getitem.
    destruct (decide ((∅ : gmap string string) = ∅)); [| contradiction].
    rewrite E1, E2, E3. reflexivity.
Qed.

End CredentialMore.

(** ** The command line tool *)

Section CliFacts.
Context {runtime : PyRuntime} {World : Type} {externals : Externals World}
        {cli : CliApp.CliRuntime World}.

Lemma then_failed {A B} (m : CliApp.C World A) (k : A -> CliApp.C World B) st e st' :
  m st = (CliApp.Failed e, st') -> CliApp.then_ m k st = (CliApp.Failed e, st').
Proof. intros H. unfold CliApp.then_. rewrite H. reflexivity. Qed.

Lemma then_done {A B} (m : CliApp.C World A) (k : A -> CliApp.C World B) st a st' :
  m st = (CliApp.Done a, st') -> CliApp.then_ m k st = k a st'.
Proof. intros H. unfold CliApp.then_. rewrite H. reflexivity. Qed.

(** Every command starts by building its registry. *)
Lemma run_command_starts environ (c : Command) :
  exists k : ElasticJobRegistry -> CliApp.C World (list string),
    forall st,
      run_command environ c st
      = CliApp.then_ (CliApp._get_job_registry environ (backend_argument c)
                        (needs_credentials c)) k st.
Proof. destruct c; eexists; intros st; reflexivity. Qed.

(** The [User-Agent] of a registry with a backend id. *)
Lemma user_agent_backend (b : string) :
  b <> "" ->
  user_agent (Some b) = "openeo_driver-" +:+ __version__ +:+ "/ElasticJobRegistry/" +:+ b.
Proof.
  intros Hb. unfold user_agent.
  destruct (String.eqb_spec b ""); [contradiction |].
  rewrite !append_assoc. reflexivity.
Qed.

Lemma backend_or_test_cli_given (backend_id : option string) :
  CliApp.backend_or_test_cli backend_id
  = match backend_id with
    | Some given => if String.eqb given "" then "test_cli" else given
    | None => "test_cli"
    end
  /\ CliApp.backend_or_test_cli backend_id <> "".
Proof.
  unfold CliApp.backend_or_test_cli. destruct backend_id as [given |].
  - destruct (String.eqb_spec given ""); split; auto; discriminate.
  - split; [reflexivity | discriminate].
Qed.

(** What [_get_job_registry] does, case by case. *)
Lemma get_job_registry_run environ backend_id setup_auth (st : State World) :
  let base := mkRegistry (default CliApp.default_api_url (environ !! "OPENEO_EJR_API"))
                (Some (CliApp.backend_or_test_cli backend_id)) None in
  let path := default CliApp.default_vault_path
                (environ !! "OPENEO_EJR_CREDENTIALS_VAULT_PATH") in
  let w0 := session_set_header "User-Agent"
              (user_agent (Some (CliApp.backend_or_test_cli backend_id))) (world st) in
  CliApp._get_job_registry environ backend_id setup_auth st
  = if setup_auth then
      if CliApp.hvac_installed then
        let '(reply, w) :=
          CliApp.read_secret_version (environ !! "VAULT_ADDR") path w0 in
        match reply with
        | CliApp.Secret data =>
            match Credentials.from_mapping data true with
            | Return (Some credentials) =>
                let '(o, w') := oidc_provider_info (oidc_issuer credentials) w in
                (match o with
                 | Return _ =>
                     CliApp.Done
                       (mkRegistry (_api_url base) (_backend_id base)
                          (Some (mkAuthenticator (oidc_issuer credentials)
                                   (client_id credentials) (client_secret credentials))))
                 | Raise e => CliApp.Failed (CliApp.Raised e)
                 end,
                 mkState w' ∅ (session st ++ [OidcDiscovery (oidc_issuer credentials)]))
            | Return None =>
                (CliApp.Failed (CliApp.Raised AttributeError), mkState w ∅ (session st))
            | Raise e => (CliApp.Failed (CliApp.Raised e), mkState w ∅ (session st))
            end
        | CliApp.Forbidden detail =>
            (CliApp.Failed (CliApp.RuntimeError
               ("No permissions to read EJR credentials from vault: " +:+ detail
                +:+ ". Make sure `hvac.Client` can find a valid vault token"
                +:+ " through environment variable `VAULT_TOKEN`"
                +:+ " or local file `~/.vault-token` (e.g. created with `vault login -method=ldap username=john`).")),
             mkState w ∅ (session st))
        | CliApp.VaultFailure e =>
            (CliApp.Failed (CliApp.Raised e), mkState w ∅ (session st))
        end
      else
        (CliApp.Failed (CliApp.RuntimeError
           "Package `hvac` (HashiCorp Vault client) is required for this functionality"),
         mkState w0 ∅ (session st))
    else (CliApp.Done base, mkState w0 ∅ (session st)).
Proof.
  intros base path w0.
  subst base path w0. destruct st as [w0 c0 s0].
  cbv beta iota zeta delta [CliApp._get_job_registry CliApp.then_ CliApp.call
    CliApp.done CliApp.fail of_outcome __init__ setup_auth_oidc_client_credentials
    use_session bind ret world cache session _api_url _backend_id].
  destruct setup_auth; [| reflexivity].
  destruct CliApp.hvac_installed; [| reflexivity].
  destruct (CliApp.read_secret_version _ _ _) as [reply w].
  destruct reply as [data | detail | e]; try reflexivity.
  destruct (Credentials.from_mapping data true) as [[credentials |] | e];
    try reflexivity.
  destruct (oidc_provider_info _ w) as [[[] | e] w']; reflexivity.
Qed.

(** X17. Every registry that a command of the tool builds has a backend id
    that is not empty, the one given or [test_cli] when none (or an empty
    one) is given; its URL is the environment's OPENEO_EJR_API or the
    default one; it starts with an empty token cache; and its session has
    got the User-Agent header that ends in the backend id.  Without set-up
    of authentication the registry has no authenticator, and nothing else
    was done, neither to the world nor with the session.  With set-up of
    authentication the vault client is installed and gave a secret with
    the three credentials, the registry's authenticator is made of them,
    and the session was used once, by the OIDC client library, for the
    provider information of the issuer. *)
Theorem cli_registry_settings environ (backend_id : option string) (setup_auth : bool)
        (st st' : State World) (ejr : ElasticJobRegistry) :
  CliApp._get_job_registry environ backend_id setup_auth st = (CliApp.Done ejr, st') ->
  let b := match backend_id with
           | Some given => if String.eqb given "" then "test_cli" else given
           | None => "test_cli"
           end in
  let w0 := session_set_header "User-Agent"
              ("openeo_driver-" +:+ __version__ +:+ "/ElasticJobRegistry/" +:+ b)
              (world st) in
  _backend_id ejr = Some b /\ b <> "" /\
  _api_url ejr = match environ !! "OPENEO_EJR_API" with
                 | Some api_url => api_url
                 | None => "https://jobregistry.openeo.vito.be"
                 end /\
  cache st' = ∅ /\
  (setup_auth = false ->
     _authenticator ejr = None /\ world st' = w0 /\ session st' = session st) /\
  (setup_auth = true ->
     CliApp.hvac_installed = true /\
     exists data w1 credentials,
       CliApp.read_secret_version (environ !! "VAULT_ADDR")
         (default "TAP/big_data_services/openeo/openeo-job-registry-elastic-api"
            (environ !! "OPENEO_EJR_CREDENTIALS_VAULT_PATH")) w0
       = (CliApp.Secret data, w1) /\
       Credentials.from_mapping data true = Return (Some credentials) /\
       oidc_provider_info (oidc_issuer credentials) w1 = (Return tt, world st') /\
       _authenticator ejr
       = Some (mkAuthenticator (oidc_issuer credentials) (client_id credentials)
                 (client_secret credentials)) /\
       session st' = (session st ++ [OidcDiscovery (oidc_issuer credentials)])%list).
Proof.
  intros Hrun b w0.
  destruct (backend_or_test_cli_given backend_id) as [Hb Hne].
  fold b in Hb.
  assert (Hurl : default CliApp.default_api_url (environ !! "OPENEO_EJR_API")
                 = match environ !! "OPENEO_EJR_API" with
                   | Some api_url => api_url
                   | None => "https://jobregistry.openeo.vito.be"
                   end).
  { destruct (environ !! "OPENEO_EJR_API"); reflexivity. }
  rewrite get_job_registry_run in Hrun. cbv zeta in Hrun.
  rewrite user_agent_backend in Hrun by exact Hne.
  rewrite Hb in Hrun, Hne. fold w0 in Hrun.
  change CliApp.default_vault_path
    with "TAP/big_data_services/openeo/openeo-job-registry-elastic-api" in Hrun.
  destruct setup_auth.
  - destruct CliApp.hvac_installed; [| discriminate].
    destruct (CliApp.read_secret_version _ _ _) as [[data | detail | e] w1] eqn:Hread;
      try discriminate.
    destruct (Credentials.from_mapping data true) as [[credentials |] | e] eqn:Hcred;
      try discriminate.
    destruct (oidc_provider_info _ _) as [[[] | e] w'] eqn:Hinfo; try discriminate.
    injection Hrun as <- <-. cbn [_backend_id _api_url _authenticator cache world session].
    rewrite Hurl.
    split; [reflexivity |]. split; [exact Hne |]. split; [reflexivity |].
    split; [reflexivity |]. split; [discriminate |].
    intros _. split; [reflexivity |].
    exists data, w1, credentials. auto 6.
  - injection Hrun as <- <-. cbn [_backend_id _api_url _authenticator cache world session].
    rewrite Hurl.
    split; [reflexivity |]. split; [exact Hne |]. split; [reflexivity |].
    split; [reflexivity |]. split; [auto | discriminate].
Qed.

(** X18. The health command without authentication reads no vault and needs
    no token: the session is used exactly once, for a GET of /health under
    the registry's URL without any header; after the registry gave the
    session its User-Agent header, nothing but that request touches the
    world; when the answer has status 200 and a body that decodes, the
    command prints that value. *)
Theorem cli_health_without_auth environ (st : State World) :
  let r := mkHttpRequest "GET"
             (url_join (default "https://jobregistry.openeo.vito.be"
                          (environ !! "OPENEO_EJR_API")) "/health")
             None [] 20 in
  let w0 := session_set_header "User-Agent"
              ("openeo_driver-" +:+ __version__ +:+ "/ElasticJobRegistry/test_cli")
              (world st) in
  let out := CliApp.health_check environ false st in
  sent (snd out) = (sent st ++ [r])%list /\
  session (snd out) = (session st ++ [Request r])%list /\
  world (snd out) = snd (session_request r w0) /\
  (forall response w v,
      session_request r w0 = (Return response, w) ->
      status_code response = 200 ->
      json_loads (text response) = Return v ->
      fst out = CliApp.Done [CliApp.py_str v]).
Proof.
  intros r w0 out. subst out. unfold CliApp.health_check.
  pose proof (get_job_registry_run environ None false st) as Hbuild.
  cbv zeta in Hbuild. rewrite user_agent_backend in Hbuild by discriminate.
  change (CliApp.backend_or_test_cli None) with "test_cli" in Hbuild.
  change ("openeo_driver-" +:+ __version__ +:+ "/ElasticJobRegistry/" +:+ "test_cli")
    with ("openeo_driver-" +:+ __version__ +:+ "/ElasticJobRegistry/test_cli")
    in Hbuild.
  fold w0 in Hbuild.
  rewrite (then_done _ _ _ _ _ Hbuild).
  set (st0 := mkState w0 ∅ (session st)).
  unfold health_check, CliApp.then_, CliApp.call.
  destruct (session_request r w0) as [o w] eqn:Hs.
  change w0 with (world st0) in Hs.
  rewrite (do_request_run
             (mkRegistry (default CliApp.default_api_url (environ !! "OPENEO_EJR_API"))
                (Some "test_cli") None)
             "GET" "/health" None false (Some 200) st0 st0 [] o w eq_refl Hs).
  simpl.
  assert (Hleaf : forall (x : outcome Json) (st1 : State World),
             snd (let (r0, st') :=
                    match x with
                    | Return a => (CliApp.Done a, st1)
                    | Raise e => (CliApp.Failed (CliApp.Raised e), st1)
                    end in
                  match r0 with
                  | CliApp.Done a => CliApp.done [CliApp.py_str a] st'
                  | CliApp.Failed e => (CliApp.Failed e, st')
                  end) = st1).
  { intros [a | e] st1; reflexivity. }
  rewrite Hleaf.
  split; [apply (sent_use st) |]. split; [reflexivity |]. split; [reflexivity |].
  intros response w1 v [= -> ->] Hstatus Hbody.
  rewrite bool_decide_eq_true_2 by congruence. simpl.
  unfold raise_for_status. rewrite Hstatus. simpl. rewrite Hbody. reflexivity.
Qed.

(** X19. When the secret read from the vault lacks one of the three
    credential keys, every command that sets up authentication fails with
    the registry's error, whose message names every missing key, and
    nothing is done with the HTTP session: no request of the registry, no
    call of the OIDC client library. *)
Theorem cli_incomplete_secret environ (c : Command) (st : State World)
        (data : gmap string string) (w : World) :
  needs_credentials c = true ->
  CliApp.hvac_installed = true ->
  CliApp.read_secret_version (environ !! "VAULT_ADDR")
    (default "TAP/big_data_services/openeo/openeo-job-registry-elastic-api"
       (environ !! "OPENEO_EJR_CREDENTIALS_VAULT_PATH"))
    (session_set_header "User-Agent"
       (user_agent (Some (CliApp.backend_or_test_cli (backend_argument c))))
       (world st))
  = (CliApp.Secret data, w) ->
  Credentials.args ∖ dom data <> ∅ ->
  exists msg,
    fst (run_command environ c st) = CliApp.Failed (CliApp.Raised (EjrError msg)) /\
    (forall k, k ∈ Credentials.args ∖ dom data ->
               PyStr.occurs_in ("'" +:+ k +:+ "'") msg) /\
    sent (snd (run_command environ c st)) = sent st /\
    session (snd (run_command environ c st)) = session st.
Proof.
  intros Hneeds Hhvac Hread Hmiss.
  destruct (run_command_starts environ c) as [k Hk]. rewrite Hk, Hneeds.
  pose proof (get_job_registry_run environ (backend_argument c) true st) as Hrun.
  cbv zeta in Hrun. rewrite Hhvac in Hrun.
  change CliApp.default_vault_path
    with "TAP/big_data_services/openeo/openeo-job-registry-elastic-api" in Hrun.
  rewrite Hread in Hrun.
  apply (three_keys data _ _ _ _ args_keys) in Hmiss as Hnone.
  assert (Hfail : Credentials.from_mapping data true
                  = Raise (EjrError ("Failed building " +:+ Credentials.__name__
                                     +:+ " from mapping: missing "
                                     +:+ Credentials.repr_set
                                           (Credentials.args ∖ dom data)))).
  { unfold Credentials.from_mapping, Credentials.getitem.
    destruct (data !! "oidc_issuer"); simpl; [| auto].
    destruct (data !! "client_id"); simpl; [| auto].
    destruct (data !! "client_secret"); simpl; [| auto].
    destruct Hnone as [? | [? | ?]]; discriminate. }
  rewrite Hfail in Hrun.
  rewrite (then_failed _ _ _ _ _ Hrun). simpl.
  eexists. split; [reflexivity |]. split; [| split; reflexivity].
  intros key Hkey. do 3 apply occurs_in_skip.
  apply repr_set_names; [exact Hkey |].
  apply elem_of_difference in Hkey as [Hkey _]. apply args_keys in Hkey.
  destruct Hkey as [-> | [-> | ->]]; reflexivity.
Qed.

(** X20. When the vault client is not installed, or the vault forbids the
    read, every command that sets up authentication fails with a runtime
    error (in the second case one that quotes the vault's answer) and
    nothing is done with the HTTP session but to give it the User-Agent
    header. *)
Theorem cli_vault_not_readable environ (c : Command) (st : State World) :
  needs_credentials c = true ->
  let w0 := session_set_header "User-Agent"
              (user_agent (Some (CliApp.backend_or_test_cli (backend_argument c))))
              (world st) in
  (CliApp.hvac_installed = false ->
     fst (run_command environ c st)
     = CliApp.Failed (CliApp.RuntimeError
         "Package `hvac` (HashiCorp Vault client) is required for this functionality")
     /\ snd (run_command environ c st) = mkState w0 ∅ (session st)) /\
  (forall detail w,
     CliApp.hvac_installed = true ->
     CliApp.read_secret_version (environ !! "VAULT_ADDR")
       (default "TAP/big_data_services/openeo/openeo-job-registry-elastic-api"
          (environ !! "OPENEO_EJR_CREDENTIALS_VAULT_PATH"))
       w0 = (CliApp.Forbidden detail, w) ->
     (exists msg, fst (run_command environ c st)
                  = CliApp.Failed (CliApp.RuntimeError msg)
                  /\ PyStr.occurs_in detail msg) /\
     sent (snd (run_command environ c st)) = sent st /\
     session (snd (run_command environ c st)) = session st).
Proof.
  intros Hneeds w0.
  destruct (run_command_starts environ c) as [k Hk]. rewrite !Hk, Hneeds.
  pose proof (get_job_registry_run environ (backend_argument c) true st) as Hrun.
  cbv zeta in Hrun. fold w0 in Hrun. split.
  - intros Hhvac. rewrite Hhvac in Hrun.
    rewrite (then_failed _ _ _ _ _ Hrun). auto.
  - intros detail w Hhvac Hread. rewrite Hhvac in Hrun.
    change CliApp.default_vault_path
      with "TAP/big_data_services/openeo/openeo-job-registry-elastic-api" in Hrun.
    rewrite Hread in Hrun.
    rewrite (then_failed _ _ _ _ _ Hrun). simpl.
    split; [| split; reflexivity]. eexists. split; [reflexivity |]. occurs.
Qed.

End CliFacts.

(** ** The create command *)

Section CreateCommandFacts.
Context {runtime : PyRuntime} {World : Type} {externals : Externals World}
        {cli : CliApp.CliRuntime World}.







(** X22. Whenever the --process-graph argument decodes to a JSON object,
    the process of the dummy job is an object with the key process_graph:
    the decoded object itself when it has that key, otherwise the decoded
    object put under that key.  Doing it twice changes nothing: an
    argument that decodes to the process made is passed on as it is. *)
Theorem cli_dummy_process_has_process_graph (text : string) (object : JobDict) :
  text <> "" ->
  json_loads text = Return (JDict object) ->
  exists process : JobDict,
    CliApp.dummy_process (Some text) = Return (JDict process) /\
    (exists graph, PyDict.get process "process_graph" = Some graph) /\
    match PyDict.get object "process_graph" with
    | Some _ => process = object
    | None => process = [ ("process_graph", JDict object) ]
    end /\
    (forall again, again <> "" -> json_loads again = Return (JDict process) ->
                   CliApp.dummy_process (Some again) = Return (JDict process)).
Proof.
  intros Hne Hdecode.
  assert (Hrun : forall t d, t <> "" -> json_loads t = Return (JDict d) ->
             CliApp.dummy_process (Some t)
             = Return (match PyDict.get d "process_graph" with
                       | Some _ => JDict d
                       | None => JDict [ ("process_graph", JDict d) ]
                       end)).
  { intros t d Ht Hd. unfold CliApp.dummy_process.
    destruct (String.eqb_spec t ""); [contradiction |].
    rewrite Hd. simpl. destruct (PyDict.get d "process_graph"); reflexivity. }
  rewrite (Hrun _ _ Hne Hdecode).
  destruct (PyDict.get object "process_graph") as [graph |] eqn:Hg.
  - exists object. split; [reflexivity |]. split; [eauto |]. split; [reflexivity |].
    intros again Ha Hd. rewrite (Hrun _ _ Ha Hd), Hg. reflexivity.
  - eexists. split; [reflexivity |]. split; [simpl; eauto |]. split; [reflexivity |].
    intros again Ha Hd. rewrite (Hrun _ _ Ha Hd). reflexivity.
Qed.

End CreateCommandFacts.

(** ** Further runs on the test double *)

Section MoreRuns.

Import Double.

#[local] Existing Instance sample.
#[local] Existing Instance externals.

(** A registry that was never given credentials. *)
Lemma do_request_without_authentication_witness :
  fst (_do_request (mkRegistry "https://ejr.test" (Some "unittests") None)
         "GET" "/health" None true (Some 200) (start []))
  = Raise (EjrError "No authentication set up").
Proof.
  apply (do_request_without_authentication
           (mkRegistry "https://ejr.test" (Some "unittests") None)
           "GET" "/health" None (Some 200) (start [])); reflexivity.
Defined.

(** A session that has nothing to answer: the connection error comes out. *)
Lemma do_request_propagates_transport_error_witness :
  fst (_do_request registry "GET" "/health" None false (Some 200) (start []))
  = Raise (ExternalError "ConnectionError").
Proof.
  apply (do_request_propagates_transport_error registry "GET" "/health" None false
           (Some 200) (start []) (start []) [] (ExternalError "ConnectionError")
           (world (start []))); reflexivity.
Defined.

(** A registry without a backend id cannot create a job. *)
Lemma backend_id_is_required_witness :
  fst (create_job (mkRegistry "https://ejr.test" None None) alice_job
         (start [reply 201 "Created" "{}"]))
  = Raise (AssertionError "").
Proof.
  destruct (backend_id_is_required (mkRegistry "https://ejr.test" None None))
    as [Hcreate _]; [left; reflexivity |].
  apply Hcreate.
Defined.

(** A store that answers the search with a 500. *)
Lemma fetch_search_failure_is_http_error_witness :
  fst (get_job registry "j-1" None (start [reply 500 "Internal Server Error" "oops"]))
  = Raise (EjrHttpError
      "EJR API error: 500 'Internal Server Error' on `POST 'https://ejr.test/jobs/search'`: oops"
      (Some 500)).
Proof.
  pose (st := start [reply 500 "Internal Server Error" "oops"]).
  transitivity (Raise (A := Json) (EjrHttpError.from_response
     (mkResponse 500 "Internal Server Error" "oops"
        (mkPreparedRequest "POST" "https://ejr.test/jobs/search"))));
    [| vm_compute; reflexivity].
  change (fst (run_fetch registry (GetJob "j-1" None) st)
          = Raise (EjrHttpError.from_response
              (mkResponse 500 "Internal Server Error" "oops"
                 (mkPreparedRequest "POST" "https://ejr.test/jobs/search")))).
  apply (fetch_search_failure_is_http_error registry (GetJob "j-1" None)
             "unittests" st (snd (request_headers registry true st))
             [("Authorization", "Bearer t0k3n")]
             (mkResponse 500 "Internal Server Error" "oops"
                (mkPreparedRequest "POST" "https://ejr.test/jobs/search"))
             (mkWorld "2024-01-01T00:00:00Z" 1000 0 (Return "t0k3n") [] [])).
  - reflexivity.
  - discriminate.
  - vm_compute. reflexivity.
  - intros r Hr. vm_compute in Hr. injection Hr as <-. vm_compute. reflexivity.
  - discriminate.
Defined.

(** The one record found is the one returned, and it has the job id. *)
Lemma get_job_returns_requested_job_witness :
  exists record,
    fst (get_job registry "j-1" None (start [reply 200 "OK" "[j-1]"]))
    = Return (JDict record)
    /\ PyDict.get record "job_id" = Some (JStr "j-1").
Proof.
  pose (st := start [reply 200 "OK" "[j-1]"]).
  destruct (get_job_returns_requested_job registry "j-1" "unittests" None
              (JList [JDict (job "j-1")]) (JDict (job "j-1")) st
              (snd (_search registry (get_job_query "unittests" "j-1")
                      (fields_or_all None) st))
              (snd (get_job registry "j-1" None st)))
    as (_ & _ & record & Hrecord & Hid).
  - reflexivity.
  - discriminate.
  - vm_compute. reflexivity.
  - vm_compute. reflexivity.
  - exists record. split; [| exact Hid]. rewrite <- Hrecord. vm_compute. reflexivity.
Defined.

(** A record without a job id. *)
Lemma get_job_record_without_job_id_witness :
  fst (get_job (runtime := runtime [("[{}]", JList [JDict []])])
         registry "j-1" None (start [reply 200 "OK" "[{}]"]))
  = Raise (KeyError "job_id").
Proof.
  pose (st := start [reply 200 "OK" "[{}]"]).
  rewrite (get_job_record_without_job_id
             (runtime := runtime [("[{}]", JList [JDict []])])
             registry "j-1" "unittests" None [] st
             (snd (_search (runtime := runtime [("[{}]", JList [JDict []])])
                     registry (get_job_query "unittests" "j-1")
                     (fields_or_all None) st))).
  - reflexivity.
  - reflexivity.
  - discriminate.
  - vm_compute. reflexivity.
  - reflexivity.
Defined.

(** A time stamp the formatter rejects. *)
Lemma set_status_rejected_time_stamp_witness :
  sent (snd (set_status (runtime := StrictDouble.runtime) registry "j-1" "running"
               None (Some "yesterday") None (start [reply 200 "OK" "{}"])))
  = [].
Proof.
  destruct (set_status_rejected_time_stamp (runtime := StrictDouble.runtime)
              registry "j-1" "running" None (Some "yesterday") None
              "yesterday" (ExternalError "ValueError")
              (start [reply 200 "OK" "{}"])) as [_ Hsent].
  - discriminate.
  - reflexivity.
  - right. left. reflexivity.
  - exact Hsent.
Defined.

(** A mapping with the client id alone: the message names the issuer, not
    the client id. *)
Lemma from_mapping_names_exactly_missing_witness :
  exists msg,
    Credentials.from_mapping {[ "client_id" := "c-123" ]} true = Raise (EjrError msg)
    /\ PyStr.occurs_in "'oidc_issuer'" msg
    /\ ~ PyStr.occurs_in "'client_id'" msg.
Proof.
  assert (Hfail : exists msg,
             Credentials.from_mapping {[ "client_id" := "c-123" ]} true
             = Raise (EjrError msg))
    by (eexists; vm_compute; reflexivity).
  destruct Hfail as [msg Hfail]. exists msg. split; [exact Hfail |]. split.
  - apply (from_mapping_names_exactly_missing {[ "client_id" := "c-123" ]}
             msg "oidc_issuer" Hfail).
    + vm_compute. reflexivity.
    + reflexivity.
  - intros Hocc.
    apply (from_mapping_names_exactly_missing {[ "client_id" := "c-123" ]}
             msg "client_id" Hfail) in Hocc.
    + discriminate.
    + vm_compute. reflexivity.
Defined.

(** A secret with a field more. *)
Lemma from_mapping_ignores_other_keys_witness :
  Credentials.from_mapping (<[ "lease" := "3600" ]> CliDouble.secret) true
  = Return (Some (mkCredentials "https://oidc.test" "client" "s3cr3t")).
Proof.
  rewrite (from_mapping_ignores_other_keys CliDouble.secret "lease" "3600" true).
  - vm_compute. reflexivity.
  - intros Hin. apply args_keys in Hin.
    destruct Hin as [H | [H | H]]; discriminate.
Defined.

(** With no token in the cache, an operation works with the session
    twice: the authenticator for the token, the registry for its request. *)
Example cold_cache_two_uses :
  session (snd (remove_dependencies registry "j-1" (start [reply 200 "OK" "{}"])))
  = [ OidcTokens (mkAuthenticator "https://oidc.test" "client" "s3cr3t");
      Request (mkHttpRequest "PATCH" "https://ejr.test/jobs/j-1"
                 (Some (JDict [ ("dependencies", JNull); ("dependency_status", JNull) ]))
                 [("Authorization", "Bearer t0k3n")] 20) ].
Proof. vm_compute. reflexivity. Qed.

(** A clearing of dependencies with no token in the cache: one call of the
    authenticator, one request. *)
Lemma operation_sends_one_api_call_witness :
  exists tokens calls,
    session (snd (run_operation registry (Mutate (RemoveDependencies "j-1"))
                    (start [reply 200 "OK" "{}"])))
    = (tokens ++ calls)%list
    /\ tokens = [OidcTokens (mkAuthenticator "https://oidc.test" "client" "s3cr3t")]
    /\ map (fun u => match u with
                     | Request r => Some (method r, url r, timeout r)
                     | _ => None
                     end) calls
       = [Some ("PATCH", "https://ejr.test/jobs/j-1", 20)].
Proof.
  pose (st := start [reply 200 "OK" "{}"]).
  destruct (operation_sends_one_api_call registry (Mutate (RemoveDependencies "j-1")) st)
    as (tokens & calls & Hs & Ht & Hc).
  assert (Hrun : session (snd (run_operation registry (Mutate (RemoveDependencies "j-1"))
                                 st))
                 = [ OidcTokens (mkAuthenticator "https://oidc.test" "client" "s3cr3t");
                     Request (mkHttpRequest "PATCH" "https://ejr.test/jobs/j-1"
                                (Some (JDict [ ("dependencies", JNull);
                                               ("dependency_status", JNull) ]))
                                [("Authorization", "Bearer t0k3n")] 20) ])
    by (vm_compute; reflexivity).
  exists tokens, calls. fold st. rewrite Hs in Hrun.
  change (session st) with (@nil SessionUse) in Hs, Hrun. cbn [app] in Hs, Hrun.
  split; [exact Hs |].
  destruct Ht as [-> | (authenticator & _ & ->)];
    destruct Hc as [-> | (r & -> & _)]; try discriminate Hrun.
  injection Hrun as -> ->. split; reflexivity.
Defined.

(** A registry without a backend id sets the proxy user all the same. *)
Lemma mutation_needs_no_backend_id_witness :
  sent (snd (set_proxy_user
               (mkRegistry "https://ejr.test" None
                  (Some (mkAuthenticator "https://oidc.test" "client" "s3cr3t")))
               "j-1" "bob" (start [reply 200 "OK" "{}"])))
  = [ mkHttpRequest "PATCH" "https://ejr.test/jobs/j-1"
        (Some (JDict [ ("proxy_user", JStr "bob") ]))
        [("Authorization", "Bearer t0k3n")] 20 ].
Proof.
  pose (st := start [reply 200 "OK" "{}"]).
  pose (self := mkRegistry "https://ejr.test" None
                  (Some (mkAuthenticator "https://oidc.test" "client" "s3cr3t"))).
  destruct (mutation_needs_no_backend_id self (SetProxyUser "j-1" "bob") st st
              (snd (request_headers self true st))
              [ ("proxy_user", JStr "bob") ] [("Authorization", "Bearer t0k3n")])
    as (_ & _ & Hsent & _).
  - reflexivity.
  - vm_compute. reflexivity.
  - exact Hsent.
Defined.

(** get_job without a field list asks for everything: the wildcard and the
    five basic fields, each once, and no other field. *)
Lemma fetch_projection_is_exact_witness :
  exists query source,
    map json (sent (snd (get_job registry "j-1" None (start [reply 200 "OK" "[j-1]"]))))
    = [ Some (JDict [ ("query", query); ("_source", JList (map JStr source)) ]) ]
    /\ List.NoDup source /\ In "*" source /\ In "job_id" source /\ ~ In "title" source.
Proof.
  pose (st := start [reply 200 "OK" "[j-1]"]).
  pose proof (fetch_projection_is_exact registry (GetJob "j-1" None)) as Hexact.
  cbv zeta in Hexact. destruct Hexact as [_ Hsent].
  destruct (Hsent "unittests" st (snd (request_headers registry true st))
              [("Authorization", "Bearer t0k3n")])
    as (query & source & Hs & Hnodup & Hin);
    [reflexivity | discriminate | vm_compute; reflexivity |].
  exists query, source.
  change (get_job registry "j-1" None (start [reply 200 "OK" "[j-1]"]))
    with (run_fetch registry (GetJob "j-1" None) st).
  rewrite Hs. split; [reflexivity |].
  split; [exact Hnodup |].
  split; [apply Hin; simpl; tauto |].
  split; [apply Hin; simpl; tauto |].
  intros Htitle. apply Hin in Htitle. simpl in Htitle.
  intuition discriminate.
Defined.

(** The two lookups on the double: the queries that are sent. *)
Lemma lookups_filter_by_backend_and_id_witness :
  (exists source,
     map json (sent (snd (get_job registry "j-1" None (start [reply 200 "OK" "[j-1]"]))))
     = [ Some (JDict [ ("query", get_job_query "unittests" "j-1");
                       ("_source", JList (map JStr source)) ]) ]) /\
  (exists source,
     map json (sent (snd (list_user_jobs registry None None
                            (start [reply 200 "OK" "[]"]))))
     = [ Some (JDict
           [ ("query", JDict [ ("bool", JDict [ ("filter", JList
               [ JDict [ ("term", JDict [ ("backend_id", JStr "unittests") ]) ];
                 JDict [ ("term", JDict [ ("user_id", JNull) ]) ] ]) ]) ]);
             ("_source", JList (map JStr source)) ]) ]).
Proof.
  split.
  - pose (st := start [reply 200 "OK" "[j-1]"]).
    pose proof (lookups_filter_by_backend_and_id registry "j-1" None None) as Hq.
    cbv zeta in Hq. destruct Hq as (_ & _ & Hsent).
    destruct (Hsent "unittests" st (snd (request_headers registry true st))
                [("Authorization", "Bearer t0k3n")])
      as [(source & Hs) _];
      [reflexivity | discriminate | vm_compute; reflexivity |].
    exists source. fold st. rewrite Hs. reflexivity.
  - pose (st := start [reply 200 "OK" "[]"]).
    pose proof (lookups_filter_by_backend_and_id registry "j-1" None None) as Hq.
    cbv zeta in Hq. destruct Hq as (_ & _ & Hsent).
    destruct (Hsent "unittests" st (snd (request_headers registry true st))
                [("Authorization", "Bearer t0k3n")])
      as [_ (source & Hs)];
      [reflexivity | discriminate | vm_compute; reflexivity |].
    exists source. fold st. rewrite Hs. reflexivity.
Defined.

(** A status change on the double: the PATCH that is sent has the status,
    the time of the clock and the start given. *)
Lemma set_status_payload_witness :
  sent (snd (set_status registry "j-1" "running" None
               (Some "2024-01-02T10:00:00Z") None (start [reply 200 "OK" "{}"])))
  = [ mkHttpRequest "PATCH" "https://ejr.test/jobs/j-1"
        (Some (JDict [ ("status", JStr "running");
                       ("updated", JStr "2024-01-01T00:00:00Z");
                       ("started", JStr "2024-01-02T10:00:00Z") ]))
        [("Authorization", "Bearer t0k3n")] 20 ].
Proof.
  pose (st := start [reply 200 "OK" "{}"]).
  pose proof (set_status_payload registry "j-1" "running" None
                (Some "2024-01-02T10:00:00Z") None st) as Hp.
  cbv zeta in Hp. destruct Hp as [_ Hp].
  destruct (Hp [ ("status", JStr "running");
                 ("updated", JStr "2024-01-01T00:00:00Z");
                 ("started", JStr "2024-01-02T10:00:00Z") ] st)
    as (_ & _ & _ & _ & Hsent); [reflexivity |].
  fold st.
  rewrite (Hsent [("Authorization", "Bearer t0k3n")]
             (snd (request_headers registry true st)))
    by (vm_compute; reflexivity).
  reflexivity.
Defined.

End MoreRuns.

Section CliRuns.

Import Double.

#[local] Existing Instance sample.
#[local] Existing Instance externals.

(** The registry of a command that sets up authentication: the
    authenticator is made of the secret, and the session was used once,
    for the provider information. *)
Lemma cli_registry_settings_witness :
  exists ejr,
    fst (CliApp._get_job_registry
           (cli := CliDouble.cli true (CliApp.Secret CliDouble.secret))
           ∅ None true (start []))
    = CliApp.Done ejr /\
    _backend_id ejr = Some "test_cli" /\
    _authenticator ejr = Some (mkAuthenticator "https://oidc.test" "client" "s3cr3t") /\
    session (snd (CliApp._get_job_registry
                    (cli := CliDouble.cli true (CliApp.Secret CliDouble.secret))
                    ∅ None true (start [])))
    = [OidcDiscovery "https://oidc.test"].
Proof.
  pose (out := CliApp._get_job_registry
                 (cli := CliDouble.cli true (CliApp.Secret CliDouble.secret))
                 ∅ None true (start [])).
  assert (Hrun : exists ejr, out = (CliApp.Done ejr, snd out)).
  { eexists. vm_compute. reflexivity. }
  destruct Hrun as [ejr Hrun]. fold out.
  destruct (cli_registry_settings
              (cli := CliDouble.cli true (CliApp.Secret CliDouble.secret))
              ∅ None true (start []) (snd out) ejr Hrun)
    as (Hb & _ & _ & _ & _ & Hauth).
  destruct (Hauth eq_refl) as (_ & data & w1 & credentials & Hread & Hcred & _ & Ha & Hs).
  injection Hread as <- <-. vm_compute in Hcred. injection Hcred as <-.
  exists ejr. split; [rewrite Hrun; reflexivity |].
  split; [exact Hb |]. split; [exact Ha |]. rewrite Hs. reflexivity.
Defined.

(** A secret with the client id alone stops the get command. *)
Lemma cli_incomplete_secret_witness :
  exists msg,
    fst (run_command
           (cli := CliDouble.cli true (CliApp.Secret {[ "client_id" := "c-123" ]}))
           ∅ (Get "j-1") (start [reply 200 "OK" "[j-1]"]))
    = CliApp.Failed (CliApp.Raised (EjrError msg))
    /\ PyStr.occurs_in "'oidc_issuer'" msg.
Proof.
  destruct (cli_incomplete_secret
              (cli := CliDouble.cli true (CliApp.Secret {[ "client_id" := "c-123" ]}))
              ∅ (Get "j-1") (start [reply 200 "OK" "[j-1]"])
              {[ "client_id" := "c-123" ]}
              (session_set_header "User-Agent" (user_agent (Some "test_cli"))
                 (world (start [reply 200 "OK" "[j-1]"]))))
    as (msg & Hfail & Hnames & _).
  - reflexivity.
  - reflexivity.
  - reflexivity.
  - intros Hempty.
    apply (not_elem_of_empty (C := gset string) "oidc_issuer").
    rewrite <- Hempty. vm_compute. reflexivity.
  - exists msg. split; [exact Hfail |].
    apply (Hnames "oidc_issuer"). vm_compute. reflexivity.
Defined.

(** Without the vault client the set_status command stops at once. *)
Lemma cli_vault_not_readable_witness :
  fst (run_command (cli := CliDouble.cli false (CliApp.Forbidden "403"))
         ∅ (SetStatusOf "j-1" "running") (start [reply 200 "OK" "{}"]))
  = CliApp.Failed (CliApp.RuntimeError
      "Package `hvac` (HashiCorp Vault client) is required for this functionality").
Proof.
  pose proof (cli_vault_not_readable (cli := CliDouble.cli false (CliApp.Forbidden "403"))
                ∅ (SetStatusOf "j-1" "running") (start [reply 200 "OK" "{}"]) eq_refl)
    as [Hmissing _].
  apply Hmissing. reflexivity.
Defined.


(** An empty JSON object is put under process_graph. *)
Lemma cli_dummy_process_has_process_graph_witness :
  CliApp.dummy_process (Some "{}") = Return (JDict [ ("process_graph", JDict []) ]).
Proof.
  destruct (cli_dummy_process_has_process_graph "{}" [])
    as (process & Hrun & _ & Hshape & _).
  - discriminate.
  - reflexivity.
  - simpl in Hshape. rewrite Hrun, Hshape. reflexivity.
Defined.

End CliRuns.
